(** * Hardware bridge firmware: hybrid analog/DSP node, phi-sensor, I2S bridge

    A shallow embedding of [src/hardware/i2s_bridge.cpp],
    [src/hardware/phi_sensor.cpp] and [src/hardware/hybrid_node.cpp],
    followed by the properties of the processing node design that the code
    satisfies (or fails to satisfy).  The first part of the file holds the
    embedding, the second part the lemmas and theorems.

    Conventions of the embedding.
    - The C globals of a translation unit become one record that every
      function takes and returns; a [bool] result is returned next to it.
    - [float] is IEEE-754 binary32 and [double] binary64, both computed with
      the executable specification of the Standard Library ([SpecFloat]),
      round-to-nearest-even.  Where the code only moves a float through
      memory (the transport codec) the float is its 32-bit pattern.
    - Fixed-width unsigned integers are [Z] with the wrap-around written
      out; array indices and loop counters are [nat].
    - A C array is a [list]; a [for] loop is [for_loop].
    - The sources are embedded as built without [TEENSY], [RASPBERRY_PI] and
      [USE_KISSFFT]; code under [#ifdef TEENSY] that a property depends on
      (the sampling interrupt of the phi-sensor) is embedded as an event the
      environment fires, and the life cycle of the I2S bridge takes the
      build as a parameter.  [printf] diagnostics are not part of the
      state. *)

From Stdlib Require Import ZArith Lia Bool.
From Stdlib Require Import Floats.SpecFloat.
From stdpp Require Import base list.

Local Open Scope Z_scope.

(** ** Counted loops *)

Section Loops.
Context {St : Type}.

(** [for (i = lo; i < lo + n; i++) s = body i s;] *)
Fixpoint for_loop (n : nat) (lo : nat) (body : nat -> St -> St) (s : St) : St :=
  match n with
  | O => s
  | S n' => for_loop n' (S lo) body (body lo s)
  end.
End Loops.

(** ** Fixed-width integers *)

Definition wrap (bits : Z) (z : Z) : Z := z mod 2 ^ bits.
Definition u8 := wrap 8.
Definition u32 := wrap 32.
Definition u64 := wrap 64.
(** [size_t] of the host build. *)
Definition usize := wrap 64.

(** ** IEEE-754 arithmetic *)

(** [float]: binary32. *)
Module F32.
Definition prec := 24.
Definition emax := 128.

Definition zero : spec_float := S754_zero false.
Definition nan : spec_float := S754_nan.

(** Conversion of an integer, as the C conversion [(float)n] does. *)
Definition of_Z (z : Z) : spec_float := binary_normalize prec emax z 0 false.

(** Conversion from [double]: the value [m * 2^e] rounded to 24 bits. *)
Definition of_double (x : spec_float) : spec_float :=
  match x with
  | S754_finite s m e => binary_round prec emax s m e
  | _ => x
  end.

Definition add := SFadd prec emax.
Definition sub := SFsub prec emax.
Definition mul := SFmul prec emax.
Definition div := SFdiv prec emax.
Definition sqrt := SFsqrt prec emax.
Definition abs := SFabs.

(** A decimal literal [p/q] with suffix [f]: the compiler rounds the
    literal to the nearest float, which is what the correctly rounded
    division of two exactly representable integers gives. *)
Definition lit (p q : Z) : spec_float := div (of_Z p) (of_Z q).

(** The C comparison operators; all are false on NaN. *)
Definition lt (x y : spec_float) : bool := SFltb x y.
Definition gt (x y : spec_float) : bool := SFltb y x.
Definition le (x y : spec_float) : bool := SFleb x y.
Definition ge (x y : spec_float) : bool := SFleb y x.

Definition is_nan (x : spec_float) : bool :=
  match x with S754_nan => true | _ => false end.

(** Zero or a finite number: neither an infinity nor NaN. *)
Definition is_finite (x : spec_float) : bool :=
  match x with S754_zero _ | S754_finite _ _ _ => true | _ => false end.

Definition is_zero (x : spec_float) : bool :=
  match x with S754_zero _ => true | _ => false end.

(** [fmaxf] and [fminf]: a NaN argument is treated as missing data. *)
Definition fmaxf (x y : spec_float) : spec_float :=
  if is_nan x then y else if is_nan y then x else if lt x y then y else x.
Definition fminf (x y : spec_float) : spec_float :=
  if is_nan x then y else if is_nan y then x else if lt y x then y else x.
End F32.

(** [double]: binary64, used where the code mixes in [M_PI]. *)
Module F64.
Definition prec := 53.
Definition emax := 1024.

Definition of_Z (z : Z) : spec_float := binary_normalize prec emax z 0 false.

(** Promotion of a [float]; every binary32 value is a binary64 value. *)
Definition of_float (x : spec_float) : spec_float :=
  match x with
  | S754_finite s m e => binary_round prec emax s m e
  | _ => x
  end.

Definition mul := SFmul prec emax.
Definition div := SFdiv prec emax.
End F64.

Abbreviation float := spec_float (only parsing).
Abbreviation double := spec_float (only parsing).

(** [M_PI] of <math.h>, the double nearest to pi (0x400921FB54442D18). *)
Definition M_PI : double := S754_finite false 7074237752028440 (-51).

(** [memcpy] of [n] array elements; the C contract requires both arrays
    to hold [n] elements. *)
Definition memcpy {A} (dst src : list A) (n : nat) : list A :=
  take n src ++ drop n dst.

(** [memset(dst, 0, n * sizeof *dst)] on the first [n] elements. *)
Definition memset_zero {A} (z : A) (dst : list A) (n : nat) : list A :=
  replicate (n `min` length dst) z ++ drop n dst.

(** ** The order of the comparison operators

    [float_key] ranks the numbers so that the comparison of two floats is
    the lexicographic comparison of their keys: first the class (negative
    infinity, negative, zero, positive, positive infinity), then the
    exponent, then the mantissa, the last two mirrored for negative
    numbers. *)
Definition float_key (x : float) : Z * Z * Z :=
  match x with
  | S754_zero _ => (0, 0, 0)
  | S754_infinity false => (2, 0, 0)
  | S754_infinity true => (-2, 0, 0)
  | S754_nan => (3, 0, 0)
  | S754_finite false m e => (1, e, Zpos m)
  | S754_finite true m e => (-1, - e, Zneg m)
  end.

Definition key_compare (a b : Z * Z * Z) : comparison :=
  let '(a1, a2, a3) := a in
  let '(b1, b2, b3) := b in
  match a1 ?= b1 with
  | Eq => match a2 ?= b2 with Eq => a3 ?= b3 | c => c end
  | c => c
  end.

Definition key_lt (a b : Z * Z * Z) : Prop :=
  let '(a1, a2, a3) := a in
  let '(b1, b2, b3) := b in
  a1 < b1 \/ (a1 = b1 /\ (a2 < b2 \/ (a2 = b2 /\ a3 < b3))).

(** * [src/hardware/i2s_bridge.cpp]: transport codec *)

Module I2SBridge.

Definition I2S_CHANNELS : nat := 8.
Definition I2S_BUFFER_SIZE : nat := 512.

(** A [float] that the codec only stores and loads is its 32-bit
    pattern, a number in [0, 2^32). *)
Definition float_bits := Z.
Definition is_float_bits (b : float_bits) : Prop := 0 <= b < 2 ^ 32.

(** The anonymous [union { float f; int32_t i; }]: writing member [f]
    and reading member [i] yields the two's complement reading of the
    same 32 bits, and conversely. *)
Definition union_f_to_i (b : float_bits) : Z :=
  if b <? 2 ^ 31 then b else b - 2 ^ 32.
Definition union_i_to_f (i : Z) : float_bits := i mod 2 ^ 32.

Record ConsciousnessMetrics := {
  phi_phase : float_bits;
  phi_depth : float_bits;
  coherence : float_bits;
  criticality : float_bits;
  ici : float_bits;
  timestamp_us : Z;
  sequence : Z
}.

(** Every float field of the record is a 32-bit pattern. *)
Definition metrics_ok (m : ConsciousnessMetrics) : Prop :=
  is_float_bits (phi_phase m) /\ is_float_bits (phi_depth m) /\
  is_float_bits (coherence m) /\ is_float_bits (criticality m) /\
  is_float_bits (ici m).

Inductive I2SLinkStatus :=
| I2S_LINK_DISCONNECTED | I2S_LINK_SYNCING | I2S_LINK_STABLE
| I2S_LINK_DEGRADED | I2S_LINK_ERROR.

(** The 4th slot: [criticality] on an even sequence number, [ici] on an
    odd one. *)
Definition extra_of (metrics : ConsciousnessMetrics) : float_bits :=
  if sequence metrics mod 2 =? 0 then criticality metrics else ici metrics.

(** One iteration of the interleaving loop: channels 4 to 7 of sample
    [i]. *)
Definition encode_sample (p d c x : Z) (i : nat) (frame : list Z) : list Z :=
  let frame := <[(i * I2S_CHANNELS + 4)%nat := p]> frame in
  let frame := <[(i * I2S_CHANNELS + 5)%nat := d]> frame in
  let frame := <[(i * I2S_CHANNELS + 6)%nat := c]> frame in
  <[(i * I2S_CHANNELS + 7)%nat := x]> frame.

Definition encode_metrics_to_frame
    (frame : list Z) (metrics : ConsciousnessMetrics) : list Z :=
  let phi_phase_i := union_f_to_i (phi_phase metrics) in
  let phi_depth_i := union_f_to_i (phi_depth metrics) in
  let coherence_i := union_f_to_i (coherence metrics) in
  let extra_i := union_f_to_i (extra_of metrics) in
  for_loop I2S_BUFFER_SIZE 0
    (encode_sample phi_phase_i phi_depth_i coherence_i extra_i) frame.

(** The decoder reads the first sample of the buffer and fills the
    caller's record in place; the parity it applies is that of the
    [sequence] field already in the record.  A frame shorter than eight
    words cannot be read: [None]. *)
Definition decode_metrics_from_frame
    (frame : list Z) (metrics : ConsciousnessMetrics)
    : option ConsciousnessMetrics :=
  match frame !! 4%nat, frame !! 5%nat, frame !! 6%nat, frame !! 7%nat with
  | Some p, Some d, Some c, Some x =>
      let extra_f := union_i_to_f x in
      Some {| phi_phase := union_i_to_f p;
              phi_depth := union_i_to_f d;
              coherence := union_i_to_f c;
              criticality := if sequence metrics mod 2 =? 0
                             then extra_f else criticality metrics;
              ici := if sequence metrics mod 2 =? 0
                     then ici metrics else extra_f;
              timestamp_us := timestamp_us metrics;
              sequence := sequence metrics |}
  | _, _, _, _ => None
  end.

(** Globals of the translation unit that the transmit and receive paths
    touch. *)
Record Globals := {
  g_running : bool;
  g_tx_buffer : list Z;
  g_rx_buffer : list Z;
  frames_transmitted : Z;
  frames_received : Z
}.

(** A null pointer argument is [None]. *)
Definition i2s_bridge_transmit
    (audio_data : option (list Z)) (metrics : option ConsciousnessMetrics)
    (g : Globals) : bool * Globals :=
  match audio_data, metrics with
  | Some audio, Some m =>
      if negb (g_running g) then (false, g)
      else
        let tx := memcpy (g_tx_buffer g) audio (I2S_BUFFER_SIZE * I2S_CHANNELS) in
        let tx := encode_metrics_to_frame tx m in
        (true, {| g_running := g_running g;
                  g_tx_buffer := tx;
                  g_rx_buffer := g_rx_buffer g;
                  frames_transmitted := u64 (frames_transmitted g + 1);
                  frames_received := frames_received g |})
  | _, _ => (false, g)
  end.

(** Receive returns the audio copy and the decoded record next to the
    result; on failure the caller's record is handed back untouched. *)
Definition i2s_bridge_receive
    (audio_data : option (list Z)) (metrics : option ConsciousnessMetrics)
    (g : Globals)
    : bool * option (list Z) * option ConsciousnessMetrics * Globals :=
  match audio_data, metrics with
  | Some audio, Some m =>
      if negb (g_running g) then (false, audio_data, metrics, g)
      else
        match decode_metrics_from_frame (g_rx_buffer g) m with
        | Some m' =>
            (true,
             Some (memcpy audio (g_rx_buffer g) (I2S_BUFFER_SIZE * I2S_CHANNELS)),
             Some m',
             {| g_running := g_running g;
                g_tx_buffer := g_tx_buffer g;
                g_rx_buffer := g_rx_buffer g;
                frames_transmitted := frames_transmitted g;
                frames_received := u64 (frames_received g + 1) |})
        | None => (false, audio_data, metrics, g)
        end
  | _, _ => (false, audio_data, metrics, g)
  end.

(** The record of the self-test, sequence number 0: 3.14159f, 0.5f,
    0.95f, 1.0f and 100.0f as bit patterns. *)
Definition self_test_metrics : ConsciousnessMetrics :=
  {| phi_phase := 1078530000;   (* 0x40490FD0 *)
     phi_depth := 1056964608;   (* 0x3F000000 *)
     coherence := 1064514355;   (* 0x3F733333 *)
     criticality := 1065353216; (* 0x3F800000 *)
     ici := 1120403456;         (* 0x42C80000 *)
     timestamp_us := 0;
     sequence := 0 |}.

Definition blank_metrics : ConsciousnessMetrics :=
  {| phi_phase := 0; phi_depth := 0; coherence := 0; criticality := 0;
     ici := 0; timestamp_us := 0; sequence := 0 |}.

Definition silent_frame : list Z :=
  replicate (I2S_BUFFER_SIZE * I2S_CHANNELS) 0.

(** ** Bridge life cycle

    The rest of the translation unit's state, around the part that the
    transmit and receive paths touch.  [g_io] groups [g_running], the two
    DMA buffers and the counters [frames_transmitted] and
    [frames_received] of [g_stats]; the other fields of [g_stats] are
    fields of [Bridge]. *)

(** The build: which of [TEENSY] and [RASPBERRY_PI] is defined. *)
Inductive Platform := TEENSY | RASPBERRY_PI | HOST.

Inductive I2SMode := I2S_MODE_MASTER | I2S_MODE_SLAVE.

Record I2SBridgeConfig := {
  mode : I2SMode;
  sample_rate : Z;
  bit_depth : Z;
  channels : Z;
  buffer_size : Z;
  enable_gpio_sync : bool;
  enable_diagnostics : bool;
  gpio_sync_pin : Z
}.

Record Bridge := {
  g_io : Globals;
  g_config : I2SBridgeConfig;
  g_initialized : bool;
  frames_dropped : Z;
  latency_us : Z;
  jitter_us : Z;
  clock_drift_ppm : float_bits;
  link_status : I2SLinkStatus;
  uptime_ms : Z
}.

Definition zero_config : I2SBridgeConfig :=
  {| mode := I2S_MODE_MASTER; sample_rate := 0; bit_depth := 0; channels := 0;
     buffer_size := 0; enable_gpio_sync := false; enable_diagnostics := false;
     gpio_sync_pin := 0 |}.

(** The statics as the C runtime zero-initialises them. *)
Definition initial_bridge : Bridge :=
  {| g_io := {| g_running := false;
                g_tx_buffer := replicate (I2S_BUFFER_SIZE * I2S_CHANNELS) 0;
                g_rx_buffer := replicate (I2S_BUFFER_SIZE * I2S_CHANNELS) 0;
                frames_transmitted := 0;
                frames_received := 0 |};
     g_config := zero_config;
     g_initialized := false;
     frames_dropped := 0; latency_us := 0; jitter_us := 0;
     clock_drift_ppm := 0; link_status := I2S_LINK_DISCONNECTED;
     uptime_ms := 0 |}.

Definition set_io (io : Globals) (b : Bridge) : Bridge :=
  {| g_io := io; g_config := g_config b; g_initialized := g_initialized b;
     frames_dropped := frames_dropped b; latency_us := latency_us b;
     jitter_us := jitter_us b; clock_drift_ppm := clock_drift_ppm b;
     link_status := link_status b; uptime_ms := uptime_ms b |}.

Definition io_with_running (r : bool) (io : Globals) : Globals :=
  {| g_running := r; g_tx_buffer := g_tx_buffer io;
     g_rx_buffer := g_rx_buffer io;
     frames_transmitted := frames_transmitted io;
     frames_received := frames_received io |}.

Definition io_with_counters (tx rx : Z) (io : Globals) : Globals :=
  {| g_running := g_running io; g_tx_buffer := g_tx_buffer io;
     g_rx_buffer := g_rx_buffer io;
     frames_transmitted := tx; frames_received := rx |}.

Definition platform_i2s_init (p : Platform) : bool :=
  match p with TEENSY => true | RASPBERRY_PI => true | HOST => false end.

Definition platform_dma_start (p : Platform) : bool :=
  match p with TEENSY => true | _ => false end.

(** [i2s_bridge_init]; [None] is a null [config].  The configuration is
    copied and the statistics are cleared before the hardware is tried. *)
Definition i2s_bridge_init (p : Platform) (config : option I2SBridgeConfig)
    (b : Bridge) : bool * Bridge :=
  match config with
  | None => (false, b)
  | Some cfg =>
      let b := {| g_io := io_with_counters 0 0 (g_io b);
                  g_config := cfg;
                  g_initialized := g_initialized b;
                  frames_dropped := 0; latency_us := 0; jitter_us := 0;
                  clock_drift_ppm := 0;
                  link_status := I2S_LINK_DISCONNECTED;
                  uptime_ms := 0 |} in
      if negb (platform_i2s_init p) then (false, b)
      else
        (true,
         {| g_io := g_io b; g_config := g_config b; g_initialized := true;
            frames_dropped := frames_dropped b; latency_us := latency_us b;
            jitter_us := jitter_us b; clock_drift_ppm := clock_drift_ppm b;
            link_status := I2S_LINK_SYNCING; uptime_ms := uptime_ms b |})
  end.

Definition i2s_bridge_start (p : Platform) (b : Bridge) : bool * Bridge :=
  if negb (g_initialized b) || g_running (g_io b) then (false, b)
  else if negb (platform_dma_start p) then (false, b)
  else
    (true,
     {| g_io := io_with_running true (g_io b); g_config := g_config b;
        g_initialized := g_initialized b;
        frames_dropped := frames_dropped b; latency_us := latency_us b;
        jitter_us := jitter_us b; clock_drift_ppm := clock_drift_ppm b;
        link_status := I2S_LINK_STABLE; uptime_ms := 0 |}).

Definition i2s_bridge_stop (b : Bridge) : bool * Bridge :=
  if negb (g_running (g_io b)) then (false, b)
  else
    (true,
     {| g_io := io_with_running false (g_io b); g_config := g_config b;
        g_initialized := g_initialized b;
        frames_dropped := frames_dropped b; latency_us := latency_us b;
        jitter_us := jitter_us b; clock_drift_ppm := clock_drift_ppm b;
        link_status := I2S_LINK_DISCONNECTED; uptime_ms := uptime_ms b |}).

Definition i2s_bridge_set_gpio_sync (enable : bool) (b : Bridge)
    : bool * Bridge :=
  let c := g_config b in
  (true,
   {| g_io := g_io b;
      g_config := {| mode := mode c; sample_rate := sample_rate c;
                     bit_depth := bit_depth c; channels := channels c;
                     buffer_size := buffer_size c;
                     enable_gpio_sync := enable;
                     enable_diagnostics := enable_diagnostics c;
                     gpio_sync_pin := gpio_sync_pin c |};
      g_initialized := g_initialized b;
      frames_dropped := frames_dropped b; latency_us := latency_us b;
      jitter_us := jitter_us b; clock_drift_ppm := clock_drift_ppm b;
      link_status := link_status b; uptime_ms := uptime_ms b |}).

Definition i2s_bridge_reset_statistics (b : Bridge) : bool * Bridge :=
  (true,
   {| g_io := io_with_counters 0 0 (g_io b); g_config := g_config b;
      g_initialized := g_initialized b;
      frames_dropped := 0; latency_us := latency_us b;
      jitter_us := jitter_us b; clock_drift_ppm := clock_drift_ppm b;
      link_status := link_status b; uptime_ms := 0 |}).

Definition i2s_bridge_get_link_status (b : Bridge) : I2SLinkStatus :=
  link_status b.

(** The calls of the public interface that change the state of the
    bridge, apart from the loop-back self-test and the drift measurement,
    which write [latency_us], [jitter_us] and [clock_drift_ppm] only. *)
Inductive Call :=
| CallInit (config : option I2SBridgeConfig)
| CallStart
| CallStop
| CallTransmit (audio_data : option (list Z))
               (metrics : option ConsciousnessMetrics)
| CallReceive (audio_data : option (list Z))
              (metrics : option ConsciousnessMetrics)
| CallSetGpioSync (enable : bool)
| CallResetStatistics.

(** The result of a call and the state after it. *)
Definition call (p : Platform) (c : Call) (b : Bridge) : bool * Bridge :=
  match c with
  | CallInit config => i2s_bridge_init p config b
  | CallStart => i2s_bridge_start p b
  | CallStop => i2s_bridge_stop b
  | CallTransmit audio metrics =>
      let '(ok, io) := i2s_bridge_transmit audio metrics (g_io b) in
      (ok, set_io io b)
  | CallReceive audio metrics =>
      let '(ok, _, _, io) := i2s_bridge_receive audio metrics (g_io b) in
      (ok, set_io io b)
  | CallSetGpioSync enable => i2s_bridge_set_gpio_sync enable b
  | CallResetStatistics => i2s_bridge_reset_statistics b
  end.

Definition calls (p : Platform) (cs : list Call) (b : Bridge) : Bridge :=
  fold_left (fun b c => snd (call p c b)) cs b.

(** Is the call a transfer of a frame? *)
Definition is_transfer (c : Call) : bool :=
  match c with CallTransmit _ _ | CallReceive _ _ => true | _ => false end.

(** The word that the encoder stores in channel [ch] of every sample;
    channels 0 to 3 keep the audio word. *)
Definition channel_word (metrics : ConsciousnessMetrics) (ch : nat)
    (audio : Z) : Z :=
  match ch with
  | 4%nat => union_f_to_i (phi_phase metrics)
  | 5%nat => union_f_to_i (phi_depth metrics)
  | 6%nat => union_f_to_i (coherence metrics)
  | 7%nat => union_f_to_i (extra_of metrics)
  | _ => audio
  end.

(** A transmit request used in examples: the square wave of the
    self-test. *)
Definition square_wave : list Z :=
  map (fun j => if (j mod 2 =? 0)%nat then -8388608 else 8388607)
      (seq 0 (I2S_BUFFER_SIZE * I2S_CHANNELS)).

Definition running_io : Globals :=
  {| g_running := true;
     g_tx_buffer := silent_frame; g_rx_buffer := silent_frame;
     frames_transmitted := 0; frames_received := 0 |}.

Definition self_test_config : I2SBridgeConfig :=
  {| mode := I2S_MODE_MASTER; sample_rate := 48000; bit_depth := 24;
     channels := 8; buffer_size := 512; enable_gpio_sync := true;
     enable_diagnostics := false; gpio_sync_pin := 2 |}.

End I2SBridge.

(** * [src/hardware/phi_sensor.cpp]: sensor acquisition

    Embedded as built for [TEENSY], the build that has the sampling
    interrupt; the values of [micros()] and [analogRead()] are arguments. *)

Module PhiSensor.

Definition PHI_SENSOR_CHANNELS : nat := 4.
Definition PHI_SENSOR_ADC_MAX : Z := 4095.
Definition PHI_SENSOR_VOLTAGE_MAX : float := F32.lit 33 10.
Definition FILTER_ALPHA : float := F32.lit 3 10.
Definition one : float := F32.of_Z 1.
Definition half : float := F32.lit 1 2.

Record PhiSensorConfig := {
  adc_pins : list Z;
  sample_rate_hz : Z;
  enable_filtering : bool;
  filter_cutoff_hz : float;
  enable_calibration : bool
}.

Record PhiSensorCalibration := {
  offset : list float;
  scale : list float;
  voltage_min : list float;
  voltage_max : list float;
  calibration_samples : Z;
  residual_error : float
}.

Record PhiSensorData := {
  raw_adc : list Z;
  voltage : list float;
  normalized : list float;
  timestamp_us : Z;
  sample_number : Z
}.

Record PhiSensorStatistics := {
  total_samples : Z;
  sample_rate_actual : Z;
  sample_rate_jitter : float;
  dropped_samples : Z;
  signal_quality : list float;
  calibrated : bool
}.

Record Globals := {
  g_config : PhiSensorConfig;
  g_stats : PhiSensorStatistics;
  g_calibration : PhiSensorCalibration;
  g_initialized : bool;
  g_running : bool;
  g_sample_counter : Z;
  g_last_sample_us : Z;
  g_current_data : PhiSensorData;
  g_data_ready : bool;
  g_filter_state : list float
}.

Definition zeros : list float := replicate PHI_SENSOR_CHANNELS F32.zero.

Definition zero_config : PhiSensorConfig :=
  {| adc_pins := replicate PHI_SENSOR_CHANNELS 0; sample_rate_hz := 0;
     enable_filtering := false; filter_cutoff_hz := F32.zero;
     enable_calibration := false |}.

Definition zero_stats : PhiSensorStatistics :=
  {| total_samples := 0; sample_rate_actual := 0;
     sample_rate_jitter := F32.zero; dropped_samples := 0;
     signal_quality := zeros; calibrated := false |}.

Definition zero_data : PhiSensorData :=
  {| raw_adc := replicate PHI_SENSOR_CHANNELS 0; voltage := zeros;
     normalized := zeros; timestamp_us := 0; sample_number := 0 |}.

Definition default_calibration : PhiSensorCalibration :=
  {| offset := zeros;
     scale := replicate PHI_SENSOR_CHANNELS one;
     voltage_min := zeros;
     voltage_max := replicate PHI_SENSOR_CHANNELS PHI_SENSOR_VOLTAGE_MAX;
     calibration_samples := 0;
     residual_error := F32.zero |}.

(** The statics as the C runtime zero-initialises them. *)
Definition initial_globals : Globals :=
  {| g_config := zero_config;
     g_stats := zero_stats;
     g_calibration :=
       {| offset := zeros; scale := zeros; voltage_min := zeros;
          voltage_max := zeros; calibration_samples := 0;
          residual_error := F32.zero |};
     g_initialized := false;
     g_running := false;
     g_sample_counter := 0;
     g_last_sample_us := 0;
     g_current_data := zero_data;
     g_data_ready := false;
     g_filter_state := zeros |}.

(** Field updates. *)
Definition set_running (b : bool) (g : Globals) : Globals :=
  {| g_config := g_config g; g_stats := g_stats g;
     g_calibration := g_calibration g; g_initialized := g_initialized g;
     g_running := b; g_sample_counter := g_sample_counter g;
     g_last_sample_us := g_last_sample_us g;
     g_current_data := g_current_data g; g_data_ready := g_data_ready g;
     g_filter_state := g_filter_state g |}.

Definition set_sample_counter (n : Z) (g : Globals) : Globals :=
  {| g_config := g_config g; g_stats := g_stats g;
     g_calibration := g_calibration g; g_initialized := g_initialized g;
     g_running := g_running g; g_sample_counter := n;
     g_last_sample_us := g_last_sample_us g;
     g_current_data := g_current_data g; g_data_ready := g_data_ready g;
     g_filter_state := g_filter_state g |}.

Definition set_last_sample_us (t : Z) (g : Globals) : Globals :=
  {| g_config := g_config g; g_stats := g_stats g;
     g_calibration := g_calibration g; g_initialized := g_initialized g;
     g_running := g_running g; g_sample_counter := g_sample_counter g;
     g_last_sample_us := t;
     g_current_data := g_current_data g; g_data_ready := g_data_ready g;
     g_filter_state := g_filter_state g |}.

Definition set_current_data (d : PhiSensorData) (g : Globals) : Globals :=
  {| g_config := g_config g; g_stats := g_stats g;
     g_calibration := g_calibration g; g_initialized := g_initialized g;
     g_running := g_running g; g_sample_counter := g_sample_counter g;
     g_last_sample_us := g_last_sample_us g;
     g_current_data := d; g_data_ready := g_data_ready g;
     g_filter_state := g_filter_state g |}.

Definition set_data_ready (b : bool) (g : Globals) : Globals :=
  {| g_config := g_config g; g_stats := g_stats g;
     g_calibration := g_calibration g; g_initialized := g_initialized g;
     g_running := g_running g; g_sample_counter := g_sample_counter g;
     g_last_sample_us := g_last_sample_us g;
     g_current_data := g_current_data g; g_data_ready := b;
     g_filter_state := g_filter_state g |}.

Definition set_filter_state (f : list float) (g : Globals) : Globals :=
  {| g_config := g_config g; g_stats := g_stats g;
     g_calibration := g_calibration g; g_initialized := g_initialized g;
     g_running := g_running g; g_sample_counter := g_sample_counter g;
     g_last_sample_us := g_last_sample_us g;
     g_current_data := g_current_data g; g_data_ready := g_data_ready g;
     g_filter_state := f |}.

Definition set_stats (s : PhiSensorStatistics) (g : Globals) : Globals :=
  {| g_config := g_config g; g_stats := s;
     g_calibration := g_calibration g; g_initialized := g_initialized g;
     g_running := g_running g; g_sample_counter := g_sample_counter g;
     g_last_sample_us := g_last_sample_us g;
     g_current_data := g_current_data g; g_data_ready := g_data_ready g;
     g_filter_state := g_filter_state g |}.

Definition bump_total_samples (s : PhiSensorStatistics) : PhiSensorStatistics :=
  {| total_samples := u64 (total_samples s + 1);
     sample_rate_actual := sample_rate_actual s;
     sample_rate_jitter := sample_rate_jitter s;
     dropped_samples := dropped_samples s;
     signal_quality := signal_quality s;
     calibrated := calibrated s |}.

(** [adc_to_voltage] *)
Definition adc_to_voltage (adc_value : Z) : float :=
  F32.mul (F32.div (F32.of_Z adc_value) (F32.of_Z PHI_SENSOR_ADC_MAX))
          PHI_SENSOR_VOLTAGE_MAX.

(** [apply_calibration] *)
Definition apply_calibration (g : Globals) (v : float) (channel : nat) : float :=
  if negb (enable_calibration (g_config g)) || negb (calibrated (g_stats g))
  then F32.div v PHI_SENSOR_VOLTAGE_MAX
  else
    let v_min := nth channel (voltage_min (g_calibration g)) F32.zero in
    let v_max := nth channel (voltage_max (g_calibration g)) F32.zero in
    if F32.le v_max v_min then half
    else
      let n := F32.div (F32.sub v v_min) (F32.sub v_max v_min) in
      let n := if F32.lt n F32.zero then F32.zero else n in
      if F32.gt n one then one else n.

(** [apply_filter]: the exponential moving average updates the filter
    state of the channel. *)
Definition apply_filter (new_value : float) (channel : nat) (g : Globals)
    : float * Globals :=
  if negb (enable_filtering (g_config g)) then (new_value, g)
  else
    let old := nth channel (g_filter_state g) F32.zero in
    let y := F32.add (F32.mul FILTER_ALPHA new_value)
                     (F32.mul (F32.sub one FILTER_ALPHA) old) in
    (y, set_filter_state (<[channel := y]> (g_filter_state g)) g).

(** Body of the channel loop of the interrupt handler; [adc ch] is what
    [analogRead] returns for the pin of channel [ch]. *)
Definition sample_channel (adc : nat -> Z) (ch : nat)
    (st : PhiSensorData * Globals) : PhiSensorData * Globals :=
  let '(data, g) := st in
  let raw := wrap 16 (adc ch) in
  let v := adc_to_voltage raw in
  let '(n, g) := apply_filter (apply_calibration g v ch) ch g in
  ({| raw_adc := <[ch := raw]> (raw_adc data);
      voltage := <[ch := v]> (voltage data);
      normalized := <[ch := n]> (normalized data);
      timestamp_us := timestamp_us data;
      sample_number := sample_number data |}, g).

(** [sample_timer_isr], fired by the interval timer; [now_us] is
    [micros()]. *)
Definition sample_timer_isr (now_us : Z) (adc : nat -> Z) (g : Globals) : Globals :=
  if negb (g_running g) then g
  else
    let g := set_last_sample_us now_us g in
    let data := {| raw_adc := raw_adc zero_data; voltage := voltage zero_data;
                   normalized := normalized zero_data;
                   timestamp_us := now_us;
                   sample_number := g_sample_counter g |} in
    let g := set_sample_counter (u32 (g_sample_counter g + 1)) g in
    let '(data, g) := for_loop PHI_SENSOR_CHANNELS 0 (sample_channel adc) (data, g) in
    let g := set_current_data data g in
    let g := set_data_ready true g in
    set_stats (bump_total_samples (g_stats g)) g.

(** [phi_sensor_init]; [None] is a null [config]. *)
Definition phi_sensor_init (config : option PhiSensorConfig) (g : Globals)
    : bool * Globals :=
  match config with
  | None => (false, g)
  | Some cfg =>
      (true,
       {| g_config := cfg;
          g_stats := zero_stats;
          g_calibration := default_calibration;
          g_initialized := true;
          g_running := g_running g;
          g_sample_counter := g_sample_counter g;
          g_last_sample_us := g_last_sample_us g;
          g_current_data := g_current_data g;
          g_data_ready := g_data_ready g;
          g_filter_state := g_filter_state g |})
  end.

(** [phi_sensor_start]; [now_us] is [micros()]. *)
Definition phi_sensor_start (now_us : Z) (g : Globals) : bool * Globals :=
  if negb (g_initialized g) || g_running g then (false, g)
  else
    (true, set_last_sample_us now_us (set_sample_counter 0 (set_running true g))).

Definition phi_sensor_stop (g : Globals) : bool * Globals :=
  if negb (g_running g) then (false, g)
  else (true, set_running false g).

(** [phi_sensor_read].  The caller's structure is [Some] of its content
    before the call, [None] for a null pointer; the second component of
    the result is its content after the call. *)
Definition phi_sensor_read (data : option PhiSensorData) (g : Globals)
    : bool * option PhiSensorData * Globals :=
  match data with
  | None => (false, data, g)
  | Some _ =>
      if negb (g_running g) then (false, data, g)
      else if negb (g_data_ready g) then (false, data, g)
      else (true, Some (g_current_data g), set_data_ready false g)
  end.

Definition phi_sensor_data_available (g : Globals) : bool := g_data_ready g.

(** What the environment and the application can do to the sensor. *)
Inductive Event :=
| EvInit (config : option PhiSensorConfig)
| EvStart (now_us : Z)
| EvStop
| EvSample (now_us : Z) (adc : nat -> Z)
| EvRead (data : option PhiSensorData).

Definition step (e : Event) (g : Globals) : Globals :=
  match e with
  | EvInit c => snd (phi_sensor_init c g)
  | EvStart t => snd (phi_sensor_start t g)
  | EvStop => snd (phi_sensor_stop g)
  | EvSample t adc => sample_timer_isr t adc g
  | EvRead d => snd (phi_sensor_read d g)
  end.

(** Has the interrupt stored a sample that no successful read has
    consumed yet?  Computed from the history alone: a sample is stored
    when the interrupt fires on a running sensor, and consumed by a read
    that returns [true]. *)
Definition step_pending (e : Event) (g : Globals) (pending : bool) : bool :=
  match e with
  | EvSample _ _ => if g_running g then true else pending
  | EvRead d => if fst (fst (phi_sensor_read d g)) then false else pending
  | _ => pending
  end.

Fixpoint run (events : list Event) (g : Globals) (pending : bool)
    : Globals * bool :=
  match events with
  | [] => (g, pending)
  | e :: rest => run rest (step e g) (step_pending e g pending)
  end.

(** A reading used in examples. *)
Definition mid_scale (ch : nat) : Z := 2048.

Definition default_config : PhiSensorConfig :=
  {| adc_pins := [14; 15; 16; 17]; sample_rate_hz := 30;
     enable_filtering := true; filter_cutoff_hz := F32.of_Z 10;
     enable_calibration := false |}.

(** ** The rest of the public interface

    [phi_sensor_calibrate] is not embedded: its acquisition loop waits on
    [millis()] while the sampling interrupt preempts it. *)

Definition set_config (c : PhiSensorConfig) (g : Globals) : Globals :=
  {| g_config := c; g_stats := g_stats g;
     g_calibration := g_calibration g; g_initialized := g_initialized g;
     g_running := g_running g; g_sample_counter := g_sample_counter g;
     g_last_sample_us := g_last_sample_us g;
     g_current_data := g_current_data g; g_data_ready := g_data_ready g;
     g_filter_state := g_filter_state g |}.

Definition set_calibration (c : PhiSensorCalibration) (g : Globals) : Globals :=
  {| g_config := g_config g; g_stats := g_stats g;
     g_calibration := c; g_initialized := g_initialized g;
     g_running := g_running g; g_sample_counter := g_sample_counter g;
     g_last_sample_us := g_last_sample_us g;
     g_current_data := g_current_data g; g_data_ready := g_data_ready g;
     g_filter_state := g_filter_state g |}.

Definition cfg_with_sample_rate (r : Z) (c : PhiSensorConfig) : PhiSensorConfig :=
  {| adc_pins := adc_pins c; sample_rate_hz := r;
     enable_filtering := enable_filtering c;
     filter_cutoff_hz := filter_cutoff_hz c;
     enable_calibration := enable_calibration c |}.

Definition cfg_with_filtering (b : bool) (c : PhiSensorConfig) : PhiSensorConfig :=
  {| adc_pins := adc_pins c; sample_rate_hz := sample_rate_hz c;
     enable_filtering := b;
     filter_cutoff_hz := filter_cutoff_hz c;
     enable_calibration := enable_calibration c |}.

Definition stats_with_calibrated (b : bool) (s : PhiSensorStatistics)
    : PhiSensorStatistics :=
  {| total_samples := total_samples s;
     sample_rate_actual := sample_rate_actual s;
     sample_rate_jitter := sample_rate_jitter s;
     dropped_samples := dropped_samples s;
     signal_quality := signal_quality s;
     calibrated := b |}.

(** [phi_sensor_load_calibration]; [None] is a null pointer. *)
Definition phi_sensor_load_calibration
    (calibration : option PhiSensorCalibration) (g : Globals) : bool * Globals :=
  match calibration with
  | None => (false, g)
  | Some c =>
      let g := set_calibration c g in
      (true, set_stats (stats_with_calibrated true (g_stats g)) g)
  end.

(** [phi_sensor_get_statistics]: the copy handed out reports the
    configured rate once a sample has been taken; the statics are not
    written. *)
Definition phi_sensor_get_statistics
    (stats : option PhiSensorStatistics) (g : Globals)
    : bool * option PhiSensorStatistics :=
  match stats with
  | None => (false, None)
  | Some _ =>
      let s := g_stats g in
      (true,
       Some (if 0 <? total_samples s
             then {| total_samples := total_samples s;
                     sample_rate_actual := sample_rate_hz (g_config g);
                     sample_rate_jitter := half;
                     dropped_samples := dropped_samples s;
                     signal_quality := signal_quality s;
                     calibrated := calibrated s |}
             else s))
  end.

Definition phi_sensor_reset_statistics (g : Globals) : bool * Globals :=
  let s := g_stats g in
  (true,
   set_stats {| total_samples := 0;
                sample_rate_actual := sample_rate_actual s;
                sample_rate_jitter := sample_rate_jitter s;
                dropped_samples := 0;
                signal_quality := signal_quality s;
                calibrated := calibrated s |} g).

Definition phi_sensor_get_sample_rate (g : Globals) : float :=
  F32.of_Z (sample_rate_actual (g_stats g)).

(** [phi_sensor_set_sample_rate]; [rate_hz] is converted to [uint32_t]
    at the call, [now_us] is [micros()] at the restart. *)
Definition phi_sensor_set_sample_rate (rate_hz : Z) (now_us : Z) (g : Globals)
    : bool * Globals :=
  let rate_hz := u32 rate_hz in
  if (rate_hz <? 1) || (1000 <? rate_hz) then (false, g)
  else
    let g := set_config (cfg_with_sample_rate rate_hz (g_config g)) g in
    let g := if g_running g
             then snd (phi_sensor_start now_us (snd (phi_sensor_stop g)))
             else g in
    (true, g).

Definition phi_sensor_set_filtering (enable : bool) (g : Globals)
    : bool * Globals :=
  let g := set_config (cfg_with_filtering enable (g_config g)) g in
  let g := if negb enable
           then for_loop PHI_SENSOR_CHANNELS 0
                  (fun ch g =>
                     set_filter_state (<[ch := F32.zero]> (g_filter_state g)) g)
                  g
           else g in
  (true, g).

(** The calls and the interrupt that change the state of the sensor. *)
Inductive Call :=
| CallInit (config : option PhiSensorConfig)
| CallStart (now_us : Z)
| CallStop
| CallSample (now_us : Z) (adc : nat -> Z)
| CallRead (data : option PhiSensorData)
| CallLoadCalibration (calibration : option PhiSensorCalibration)
| CallResetStatistics
| CallSetSampleRate (rate_hz : Z) (now_us : Z)
| CallSetFiltering (enable : bool).

Definition call (c : Call) (g : Globals) : Globals :=
  match c with
  | CallInit config => snd (phi_sensor_init config g)
  | CallStart t => snd (phi_sensor_start t g)
  | CallStop => snd (phi_sensor_stop g)
  | CallSample t adc => sample_timer_isr t adc g
  | CallRead d => snd (phi_sensor_read d g)
  | CallLoadCalibration c => snd (phi_sensor_load_calibration c g)
  | CallResetStatistics => snd (phi_sensor_reset_statistics g)
  | CallSetSampleRate r t => snd (phi_sensor_set_sample_rate r t g)
  | CallSetFiltering b => snd (phi_sensor_set_filtering b g)
  end.

Definition calls (cs : list Call) (g : Globals) : Globals :=
  fold_left (fun g c => call c g) cs g.

(** Consecutive firings of the sampling interrupt. *)
Definition fire (samples : list (Z * (nat -> Z))) (g : Globals) : Globals :=
  fold_left (fun g s => sample_timer_isr (fst s) (snd s) g) samples g.

(** Is every rate that an initialisation of the history configures at
    least 1 Hz?  [phi_sensor_start] divides by the configured rate. *)
Definition rate_configured (c : Call) : bool :=
  match c with
  | CallInit (Some cfg) => 1 <=? sample_rate_hz cfg
  | _ => true
  end.

(** The reading of a channel before filtering. *)
Definition channel_reading (g : Globals) (adc : nat -> Z) (ch : nat) : float :=
  apply_calibration g (adc_to_voltage (wrap 16 (adc ch))) ch.

(** The output of the exponential moving average for a channel. *)
Definition channel_average (g : Globals) (adc : nat -> Z) (ch : nat) : float :=
  F32.add (F32.mul FILTER_ALPHA (channel_reading g adc ch))
          (F32.mul (F32.sub one FILTER_ALPHA)
                   (nth ch (g_filter_state g) F32.zero)).

(** Is the conversion of the raw reading within range: the voltage in
    [0, 3.3] and the reading normalised without calibration in [0, 1]? *)
Definition conversion_in_range (raw : Z) : bool :=
  let v := adc_to_voltage raw in
  let n := F32.div v PHI_SENSOR_VOLTAGE_MAX in
  F32.le F32.zero v && F32.le v PHI_SENSOR_VOLTAGE_MAX
  && F32.le F32.zero n && F32.le n one.

(** A sensor initialised with the default configuration and started. *)
Definition running_sensor : Globals :=
  snd (phi_sensor_start 0 (snd (phi_sensor_init (Some default_config)
                                  initial_globals))).

(** A calibration profile used in examples: the range 0.1 V to 3.2 V on
    every channel. *)
Definition example_calibration : PhiSensorCalibration :=
  {| offset := zeros;
     scale := replicate PHI_SENSOR_CHANNELS one;
     voltage_min := replicate PHI_SENSOR_CHANNELS (F32.lit 1 10);
     voltage_max := replicate PHI_SENSOR_CHANNELS (F32.lit 32 10);
     calibration_samples := 30;
     residual_error := F32.lit 15 10 |}.

(** What the channel loop of the interrupt handler leaves alone:
everything but the filter state, whose length it keeps. *)
Definition isr_frame (g g' : Globals) : Prop :=
  g_config g' = g_config g /\ g_stats g' = g_stats g
  /\ g_calibration g' = g_calibration g
  /\ g_initialized g' = g_initialized g /\ g_running g' = g_running g
  /\ g_sample_counter g' = g_sample_counter g
  /\ g_last_sample_us g' = g_last_sample_us g
  /\ g_current_data g' = g_current_data g
  /\ g_data_ready g' = g_data_ready g
  /\ length (g_filter_state g') = length (g_filter_state g).

End PhiSensor.

(** * [src/hardware/hybrid_node.cpp]: hybrid analog/DSP node

    Embedded as built for the host: no [TEENSY], no [RASPBERRY_PI], no
    [USE_KISSFFT].  In this build the thermal branch of [safety_check] and
    the latency measurement of [hybrid_node_process] are compiled out, the
    ADC stub reads silence and the DAC stub accepts every buffer. *)

Module HybridNode.

(** ** Constants of [hybrid_node.h] *)

Definition HYBRID_SAMPLE_RATE : Z := 48000.
Definition HYBRID_BUFFER_SIZE : nat := 512.
Definition HYBRID_FFT_SIZE : nat := 1024.
Definition HYBRID_ADC_CHANNELS : nat := 2.
Definition HYBRID_DAC_CHANNELS : nat := 4.

Definition ANALOG_HPF_CUTOFF : float := F32.of_Z 120.
Definition ANALOG_LPF_CUTOFF : float := F32.of_Z 8000.
Definition ANALOG_PREAMP_GAIN_MIN : float := F32.of_Z 1.
Definition ANALOG_PREAMP_GAIN_MAX : float := F32.of_Z 40.

Definition SAFETY_VOLTAGE_MAX : float := F32.of_Z 5.
Definition SAFETY_VOLTAGE_MIN : float := F32.zero.
Definition SAFETY_TEMP_WARNING : float := F32.of_Z 70.
Definition SAFETY_TEMP_CRITICAL : float := F32.of_Z 85.
Definition SAFETY_OVERLOAD_THRESH : float := F32.lit 95 100.

Definition CAL_SAMPLES : nat := 10.

Definition one : float := F32.of_Z 1.

(** ** Types of [hybrid_node.h] *)

Inductive HybridInterfaceType :=
| HYBRID_INTERFACE_I2S | HYBRID_INTERFACE_SPI | HYBRID_INTERFACE_USB.

Inductive HybridNodeMode :=
| HYBRID_MODE_ANALOG_ONLY | HYBRID_MODE_DSP_ONLY
| HYBRID_MODE_HYBRID | HYBRID_MODE_CALIBRATION.

Inductive HybridSafetyStatus :=
| HYBRID_SAFETY_OK
| HYBRID_SAFETY_VOLTAGE_CLAMP
| HYBRID_SAFETY_TEMP_WARNING
| HYBRID_SAFETY_TEMP_CRITICAL
| HYBRID_SAFETY_ADC_OVERLOAD
| HYBRID_SAFETY_FAULT.

Definition safety_status_eqb (a b : HybridSafetyStatus) : bool :=
  match a, b with
  | HYBRID_SAFETY_OK, HYBRID_SAFETY_OK
  | HYBRID_SAFETY_VOLTAGE_CLAMP, HYBRID_SAFETY_VOLTAGE_CLAMP
  | HYBRID_SAFETY_TEMP_WARNING, HYBRID_SAFETY_TEMP_WARNING
  | HYBRID_SAFETY_TEMP_CRITICAL, HYBRID_SAFETY_TEMP_CRITICAL
  | HYBRID_SAFETY_ADC_OVERLOAD, HYBRID_SAFETY_ADC_OVERLOAD
  | HYBRID_SAFETY_FAULT, HYBRID_SAFETY_FAULT => true
  | _, _ => false
  end.

Record HybridNodeConfig := {
  interface_type : HybridInterfaceType;
  sample_rate : Z;               (* uint32_t *)
  buffer_size : Z;               (* uint16_t *)
  adc_channels : Z;              (* uint8_t *)
  dac_channels : Z;              (* uint8_t *)
  preamp_gain : float;
  hpf_cutoff : float;
  lpf_cutoff : float;
  enable_analog_filter : bool;
  fft_size : Z;                  (* uint16_t *)
  enable_dsp : bool;
  enable_coherence : bool;
  enable_ici : bool;
  enable_modulation : bool;
  modulation_depth : float;
  control_loop_rate : float;
  enable_voltage_clamp : bool;
  enable_thermal_monitor : bool;
  voltage_max : float;
  thermal_gpio_pin : Z;          (* uint8_t *)
  cfg_mode : HybridNodeMode;
  enable_logging : bool
}.

Record AnalogMetrics := {
  rms_level : float;
  peak_level : float;
  dc_offset : float;
  thd : float;
  snr_db : float;
  is_overloaded : bool
}.

Record DSPMetrics := {
  ici : float;
  coherence : float;
  criticality : float;
  spectral_centroid : float;
  spectral_flux : float;
  zero_crossing_rate : float;
  timestamp_us : Z               (* uint32_t *)
}.

Record ControlVoltage := {
  cv1 : float;
  cv2 : float;
  phi_phase : float;
  phi_depth : float
}.

Record SafetyTelemetry := {
  status : HybridSafetyStatus;
  temperature : float;
  voltage_out : list float;      (* HYBRID_DAC_CHANNELS entries *)
  overload_count : Z;            (* uint32_t *)
  clamp_count : Z;               (* uint32_t *)
  thermal_warning : bool
}.

Record CalibrationData := {
  adc_gain : list float;         (* HYBRID_ADC_CHANNELS entries *)
  adc_offset : list float;
  dac_gain : list float;         (* HYBRID_DAC_CHANNELS entries *)
  dac_offset : list float;
  adc_latency_us : Z;
  dsp_latency_us : Z;
  dac_latency_us : Z;
  total_latency_us : Z;
  calibration_timestamp : Z;
  cal_is_calibrated : bool
}.

Record NodeStatistics := {
  frames_processed : Z;          (* uint64_t *)
  frames_dropped : Z;            (* uint64_t *)
  cpu_load : float;
  buffer_utilization : float;
  uptime_ms : Z;                 (* uint32_t *)
  drift_ppm : float;
  modulation_fidelity : float
}.

Record HybridNodeStatus := {
  mode : HybridNodeMode;
  is_running : bool;
  is_calibrated : bool;
  analog : AnalogMetrics;
  dsp : DSPMetrics;
  control : ControlVoltage;
  safety : SafetyTelemetry;
  calibration : CalibrationData;
  stats : NodeStatistics
}.

(** ** Globals of the translation unit

    The function-local statics of [apply_analog_filter] ([hpf_state],
    [lpf_state]) live as long as the globals and are kept with them.
    [dac_port] records, latest first, every buffer handed to
    [platform_dac_write] with its frame count: what the hardware port has
    been asked to output. *)
Record Globals := {
  g_config : HybridNodeConfig;
  g_status : HybridNodeStatus;
  g_initialized : bool;
  g_running : bool;
  g_adc_buffer : list float;     (* HYBRID_BUFFER_SIZE * HYBRID_ADC_CHANNELS *)
  g_dac_buffer : list float;     (* HYBRID_BUFFER_SIZE * HYBRID_DAC_CHANNELS *)
  g_fft_input : list float;      (* HYBRID_FFT_SIZE *)
  g_fft_output : list float;     (* HYBRID_FFT_SIZE *)
  g_prev_spectral_centroid : float;
  g_last_zero_crossing : Z;
  g_ici_buffer : list float;     (* 32 *)
  g_ici_index : Z;               (* uint8_t *)
  hpf_state : list float;        (* HYBRID_ADC_CHANNELS *)
  lpf_state : list float;        (* HYBRID_ADC_CHANNELS *)
  dac_port : list (list float * Z)
}.

(** *** Field updates *)

Definition cfg_with_preamp_gain (x : float) (c : HybridNodeConfig) : HybridNodeConfig :=
  {| interface_type := interface_type c; sample_rate := sample_rate c;
     buffer_size := buffer_size c; adc_channels := adc_channels c;
     dac_channels := dac_channels c; preamp_gain := x;
     hpf_cutoff := hpf_cutoff c; lpf_cutoff := lpf_cutoff c;
     enable_analog_filter := enable_analog_filter c; fft_size := fft_size c;
     enable_dsp := enable_dsp c; enable_coherence := enable_coherence c;
     enable_ici := enable_ici c; enable_modulation := enable_modulation c;
     modulation_depth := modulation_depth c;
     control_loop_rate := control_loop_rate c;
     enable_voltage_clamp := enable_voltage_clamp c;
     enable_thermal_monitor := enable_thermal_monitor c;
     voltage_max := voltage_max c; thermal_gpio_pin := thermal_gpio_pin c;
     cfg_mode := cfg_mode c; enable_logging := enable_logging c |}.

Definition cfg_with_mode (m : HybridNodeMode) (c : HybridNodeConfig) : HybridNodeConfig :=
  {| interface_type := interface_type c; sample_rate := sample_rate c;
     buffer_size := buffer_size c; adc_channels := adc_channels c;
     dac_channels := dac_channels c; preamp_gain := preamp_gain c;
     hpf_cutoff := hpf_cutoff c; lpf_cutoff := lpf_cutoff c;
     enable_analog_filter := enable_analog_filter c; fft_size := fft_size c;
     enable_dsp := enable_dsp c; enable_coherence := enable_coherence c;
     enable_ici := enable_ici c; enable_modulation := enable_modulation c;
     modulation_depth := modulation_depth c;
     control_loop_rate := control_loop_rate c;
     enable_voltage_clamp := enable_voltage_clamp c;
     enable_thermal_monitor := enable_thermal_monitor c;
     voltage_max := voltage_max c; thermal_gpio_pin := thermal_gpio_pin c;
     cfg_mode := m; enable_logging := enable_logging c |}.

Definition set_mode (m : HybridNodeMode) (s : HybridNodeStatus) : HybridNodeStatus :=
  {| mode := m; is_running := is_running s; is_calibrated := is_calibrated s;
     analog := analog s; dsp := dsp s; control := control s;
     safety := safety s; calibration := calibration s; stats := stats s |}.

Definition set_is_running (b : bool) (s : HybridNodeStatus) : HybridNodeStatus :=
  {| mode := mode s; is_running := b; is_calibrated := is_calibrated s;
     analog := analog s; dsp := dsp s; control := control s;
     safety := safety s; calibration := calibration s; stats := stats s |}.

Definition set_is_calibrated (b : bool) (s : HybridNodeStatus) : HybridNodeStatus :=
  {| mode := mode s; is_running := is_running s; is_calibrated := b;
     analog := analog s; dsp := dsp s; control := control s;
     safety := safety s; calibration := calibration s; stats := stats s |}.

Definition set_analog (a : AnalogMetrics) (s : HybridNodeStatus) : HybridNodeStatus :=
  {| mode := mode s; is_running := is_running s; is_calibrated := is_calibrated s;
     analog := a; dsp := dsp s; control := control s;
     safety := safety s; calibration := calibration s; stats := stats s |}.

Definition set_dsp (d : DSPMetrics) (s : HybridNodeStatus) : HybridNodeStatus :=
  {| mode := mode s; is_running := is_running s; is_calibrated := is_calibrated s;
     analog := analog s; dsp := d; control := control s;
     safety := safety s; calibration := calibration s; stats := stats s |}.

Definition set_control (c : ControlVoltage) (s : HybridNodeStatus) : HybridNodeStatus :=
  {| mode := mode s; is_running := is_running s; is_calibrated := is_calibrated s;
     analog := analog s; dsp := dsp s; control := c;
     safety := safety s; calibration := calibration s; stats := stats s |}.

Definition set_safety (t : SafetyTelemetry) (s : HybridNodeStatus) : HybridNodeStatus :=
  {| mode := mode s; is_running := is_running s; is_calibrated := is_calibrated s;
     analog := analog s; dsp := dsp s; control := control s;
     safety := t; calibration := calibration s; stats := stats s |}.

Definition set_calibration (c : CalibrationData) (s : HybridNodeStatus) : HybridNodeStatus :=
  {| mode := mode s; is_running := is_running s; is_calibrated := is_calibrated s;
     analog := analog s; dsp := dsp s; control := control s;
     safety := safety s; calibration := c; stats := stats s |}.

Definition set_stats (n : NodeStatistics) (s : HybridNodeStatus) : HybridNodeStatus :=
  {| mode := mode s; is_running := is_running s; is_calibrated := is_calibrated s;
     analog := analog s; dsp := dsp s; control := control s;
     safety := safety s; calibration := calibration s; stats := n |}.

Definition set_status_field (x : HybridSafetyStatus) (t : SafetyTelemetry) : SafetyTelemetry :=
  {| status := x; temperature := temperature t; voltage_out := voltage_out t;
     overload_count := overload_count t; clamp_count := clamp_count t;
     thermal_warning := thermal_warning t |}.

Definition set_temperature (x : float) (t : SafetyTelemetry) : SafetyTelemetry :=
  {| status := status t; temperature := x; voltage_out := voltage_out t;
     overload_count := overload_count t; clamp_count := clamp_count t;
     thermal_warning := thermal_warning t |}.

Definition set_voltage_out (v : list float) (t : SafetyTelemetry) : SafetyTelemetry :=
  {| status := status t; temperature := temperature t; voltage_out := v;
     overload_count := overload_count t; clamp_count := clamp_count t;
     thermal_warning := thermal_warning t |}.

Definition set_overload_count (n : Z) (t : SafetyTelemetry) : SafetyTelemetry :=
  {| status := status t; temperature := temperature t; voltage_out := voltage_out t;
     overload_count := n; clamp_count := clamp_count t;
     thermal_warning := thermal_warning t |}.

Definition set_clamp_count (n : Z) (t : SafetyTelemetry) : SafetyTelemetry :=
  {| status := status t; temperature := temperature t; voltage_out := voltage_out t;
     overload_count := overload_count t; clamp_count := n;
     thermal_warning := thermal_warning t |}.

Definition set_cv (v1 v2 : float) (c : ControlVoltage) : ControlVoltage :=
  {| cv1 := v1; cv2 := v2; phi_phase := phi_phase c; phi_depth := phi_depth c |}.

Definition set_config (c : HybridNodeConfig) (g : Globals) : Globals :=
  {| g_config := c; g_status := g_status g; g_initialized := g_initialized g;
     g_running := g_running g; g_adc_buffer := g_adc_buffer g;
     g_dac_buffer := g_dac_buffer g; g_fft_input := g_fft_input g;
     g_fft_output := g_fft_output g;
     g_prev_spectral_centroid := g_prev_spectral_centroid g;
     g_last_zero_crossing := g_last_zero_crossing g;
     g_ici_buffer := g_ici_buffer g; g_ici_index := g_ici_index g;
     hpf_state := hpf_state g; lpf_state := lpf_state g;
     dac_port := dac_port g |}.

Definition set_status (s : HybridNodeStatus) (g : Globals) : Globals :=
  {| g_config := g_config g; g_status := s; g_initialized := g_initialized g;
     g_running := g_running g; g_adc_buffer := g_adc_buffer g;
     g_dac_buffer := g_dac_buffer g; g_fft_input := g_fft_input g;
     g_fft_output := g_fft_output g;
     g_prev_spectral_centroid := g_prev_spectral_centroid g;
     g_last_zero_crossing := g_last_zero_crossing g;
     g_ici_buffer := g_ici_buffer g; g_ici_index := g_ici_index g;
     hpf_state := hpf_state g; lpf_state := lpf_state g;
     dac_port := dac_port g |}.

Definition set_initialized (b : bool) (g : Globals) : Globals :=
  {| g_config := g_config g; g_status := g_status g; g_initialized := b;
     g_running := g_running g; g_adc_buffer := g_adc_buffer g;
     g_dac_buffer := g_dac_buffer g; g_fft_input := g_fft_input g;
     g_fft_output := g_fft_output g;
     g_prev_spectral_centroid := g_prev_spectral_centroid g;
     g_last_zero_crossing := g_last_zero_crossing g;
     g_ici_buffer := g_ici_buffer g; g_ici_index := g_ici_index g;
     hpf_state := hpf_state g; lpf_state := lpf_state g;
     dac_port := dac_port g |}.

Definition set_running (b : bool) (g : Globals) : Globals :=
  {| g_config := g_config g; g_status := g_status g;
     g_initialized := g_initialized g;
     g_running := b; g_adc_buffer := g_adc_buffer g;
     g_dac_buffer := g_dac_buffer g; g_fft_input := g_fft_input g;
     g_fft_output := g_fft_output g;
     g_prev_spectral_centroid := g_prev_spectral_centroid g;
     g_last_zero_crossing := g_last_zero_crossing g;
     g_ici_buffer := g_ici_buffer g; g_ici_index := g_ici_index g;
     hpf_state := hpf_state g; lpf_state := lpf_state g;
     dac_port := dac_port g |}.

Definition set_adc_buffer (b : list float) (g : Globals) : Globals :=
  {| g_config := g_config g; g_status := g_status g;
     g_initialized := g_initialized g;
     g_running := g_running g; g_adc_buffer := b;
     g_dac_buffer := g_dac_buffer g; g_fft_input := g_fft_input g;
     g_fft_output := g_fft_output g;
     g_prev_spectral_centroid := g_prev_spectral_centroid g;
     g_last_zero_crossing := g_last_zero_crossing g;
     g_ici_buffer := g_ici_buffer g; g_ici_index := g_ici_index g;
     hpf_state := hpf_state g; lpf_state := lpf_state g;
     dac_port := dac_port g |}.

Definition set_dac_buffer (b : list float) (g : Globals) : Globals :=
  {| g_config := g_config g; g_status := g_status g;
     g_initialized := g_initialized g;
     g_running := g_running g; g_adc_buffer := g_adc_buffer g;
     g_dac_buffer := b; g_fft_input := g_fft_input g;
     g_fft_output := g_fft_output g;
     g_prev_spectral_centroid := g_prev_spectral_centroid g;
     g_last_zero_crossing := g_last_zero_crossing g;
     g_ici_buffer := g_ici_buffer g; g_ici_index := g_ici_index g;
     hpf_state := hpf_state g; lpf_state := lpf_state g;
     dac_port := dac_port g |}.

Definition set_fft (fin fout : list float) (g : Globals) : Globals :=
  {| g_config := g_config g; g_status := g_status g;
     g_initialized := g_initialized g;
     g_running := g_running g; g_adc_buffer := g_adc_buffer g;
     g_dac_buffer := g_dac_buffer g; g_fft_input := fin;
     g_fft_output := fout;
     g_prev_spectral_centroid := g_prev_spectral_centroid g;
     g_last_zero_crossing := g_last_zero_crossing g;
     g_ici_buffer := g_ici_buffer g; g_ici_index := g_ici_index g;
     hpf_state := hpf_state g; lpf_state := lpf_state g;
     dac_port := dac_port g |}.

Definition set_prev_spectral_centroid (x : float) (g : Globals) : Globals :=
  {| g_config := g_config g; g_status := g_status g;
     g_initialized := g_initialized g;
     g_running := g_running g; g_adc_buffer := g_adc_buffer g;
     g_dac_buffer := g_dac_buffer g; g_fft_input := g_fft_input g;
     g_fft_output := g_fft_output g;
     g_prev_spectral_centroid := x;
     g_last_zero_crossing := g_last_zero_crossing g;
     g_ici_buffer := g_ici_buffer g; g_ici_index := g_ici_index g;
     hpf_state := hpf_state g; lpf_state := lpf_state g;
     dac_port := dac_port g |}.

Definition set_ici_ring (b : list float) (i : Z) (g : Globals) : Globals :=
  {| g_config := g_config g; g_status := g_status g;
     g_initialized := g_initialized g;
     g_running := g_running g; g_adc_buffer := g_adc_buffer g;
     g_dac_buffer := g_dac_buffer g; g_fft_input := g_fft_input g;
     g_fft_output := g_fft_output g;
     g_prev_spectral_centroid := g_prev_spectral_centroid g;
     g_last_zero_crossing := g_last_zero_crossing g;
     g_ici_buffer := b; g_ici_index := i;
     hpf_state := hpf_state g; lpf_state := lpf_state g;
     dac_port := dac_port g |}.

Definition set_filter_states (h l : list float) (g : Globals) : Globals :=
  {| g_config := g_config g; g_status := g_status g;
     g_initialized := g_initialized g;
     g_running := g_running g; g_adc_buffer := g_adc_buffer g;
     g_dac_buffer := g_dac_buffer g; g_fft_input := g_fft_input g;
     g_fft_output := g_fft_output g;
     g_prev_spectral_centroid := g_prev_spectral_centroid g;
     g_last_zero_crossing := g_last_zero_crossing g;
     g_ici_buffer := g_ici_buffer g; g_ici_index := g_ici_index g;
     hpf_state := h; lpf_state := l;
     dac_port := dac_port g |}.

Definition set_dac_port (p : list (list float * Z)) (g : Globals) : Globals :=
  {| g_config := g_config g; g_status := g_status g;
     g_initialized := g_initialized g;
     g_running := g_running g; g_adc_buffer := g_adc_buffer g;
     g_dac_buffer := g_dac_buffer g; g_fft_input := g_fft_input g;
     g_fft_output := g_fft_output g;
     g_prev_spectral_centroid := g_prev_spectral_centroid g;
     g_last_zero_crossing := g_last_zero_crossing g;
     g_ici_buffer := g_ici_buffer g; g_ici_index := g_ici_index g;
     hpf_state := hpf_state g; lpf_state := lpf_state g;
     dac_port := p |}.

(** ** Zeroed structures: static initialisation and [memset] *)

Definition zero_config : HybridNodeConfig :=
  {| interface_type := HYBRID_INTERFACE_I2S; sample_rate := 0;
     buffer_size := 0; adc_channels := 0; dac_channels := 0;
     preamp_gain := F32.zero; hpf_cutoff := F32.zero; lpf_cutoff := F32.zero;
     enable_analog_filter := false; fft_size := 0; enable_dsp := false;
     enable_coherence := false; enable_ici := false;
     enable_modulation := false; modulation_depth := F32.zero;
     control_loop_rate := F32.zero; enable_voltage_clamp := false;
     enable_thermal_monitor := false; voltage_max := F32.zero;
     thermal_gpio_pin := 0; cfg_mode := HYBRID_MODE_ANALOG_ONLY;
     enable_logging := false |}.

Definition zero_analog : AnalogMetrics :=
  {| rms_level := F32.zero; peak_level := F32.zero; dc_offset := F32.zero;
     thd := F32.zero; snr_db := F32.zero; is_overloaded := false |}.

Definition zero_dsp : DSPMetrics :=
  {| ici := F32.zero; coherence := F32.zero; criticality := F32.zero;
     spectral_centroid := F32.zero; spectral_flux := F32.zero;
     zero_crossing_rate := F32.zero; timestamp_us := 0 |}.

Definition zero_control : ControlVoltage :=
  {| cv1 := F32.zero; cv2 := F32.zero; phi_phase := F32.zero;
     phi_depth := F32.zero |}.

Definition zero_safety : SafetyTelemetry :=
  {| status := HYBRID_SAFETY_OK; temperature := F32.zero;
     voltage_out := replicate HYBRID_DAC_CHANNELS F32.zero;
     overload_count := 0; clamp_count := 0; thermal_warning := false |}.

Definition zero_calibration : CalibrationData :=
  {| adc_gain := replicate HYBRID_ADC_CHANNELS F32.zero;
     adc_offset := replicate HYBRID_ADC_CHANNELS F32.zero;
     dac_gain := replicate HYBRID_DAC_CHANNELS F32.zero;
     dac_offset := replicate HYBRID_DAC_CHANNELS F32.zero;
     adc_latency_us := 0; dsp_latency_us := 0; dac_latency_us := 0;
     total_latency_us := 0; calibration_timestamp := 0;
     cal_is_calibrated := false |}.

Definition zero_stats : NodeStatistics :=
  {| frames_processed := 0; frames_dropped := 0; cpu_load := F32.zero;
     buffer_utilization := F32.zero; uptime_ms := 0; drift_ppm := F32.zero;
     modulation_fidelity := F32.zero |}.

Definition zero_status : HybridNodeStatus :=
  {| mode := HYBRID_MODE_ANALOG_ONLY; is_running := false;
     is_calibrated := false; analog := zero_analog; dsp := zero_dsp;
     control := zero_control; safety := zero_safety;
     calibration := zero_calibration; stats := zero_stats |}.

(** The globals when the program is loaded. *)
Definition initial_globals : Globals :=
  {| g_config := zero_config;
     g_status := zero_status;
     g_initialized := false;
     g_running := false;
     g_adc_buffer := replicate (HYBRID_BUFFER_SIZE * HYBRID_ADC_CHANNELS) F32.zero;
     g_dac_buffer := replicate (HYBRID_BUFFER_SIZE * HYBRID_DAC_CHANNELS) F32.zero;
     g_fft_input := replicate HYBRID_FFT_SIZE F32.zero;
     g_fft_output := replicate HYBRID_FFT_SIZE F32.zero;
     g_prev_spectral_centroid := F32.zero;
     g_last_zero_crossing := 0;
     g_ici_buffer := replicate 32 F32.zero;
     g_ici_index := 0;
     hpf_state := replicate HYBRID_ADC_CHANNELS F32.zero;
     lpf_state := replicate HYBRID_ADC_CHANNELS F32.zero;
     dac_port := [] |}.

(** ** Platform stubs *)

Definition platform_adc_init : bool := true.
Definition platform_dac_init : bool := true.

(** The ADC stub fills the working buffer with silence. *)
Definition platform_adc_read (frames : Z) (g : Globals) : bool * Globals :=
  let n := usize (usize (frames * adc_channels (g_config g)) * 4) / 4 in
  (true, set_adc_buffer (memset_zero F32.zero (g_adc_buffer g) (Z.to_nat n)) g).

(** The DAC stub accepts the buffer; the port log keeps what it was
    given. *)
Definition platform_dac_write (buffer : list float) (frames : Z) (g : Globals)
    : bool * Globals :=
  (true, set_dac_port ((buffer, frames) :: dac_port g) g).

(** ** Lifecycle *)

(** [hybrid_node_init]; a null [config] is [None]. *)
Definition hybrid_node_init (config : option HybridNodeConfig) (g : Globals)
    : bool * Globals :=
  match config with
  | None => (false, g)
  | Some cfg =>
      let g := set_config cfg g in
      let cal :=
        {| adc_gain := replicate HYBRID_ADC_CHANNELS one;
           adc_offset := replicate HYBRID_ADC_CHANNELS F32.zero;
           dac_gain := replicate HYBRID_DAC_CHANNELS one;
           dac_offset := replicate HYBRID_DAC_CHANNELS F32.zero;
           adc_latency_us := 0; dsp_latency_us := 0; dac_latency_us := 0;
           total_latency_us := 0; calibration_timestamp := 0;
           cal_is_calibrated := false |} in
      let st := set_calibration cal (set_mode (cfg_mode cfg) zero_status) in
      let g := set_status st g in
      if negb platform_adc_init then (false, g)
      else if negb platform_dac_init then (false, g)
      else
        let sf := set_temperature (F32.of_Z 25)
                    (set_status_field HYBRID_SAFETY_OK (safety st)) in
        let g := set_status (set_safety sf st) g in
        (true, set_initialized true g)
  end.

Definition hybrid_node_start (g : Globals) : bool * Globals :=
  if negb (g_initialized g) || g_running g then (false, g)
  else
    let st := g_status g in
    let s := stats st in
    let s := {| frames_processed := 0; frames_dropped := 0;
                cpu_load := cpu_load s;
                buffer_utilization := buffer_utilization s;
                uptime_ms := 0; drift_ppm := drift_ppm s;
                modulation_fidelity := modulation_fidelity s |} in
    let g := set_status (set_stats s st) g in
    let g := set_running true g in
    (true, set_status (set_is_running true (g_status g)) g).

Definition hybrid_node_stop (g : Globals) : bool * Globals :=
  if negb (g_running g) then (false, g)
  else
    let g := set_running false g in
    let g := set_status (set_is_running false (g_status g)) g in
    let g := set_dac_buffer
               (memset_zero F32.zero (g_dac_buffer g) (length (g_dac_buffer g))) g in
    let g := snd (platform_dac_write (g_dac_buffer g) (buffer_size (g_config g)) g) in
    (true, g).

(** [hybrid_node_emergency_shutdown]; the reason is only printed. *)
Definition hybrid_node_emergency_shutdown (g : Globals) : bool * Globals :=
  let g := snd (hybrid_node_stop g) in
  let st := g_status g in
  let g := set_status
             (set_safety (set_status_field HYBRID_SAFETY_FAULT (safety st)) st) g in
  let g := set_dac_buffer
             (memset_zero F32.zero (g_dac_buffer g) (length (g_dac_buffer g))) g in
  let g := snd (platform_dac_write (g_dac_buffer g) (buffer_size (g_config g)) g) in
  let st := g_status g in
  let g := set_status (set_control (set_cv F32.zero F32.zero (control st)) st) g in
  (true, g).

(** ** Configuration calls *)

Definition hybrid_node_set_preamp_gain (gain : float) (g : Globals)
    : bool * Globals :=
  if F32.lt gain ANALOG_PREAMP_GAIN_MIN || F32.gt gain ANALOG_PREAMP_GAIN_MAX
  then (false, g)
  else (true, set_config (cfg_with_preamp_gain gain (g_config g)) g).

Definition clamp_voltage (v : float) : float :=
  F32.fminf (F32.fmaxf v SAFETY_VOLTAGE_MIN) SAFETY_VOLTAGE_MAX.

Definition hybrid_node_set_control_voltage (cv : option ControlVoltage)
    (g : Globals) : bool * Globals :=
  match cv with
  | None => (false, g)
  | Some cv =>
      let st := g_status g in
      let c :=
        if enable_voltage_clamp (g_config g)
        then {| cv1 := clamp_voltage (cv1 cv); cv2 := clamp_voltage (cv2 cv);
                phi_phase := phi_phase cv; phi_depth := phi_depth cv |}
        else cv in
      (true, set_status (set_control c st) g)
  end.

Definition hybrid_node_set_mode (m : HybridNodeMode) (g : Globals)
    : bool * Globals :=
  if g_running g then (false, g)
  else
    let g := set_config (cfg_with_mode m (g_config g)) g in
    (true, set_status (set_mode m (g_status g)) g).

Definition hybrid_node_get_status (g : Globals) : HybridNodeStatus := g_status g.
Definition hybrid_node_get_dsp_metrics (g : Globals) : DSPMetrics := dsp (g_status g).
Definition hybrid_node_get_safety (g : Globals) : SafetyTelemetry := safety (g_status g).

(** ** Safety monitor *)

(** [safety_check]: the overload branch and the voltage clamp branch;
    the thermal branch exists only under [TEENSY]. *)
Definition safety_check (g : Globals) : Globals :=
  let g :=
    if is_overloaded (analog (g_status g)) then
      let st := g_status g in
      let sf := safety st in
      let g := set_status
                 (set_safety (set_overload_count (u32 (overload_count sf + 1)) sf) st) g in
      if F32.gt (preamp_gain (g_config g)) ANALOG_PREAMP_GAIN_MIN
      then set_config
             (cfg_with_preamp_gain
                (F32.mul (preamp_gain (g_config g)) (F32.lit 9 10)) (g_config g)) g
      else g
    else g in
  if enable_voltage_clamp (g_config g) then
    let st := g_status g in
    if F32.ge (cv1 (control st)) SAFETY_VOLTAGE_MAX
       || F32.ge (cv2 (control st)) SAFETY_VOLTAGE_MAX
    then
      let sf := safety st in
      let sf := set_clamp_count (u32 (clamp_count sf + 1)) sf in
      let sf := set_status_field HYBRID_SAFETY_VOLTAGE_CLAMP sf in
      set_status (set_safety sf st) g
    else g
  else g.

(** ** Analog metrics: the accumulation loop of [hybrid_node_process] *)

Definition metrics_step (buffer : list float) (i : nat)
    (acc : float * float * float) : float * float * float :=
  let '(rms, peak, dc_sum) := acc in
  let sample := nth i buffer F32.zero in
  (F32.add rms (F32.mul sample sample),
   F32.fmaxf peak (F32.abs sample),
   F32.add dc_sum sample).

Definition analog_metrics (frames : Z) (g : Globals) : Globals :=
  let count := usize (frames * adc_channels (g_config g)) in
  let '(rms, peak, dc_sum) :=
    for_loop (Z.to_nat count) 0 (metrics_step (g_adc_buffer g))
             (F32.zero, F32.zero, F32.zero) in
  let st := g_status g in
  let a := {| rms_level := F32.sqrt (F32.div rms (F32.of_Z count));
              peak_level := peak;
              dc_offset := F32.div dc_sum (F32.of_Z count);
              thd := thd (analog st);
              snr_db := snr_db (analog st);
              is_overloaded := F32.gt peak SAFETY_OVERLOAD_THRESH |} in
  set_status (set_analog a st) g.

(** ** Control-loop modulator *)

Definition apply_control_voltage (g : Globals) : Globals :=
  let st := g_status g in
  let depth := modulation_depth (g_config g) in
  let depth_factor := F32.mul (phi_depth (control st)) (coherence (dsp st)) in
  let v1 := F32.mul (F32.mul depth_factor SAFETY_VOLTAGE_MAX) depth in
  let rate_factor :=
    F32.div (F32.of_Z 1000) (F32.fmaxf (ici (dsp st)) (F32.of_Z 10)) in
  let v2 := F32.mul (F32.mul (F32.fminf rate_factor one) SAFETY_VOLTAGE_MAX) depth in
  let v1 := if enable_voltage_clamp (g_config g) then clamp_voltage v1 else v1 in
  let v2 := if enable_voltage_clamp (g_config g) then clamp_voltage v2 else v2 in
  let sf := safety st in
  let sf := set_voltage_out (<[3%nat := v2]> (<[2%nat := v1]> (voltage_out sf))) sf in
  let target_cv1 := F32.mul (phi_depth (control st)) SAFETY_VOLTAGE_MAX in
  let error := F32.div (F32.abs (F32.sub v1 target_cv1)) SAFETY_VOLTAGE_MAX in
  let s := stats st in
  let s := {| frames_processed := frames_processed s;
              frames_dropped := frames_dropped s;
              cpu_load := cpu_load s;
              buffer_utilization := buffer_utilization s;
              uptime_ms := uptime_ms s; drift_ppm := drift_ppm s;
              modulation_fidelity :=
                F32.mul (F32.sub one error) (F32.of_Z 100) |} in
  set_status
    (set_stats s (set_safety sf (set_control (set_cv v1 v2 (control st)) st))) g.

(** ** Metric analyzer, the part after the transform *)

(** One bin of the centroid loop. *)
Definition centroid_term (rate : Z) (fft_output : list float) (k : nat)
    (acc : float * float) : float * float :=
  let '(weighted_sum, magnitude_sum) := acc in
  let real := nth (k * 2) fft_output F32.zero in
  let imag := nth (k * 2 + 1) fft_output F32.zero in
  let magnitude := F32.sqrt (F32.add (F32.mul real real) (F32.mul imag imag)) in
  let freq := F32.div (F32.of_Z (usize (Z.of_nat k * rate)))
                      (F32.of_Z (Z.of_nat HYBRID_FFT_SIZE)) in
  (F32.add weighted_sum (F32.mul freq magnitude),
   F32.add magnitude_sum magnitude).

(** [weighted_sum] and [magnitude_sum] when the loop over the bins
    [1 .. HYBRID_FFT_SIZE/2 - 1] ends. *)
Definition centroid_sums (rate : Z) (fft_output : list float) : float * float :=
  for_loop (HYBRID_FFT_SIZE / 2 - 1) 1 (centroid_term rate fft_output)
           (F32.zero, F32.zero).

(** Lines "Calculate spectral centroid" and "Calculate spectral flux"
    of [dsp_process_fft]. *)
Definition dsp_spectral_centroid_flux (g : Globals) : Globals :=
  let '(weighted_sum, magnitude_sum) :=
    centroid_sums (sample_rate (g_config g)) (g_fft_output g) in
  let st := g_status g in
  let d := dsp st in
  let centroid :=
    if F32.gt magnitude_sum F32.zero
    then F32.div weighted_sum magnitude_sum
    else spectral_centroid d in
  let flux := F32.abs (F32.sub centroid (g_prev_spectral_centroid g)) in
  let d := {| ici := ici d; coherence := coherence d;
              criticality := criticality d;
              spectral_centroid := centroid;
              spectral_flux := flux;
              zero_crossing_rate := zero_crossing_rate d;
              timestamp_us := timestamp_us d |} in
  set_prev_spectral_centroid centroid (set_status (set_dsp d st) g).

Definition zcr_step (input : list float) (channels : nat) (i : nat) (zc : Z) : Z :=
  let prev := nth ((i - 1) * channels) input F32.zero in
  let curr := nth (i * channels) input F32.zero in
  if (F32.ge prev F32.zero && F32.lt curr F32.zero)
     || (F32.lt prev F32.zero && F32.ge curr F32.zero)
  then u32 (zc + 1) else zc.

(** Lines "Calculate zero-crossing rate" of [dsp_process_fft]. *)
Definition dsp_zero_crossing_rate (frames : Z) (g : Globals) : Globals :=
  let channels := Z.to_nat (adc_channels (g_config g)) in
  let zc := for_loop (Z.to_nat frames - 1) 1
              (zcr_step (g_adc_buffer g) channels) 0 in
  let st := g_status g in
  let d := dsp st in
  let d := {| ici := ici d; coherence := coherence d;
              criticality := criticality d;
              spectral_centroid := spectral_centroid d;
              spectral_flux := spectral_flux d;
              zero_crossing_rate := F32.div (F32.of_Z zc) (F32.of_Z frames);
              timestamp_us := timestamp_us d |} in
  set_status (set_dsp d st) g.

(** Lines "Copy input to FFT buffer" and "Zero-pad if needed". *)
Definition dsp_fill_window (frames : Z) (g : Globals) : Globals :=
  let channels := Z.to_nat (adc_channels (g_config g)) in
  let n := Z.to_nat frames in
  let fin :=
    for_loop (n `min` HYBRID_FFT_SIZE) 0
      (fun i fin => <[i := nth (i * channels) (g_adc_buffer g) F32.zero]> fin)
      (g_fft_input g) in
  let fin :=
    if (n <? HYBRID_FFT_SIZE)%nat
    then take n fin
         ++ memset_zero F32.zero (drop n fin) (HYBRID_FFT_SIZE - n)
    else fin in
  set_fft fin (g_fft_output g) g.

Definition ici_count (buffer_size : Z) (ring : list float) (i : nat)
    (acc : Z * Z) : Z * Z :=
  let '(interval_samples, peak_count) := acc in
  if F32.gt (nth i ring F32.zero) (F32.lit 1 2)
  then (u32 (interval_samples + buffer_size), u32 (peak_count + 1))
  else acc.

(** [dsp_calculate_ici], called with [&g_status.dsp.ici]. *)
Definition dsp_calculate_ici (g : Globals) : Globals :=
  let st := g_status g in
  let ring := <[Z.to_nat (g_ici_index g) := spectral_flux (dsp st)]> (g_ici_buffer g) in
  let g := set_ici_ring ring (u8 ((g_ici_index g + 1) mod 32)) g in
  let '(interval_samples, peak_count) :=
    for_loop 32 0 (ici_count (buffer_size (g_config g)) ring) (0, 0) in
  let v :=
    if 1 <? peak_count then
      let interval_s :=
        F32.div (F32.of_Z interval_samples) (F32.of_Z (sample_rate (g_config g))) in
      F32.mul (F32.div interval_s (F32.of_Z peak_count)) (F32.of_Z 1000)
    else F32.of_Z 100 in
  let d := dsp st in
  let d := {| ici := v; coherence := coherence d;
              criticality := criticality d;
              spectral_centroid := spectral_centroid d;
              spectral_flux := spectral_flux d;
              zero_crossing_rate := zero_crossing_rate d;
              timestamp_us := timestamp_us d |} in
  set_status (set_dsp d st) g.

(** [dsp_calculate_coherence], called with [&g_status.dsp.coherence]. *)
Definition dsp_calculate_coherence (g : Globals) : Globals :=
  let st := g_status g in
  let d := dsp st in
  let normalized_flux :=
    F32.fminf (F32.div (spectral_flux d) (F32.of_Z 1000)) one in
  let d := {| ici := ici d; coherence := F32.sub one normalized_flux;
              criticality := criticality d;
              spectral_centroid := spectral_centroid d;
              spectral_flux := spectral_flux d;
              zero_crossing_rate := zero_crossing_rate d;
              timestamp_us := timestamp_us d |} in
  set_status (set_dsp d st) g.

Definition set_dsp_timestamp (t : Z) (g : Globals) : Globals :=
  let st := g_status g in
  let d := dsp st in
  let d := {| ici := ici d; coherence := coherence d;
              criticality := criticality d;
              spectral_centroid := spectral_centroid d;
              spectral_flux := spectral_flux d;
              zero_crossing_rate := zero_crossing_rate d;
              timestamp_us := t |} in
  set_status (set_dsp d st) g.

(** One frame of the loop that fills the caller's output buffer. *)
Definition output_frame (g : Globals) (i : nat) (output : list float) : list float :=
  let adc := Z.to_nat (adc_channels (g_config g)) in
  let dac := Z.to_nat (dac_channels (g_config g)) in
  let output := <[(i * dac + 0)%nat := nth (i * adc + 0) (g_adc_buffer g) F32.zero]> output in
  let output :=
    if 1 <? adc_channels (g_config g)
    then <[(i * dac + 1)%nat := nth (i * adc + 1) (g_adc_buffer g) F32.zero]> output
    else output in
  if 2 <? dac_channels (g_config g)
  then <[(i * dac + 3)%nat := cv2 (control (g_status g))]>
         (<[(i * dac + 2)%nat := cv1 (control (g_status g))]> output)
  else output.

Definition bump_frames_processed (g : Globals) : Globals :=
  let st := g_status g in
  let s := stats st in
  let s := {| frames_processed := u64 (frames_processed s + 1);
              frames_dropped := frames_dropped s;
              cpu_load := cpu_load s;
              buffer_utilization := buffer_utilization s;
              uptime_ms := uptime_ms s; drift_ppm := drift_ppm s;
              modulation_fidelity := modulation_fidelity s |} in
  set_status (set_stats s st) g.

(** ** Code that calls into <math.h>

    [cosf], [sinf] and [expf] are the single-precision functions of the C
    library the firmware is linked with. *)
Section Libm.
Variables cosf sinf expf : float -> float.

(** [1.0f - expf(-2.0f * M_PI * cutoff / sample_rate)]: the argument is
    computed in [double] because of [M_PI] and narrowed for [expf]. *)
Definition filter_coeff (cutoff : float) (rate : Z) : float :=
  let x := F64.div
             (F64.mul (F64.mul (F64.of_float (F32.of_Z (-2))) M_PI)
                      (F64.of_float cutoff))
             (F64.of_Z rate) in
  F32.sub one (expf (F32.of_double x)).

(** Body of the inner loop of [apply_analog_filter]. *)
Definition filter_sample (hpf_coeff lpf_coeff : float) (channels i ch : nat)
    (st : list float * list float * list float)
    : list float * list float * list float :=
  let '(buffer, hpf, lpf) := st in
  let idx := (i * channels + ch)%nat in
  let x := nth idx buffer F32.zero in
  let hpf :=
    <[ch := F32.mul hpf_coeff (F32.sub (F32.add (nth ch hpf F32.zero) x) x)]> hpf in
  let buffer := <[idx := nth ch hpf F32.zero]> buffer in
  let lpf :=
    <[ch := F32.add (nth ch lpf F32.zero)
              (F32.mul lpf_coeff
                 (F32.sub (nth idx buffer F32.zero) (nth ch lpf F32.zero)))]> lpf in
  let buffer := <[idx := nth ch lpf F32.zero]> buffer in
  (buffer, hpf, lpf).

Definition filter_loop (hpf_coeff lpf_coeff : float) (channels frames : nat)
    (st : list float * list float * list float)
    : list float * list float * list float :=
  for_loop frames 0
    (fun i st => for_loop channels 0
                   (filter_sample hpf_coeff lpf_coeff channels i) st) st.

(** [apply_analog_filter] on the working buffer. *)
Definition apply_analog_filter (frames : Z) (g : Globals) : Globals :=
  let cfg := g_config g in
  let hpf_coeff := filter_coeff (hpf_cutoff cfg) (sample_rate cfg) in
  let lpf_coeff := filter_coeff (lpf_cutoff cfg) (sample_rate cfg) in
  let '(buffer, hpf, lpf) :=
    filter_loop hpf_coeff lpf_coeff
      (Z.to_nat (adc_channels cfg)) (Z.to_nat frames)
      (g_adc_buffer g, hpf_state g, lpf_state g) in
  set_filter_states hpf lpf (set_adc_buffer buffer g).

(** [2.0f * M_PI * k * n / HYBRID_FFT_SIZE], stored in a [float]. *)
Definition dft_angle (k n : nat) : float :=
  F32.of_double
    (F64.div
       (F64.mul (F64.mul (F64.mul (F64.of_float (F32.of_Z 2)) M_PI)
                         (F64.of_Z (Z.of_nat k)))
                (F64.of_Z (Z.of_nat n)))
       (F64.of_Z (Z.of_nat HYBRID_FFT_SIZE))).

Definition dft_term (fft_input : list float) (k n : nat)
    (acc : float * float) : float * float :=
  let '(real, imag) := acc in
  let angle := dft_angle k n in
  (F32.add real (F32.mul (nth n fft_input F32.zero) (cosf angle)),
   F32.sub imag (F32.mul (nth n fft_input F32.zero) (sinf angle))).

Definition dft_bin (fft_input : list float) (k : nat)
    (fft_output : list float) : list float :=
  let '(real, imag) :=
    for_loop HYBRID_FFT_SIZE 0 (dft_term fft_input k) (F32.zero, F32.zero) in
  <[(k * 2 + 1)%nat := imag]> (<[(k * 2)%nat := real]> fft_output).

(** The direct transform used when KissFFT is not compiled in. *)
Definition dsp_dft (g : Globals) : Globals :=
  set_fft (g_fft_input g)
    (for_loop (HYBRID_FFT_SIZE / 2) 0 (dft_bin (g_fft_input g)) (g_fft_output g)) g.

(** [dsp_process_fft], called on the working buffer. *)
Definition dsp_process_fft (frames : Z) (g : Globals) : Globals :=
  let g := dsp_fill_window frames g in
  let g := dsp_dft g in
  let g := dsp_spectral_centroid_flux g in
  dsp_zero_crossing_rate frames g.

(** [hybrid_node_process].  [input] and [output] are the contents of
    the caller's buffers, [None] for a null pointer; the result
    carries the content of the output buffer after the call. *)
Definition hybrid_node_process
    (input : option (list float)) (output : option (list float))
    (frames : Z) (g : Globals) : bool * option (list float) * Globals :=
  match input, output with
  | Some inp, Some out =>
      if negb (g_running g) then (false, output, g)
      else
        let start_us := 0 in
        let count :=
          usize (usize (frames * adc_channels (g_config g)) * 4) / 4 in
        let g := set_adc_buffer (memcpy (g_adc_buffer g) inp (Z.to_nat count)) g in
        let g := if enable_analog_filter (g_config g)
                 then apply_analog_filter frames g else g in
        let g := analog_metrics frames g in
        let g := safety_check g in
        let g :=
          if enable_dsp (g_config g)
             && safety_status_eqb (status (safety (g_status g))) HYBRID_SAFETY_OK
          then
            let g := dsp_process_fft frames g in
            let g := if enable_ici (g_config g) then dsp_calculate_ici g else g in
            let g := if enable_coherence (g_config g)
                     then dsp_calculate_coherence g else g in
            set_dsp_timestamp start_us g
          else g in
        let g := if enable_modulation (g_config g)
                 then apply_control_voltage g else g in
        let out := for_loop (Z.to_nat frames) 0 (output_frame g) out in
        let g := bump_frames_processed g in
        (true, Some out, g)
  | _, _ => (false, output, g)
  end.
End Libm.

(** ** Calibration *)

(** Mean of channel [ch] over the working buffer. *)
Definition channel_mean (g : Globals) (ch : nat) : float :=
  let channels := Z.to_nat (adc_channels (g_config g)) in
  let sum :=
    for_loop (Z.to_nat (buffer_size (g_config g))) 0
      (fun i sum => F32.add sum (nth (i * channels + ch) (g_adc_buffer g) F32.zero))
      F32.zero in
  F32.div sum (F32.of_Z (buffer_size (g_config g))).

(** One pass of the acquisition loop; [adc_samples] is the local array
    [adc_samples[HYBRID_ADC_CHANNELS][CAL_SAMPLES]], row after row. *)
Definition calibrate_acquire (sample : nat) (st : list float * Globals)
    : list float * Globals :=
  let '(adc_samples, g) := st in
  let g := snd (platform_adc_read (buffer_size (g_config g)) g) in
  (for_loop (Z.to_nat (adc_channels (g_config g))) 0
     (fun ch adc_samples =>
        <[(ch * CAL_SAMPLES + sample)%nat := channel_mean g ch]> adc_samples)
     adc_samples, g).

Definition calibrate_offset (adc_samples : list float) (ch : nat)
    (c : CalibrationData) : CalibrationData :=
  let sum :=
    for_loop CAL_SAMPLES 0
      (fun i sum => F32.add sum (nth (ch * CAL_SAMPLES + i) adc_samples F32.zero))
      F32.zero in
  {| adc_gain := adc_gain c;
     adc_offset :=
       <[ch := SFopp (F32.div sum (F32.of_Z (Z.of_nat CAL_SAMPLES)))]> (adc_offset c);
     dac_gain := dac_gain c; dac_offset := dac_offset c;
     adc_latency_us := adc_latency_us c; dsp_latency_us := dsp_latency_us c;
     dac_latency_us := dac_latency_us c; total_latency_us := total_latency_us c;
     calibration_timestamp := calibration_timestamp c;
     cal_is_calibrated := cal_is_calibrated c |}.

Definition calibrate_dac (ch : nat) (c : CalibrationData) : CalibrationData :=
  {| adc_gain := adc_gain c; adc_offset := adc_offset c;
     dac_gain := <[ch := one]> (dac_gain c);
     dac_offset := <[ch := F32.zero]> (dac_offset c);
     adc_latency_us := adc_latency_us c; dsp_latency_us := dsp_latency_us c;
     dac_latency_us := dac_latency_us c; total_latency_us := total_latency_us c;
     calibration_timestamp := calibration_timestamp c;
     cal_is_calibrated := cal_is_calibrated c |}.

(** [hybrid_node_calibrate].  [calibration] is the content of the
    caller's structure, [None] for a null pointer; [now] is what
    [time(NULL)] returns.  The latency of the host build is the fixed
    estimate of 2000 microseconds. *)
Definition hybrid_node_calibrate (calibration : option CalibrationData)
    (now : Z) (g : Globals) : bool * option CalibrationData * Globals :=
  match calibration with
  | None => (false, calibration, g)
  | Some c =>
      if g_running g then (false, calibration, g)
      else
        let '(adc_samples, g) :=
          for_loop CAL_SAMPLES 0 calibrate_acquire
            (replicate (HYBRID_ADC_CHANNELS * CAL_SAMPLES) F32.zero, g) in
        let c := for_loop (Z.to_nat (adc_channels (g_config g))) 0
                   (calibrate_offset adc_samples) c in
        let c := for_loop (Z.to_nat (dac_channels (g_config g))) 0
                   calibrate_dac c in
        let g := set_dac_buffer
                   (<[0%nat := one]>
                      (memset_zero F32.zero (g_dac_buffer g) (length (g_dac_buffer g)))) g in
        let g := snd (platform_dac_write (g_dac_buffer g) (buffer_size (g_config g)) g) in
        let g := snd (platform_adc_read (buffer_size (g_config g)) g) in
        let total := 2000 in
        let c := {| adc_gain := adc_gain c; adc_offset := adc_offset c;
                    dac_gain := dac_gain c; dac_offset := dac_offset c;
                    adc_latency_us := total / 3;
                    dsp_latency_us := total / 3;
                    dac_latency_us := total / 3;
                    total_latency_us := total;
                    calibration_timestamp := u32 now;
                    cal_is_calibrated := true |} in
        let g := set_status
                   (set_is_calibrated true (set_calibration c (g_status g))) g in
        (true, Some c, g)
  end.

Definition hybrid_node_load_calibration (calibration : option CalibrationData)
    (g : Globals) : bool * Globals :=
  match calibration with
  | None => (false, g)
  | Some c =>
      (true, set_status
               (set_is_calibrated (cal_is_calibrated c)
                  (set_calibration c (g_status g))) g)
  end.

Definition hybrid_node_reset_statistics (g : Globals) : bool * Globals :=
  let st := g_status g in
  let s := stats st in
  let s := {| frames_processed := 0; frames_dropped := 0;
              cpu_load := cpu_load s;
              buffer_utilization := buffer_utilization s;
              uptime_ms := 0; drift_ppm := F32.zero;
              modulation_fidelity := modulation_fidelity s |} in
  (true, set_status (set_stats s st) g).

(** ** Configurations and buffers used in examples *)

(** The configuration of the self-test in [main]. *)
Definition default_config : HybridNodeConfig :=
  {| interface_type := HYBRID_INTERFACE_I2S;
     sample_rate := HYBRID_SAMPLE_RATE;
     buffer_size := Z.of_nat HYBRID_BUFFER_SIZE;
     adc_channels := Z.of_nat HYBRID_ADC_CHANNELS;
     dac_channels := Z.of_nat HYBRID_DAC_CHANNELS;
     preamp_gain := F32.of_Z 10;
     hpf_cutoff := ANALOG_HPF_CUTOFF;
     lpf_cutoff := ANALOG_LPF_CUTOFF;
     enable_analog_filter := true;
     fft_size := Z.of_nat HYBRID_FFT_SIZE;
     enable_dsp := true;
     enable_coherence := true;
     enable_ici := true;
     enable_modulation := true;
     modulation_depth := F32.lit 8 10;
     control_loop_rate := F32.of_Z 100;
     enable_voltage_clamp := true;
     enable_thermal_monitor := false;
     voltage_max := SAFETY_VOLTAGE_MAX;
     thermal_gpio_pin := 0;
     cfg_mode := HYBRID_MODE_HYBRID;
     enable_logging := true |}.

(** The node after [hybrid_node_init(&config)] and [hybrid_node_start()]
    on a freshly loaded program. *)
Definition started (cfg : HybridNodeConfig) : Globals :=
  snd (hybrid_node_start (snd (hybrid_node_init (Some cfg) initial_globals))).

Definition silence (n : nat) : list float := replicate n F32.zero.

(** A stand-in for a function of the C library in closed examples whose
    configuration disables both the analog filter and the DSP stage: the
    function is never called there, and would poison every result with
    NaN if it were. *)
Definition not_called : float -> float := fun _ => S754_nan.

(** The self-test configuration with the analog filter, the DSP stage
    and the modulator switched off: samples pass through unchanged. *)
Definition passthrough_config : HybridNodeConfig :=
  {| interface_type := HYBRID_INTERFACE_I2S;
     sample_rate := HYBRID_SAMPLE_RATE;
     buffer_size := Z.of_nat HYBRID_BUFFER_SIZE;
     adc_channels := Z.of_nat HYBRID_ADC_CHANNELS;
     dac_channels := Z.of_nat HYBRID_DAC_CHANNELS;
     preamp_gain := F32.of_Z 10;
     hpf_cutoff := ANALOG_HPF_CUTOFF;
     lpf_cutoff := ANALOG_LPF_CUTOFF;
     enable_analog_filter := false;
     fft_size := Z.of_nat HYBRID_FFT_SIZE;
     enable_dsp := false;
     enable_coherence := true;
     enable_ici := true;
     enable_modulation := false;
     modulation_depth := F32.lit 8 10;
     control_loop_rate := F32.of_Z 100;
     enable_voltage_clamp := true;
     enable_thermal_monitor := false;
     voltage_max := SAFETY_VOLTAGE_MAX;
     thermal_gpio_pin := 0;
     cfg_mode := HYBRID_MODE_HYBRID;
     enable_logging := false |}.

(** One cycle through the public entry point, keeping the globals. *)
Definition cycle (cosf sinf expf : float -> float)
    (input : list float) (frames : Z) (g : Globals) : Globals :=
  snd (hybrid_node_process cosf sinf expf (Some input)
         (Some (silence (Z.to_nat frames * HYBRID_DAC_CHANNELS))) frames g).

(** Consecutive cycles, one input buffer each. *)
Fixpoint cycles (cosf sinf expf : float -> float)
    (inputs : list (list float)) (frames : Z) (g : Globals) : Globals :=
  match inputs with
  | [] => g
  | input :: rest =>
      cycles cosf sinf expf rest frames (cycle cosf sinf expf input frames g)
  end.


(** The gain step the overload scenario describes: a factor of 0.9
    while the gain is above its floor. *)
Definition reduce_gain (gain : float) : float :=
  if F32.gt gain ANALOG_PREAMP_GAIN_MIN
  then F32.mul gain (F32.lit 9 10) else gain.

(** Four frames of two channels at full scale. *)
Definition loud_input : list float := replicate 8 one.

Definition set_cv_request (v : float) : ControlVoltage :=
  {| cv1 := v; cv2 := F32.zero; phi_phase := F32.zero; phi_depth := F32.zero |}.

(** ** Vocabulary of the properties *)

(** The first half of [hybrid_node_process]: the working buffer after
the copy and the optional filter, the analog metrics and the safety
check. *)
Definition process_front (expf : float -> float) (input : list float)
    (frames : Z) (g : Globals) : Globals :=
  let count := usize (usize (frames * adc_channels (g_config g)) * 4) / 4 in
  let g := set_adc_buffer (memcpy (g_adc_buffer g) input (Z.to_nat count)) g in
  let g := if enable_analog_filter (g_config g)
           then apply_analog_filter expf frames g else g in
  safety_check (analog_metrics frames g).

(** The second half: analysis, modulation and statistics. *)
Definition process_back (cosf sinf : float -> float) (frames : Z)
    (g : Globals) : Globals :=
  let g :=
    if enable_dsp (g_config g)
       && safety_status_eqb (status (safety (g_status g))) HYBRID_SAFETY_OK
    then
      let g := dsp_process_fft cosf sinf frames g in
      let g := if enable_ici (g_config g) then dsp_calculate_ici g else g in
      let g := if enable_coherence (g_config g)
               then dsp_calculate_coherence g else g in
      set_dsp_timestamp 0 g
    else g in
  let g := if enable_modulation (g_config g)
           then apply_control_voltage g else g in
  bump_frames_processed g.

(** What analysis, modulation and statistics leave alone: the
configuration, the run flag, the filter state, the analog metrics and the
state and counters of the safety monitor. *)
Definition analysis_frame (g g' : Globals) : Prop :=
  g_config g' = g_config g
  /\ g_running g' = g_running g
  /\ is_running (g_status g') = is_running (g_status g)
  /\ g_adc_buffer g' = g_adc_buffer g
  /\ analog (g_status g') = analog (g_status g)
  /\ status (safety (g_status g')) = status (safety (g_status g))
  /\ overload_count (safety (g_status g')) = overload_count (safety (g_status g))
  /\ clamp_count (safety (g_status g')) = clamp_count (safety (g_status g)).


Definition bin_frequency (rate : Z) (k : nat) : float :=
  F32.div (F32.of_Z (usize (Z.of_nat k * rate)))
          (F32.of_Z (Z.of_nat HYBRID_FFT_SIZE)).

Definition non_dc_bins : list nat := seq 1 (HYBRID_FFT_SIZE / 2 - 1).



(** ** States of the examples *)

(** The pass-through node after one cycle on a full-scale buffer. *)
Definition after_loud_cycle : Globals :=
  cycle not_called not_called not_called loud_input 4 (started passthrough_config).

(** The pass-through node asked for 5 V on the first control output, after
one silent cycle; then asked for 0 V, after another silent cycle. *)
Definition clamp_requested : Globals :=
  snd (hybrid_node_set_control_voltage (Some (set_cv_request SAFETY_VOLTAGE_MAX))
         (started passthrough_config)).
Definition clamp_cycle : Globals :=
  cycle not_called not_called not_called (silence 8) 4 clamp_requested.
Definition clamp_released : Globals :=
  snd (hybrid_node_set_control_voltage (Some (set_cv_request F32.zero)) clamp_cycle).
Definition after_release_cycle : Globals :=
  cycle not_called not_called not_called (silence 8) 4 clamp_released.

(** The pass-through node after 22 consecutive full-scale cycles. *)
Definition loud_run : list (list float) := replicate 22 loud_input.


(** The values of [expf] at the two arguments that the default cutoffs of
120 Hz and 8 kHz produce at 48 kHz, rounded to nearest:
expf(-0.015707964) = 0.98441476 and expf(-1.0471976) = 0.35091978.
Elsewhere the table has no entry. *)
Definition expf_default_cutoffs (x : float) : float :=
  match x with
  | S754_finite true 8433149 (-29) => S754_finite false 16515739 (-24)
  | S754_finite true 8784530 (-23) => S754_finite false 11774914 (-25)
  | _ => S754_nan
  end.

(** Four frames of two channels swinging between +1 and -1. *)
Definition alternating_input : list float :=
  [F32.of_Z 1; F32.of_Z 1; F32.of_Z (-1); F32.of_Z (-1);
   F32.of_Z 1; F32.of_Z 1; F32.of_Z (-1); F32.of_Z (-1)].

(** The default node with the alternating buffer copied into the working
buffer, as [hybrid_node_process] does before it filters. *)
Definition alternating_loaded : Globals :=
  let g := started default_config in
  set_adc_buffer (memcpy (g_adc_buffer g) alternating_input 8) g.

(** All elements are zeros (of either sign), all are numbers. *)
Definition all_zero (l : list float) : Prop :=
  Forall (fun x => F32.is_zero x = true) l.
Definition all_finite (l : list float) : Prop :=
  Forall (fun x => F32.is_finite x = true) l.

(** The state the filter loops carry: numbers in the buffer, zeros in
both filter states, and zeros in the first [done] cells of the buffer. *)
Definition filtered (done : nat) (st : list float * list float * list float) : Prop :=
  let '(buffer, hpf, lpf) := st in
  all_finite buffer /\ all_zero hpf /\ all_zero lpf
  /\ forall j, (j < done)%nat -> F32.is_zero (nth j buffer F32.zero) = true.

(** The same with zeros throughout the buffer. *)
Definition silent (st : list float * list float * list float) : Prop :=
  let '(buffer, hpf, lpf) := st in
  all_zero buffer /\ all_zero hpf /\ all_zero lpf.


(** Every bin frequency of the centroid loop is a number; checked bin by
bin. *)
Definition bin_frequencies_finite (rate : Z) : bool :=
  forallb (fun k => F32.is_finite (bin_frequency rate k)) non_dc_bins.

(** ** Histories of calls *)

(** The calls an application can make on the node. *)
Inductive Call :=
| CallInit (config : option HybridNodeConfig)
| CallStart
| CallStop
| CallProcess (input output : option (list float)) (frames : Z)
| CallSetPreampGain (gain : float)
| CallSetControlVoltage (cv : option ControlVoltage)
| CallSetMode (m : HybridNodeMode)
| CallCalibrate (calibration : option CalibrationData) (now : Z)
| CallLoadCalibration (calibration : option CalibrationData)
| CallResetStatistics
| CallEmergencyShutdown.

Definition call (cosf sinf expf : float -> float) (c : Call) (g : Globals)
    : Globals :=
  match c with
  | CallInit config => snd (hybrid_node_init config g)
  | CallStart => snd (hybrid_node_start g)
  | CallStop => snd (hybrid_node_stop g)
  | CallProcess input output frames =>
      snd (hybrid_node_process cosf sinf expf input output frames g)
  | CallSetPreampGain gain => snd (hybrid_node_set_preamp_gain gain g)
  | CallSetControlVoltage cv => snd (hybrid_node_set_control_voltage cv g)
  | CallSetMode m => snd (hybrid_node_set_mode m g)
  | CallCalibrate calibration now =>
      snd (hybrid_node_calibrate calibration now g)
  | CallLoadCalibration calibration =>
      snd (hybrid_node_load_calibration calibration g)
  | CallResetStatistics => snd (hybrid_node_reset_statistics g)
  | CallEmergencyShutdown => snd (hybrid_node_emergency_shutdown g)
  end.

Definition calls (cosf sinf expf : float -> float) (cs : list Call)
    (g : Globals) : Globals :=
  fold_left (fun g c => call cosf sinf expf c g) cs g.

(** A call other than [hybrid_node_init]. *)
Definition not_init (c : Call) : bool :=
  match c with CallInit _ => false | _ => true end.

(** ** Vocabulary of further properties *)

(** A voltage within the safety bounds. *)
Definition within_bounds (v : float) : Prop :=
  F32.le SAFETY_VOLTAGE_MIN v = true /\ F32.le v SAFETY_VOLTAGE_MAX = true.

(** The number of ring entries above the peak threshold of 0.5. *)
Definition peaks_in_ring (ring : list float) : Z :=
  Z.of_nat
    (length (filter (fun i => F32.gt (nth i ring F32.zero) (F32.lit 1 2) = true)
                    (seq 0 32))).

(** The same count over the ring entries [lo .. lo + n - 1]. *)
Definition peaks_from (ring : list float) (lo n : nat) : Z :=
  Z.of_nat
    (length (filter (fun i => F32.gt (nth i ring F32.zero) (F32.lit 1 2) = true)
                    (seq lo n))).

(** The ring of [dsp_calculate_ici] after the current flux is stored. *)
Definition ring_with_flux (g : Globals) : list float :=
  <[Z.to_nat (g_ici_index g) := spectral_flux (dsp (g_status g))]> (g_ici_buffer g).

(** The self-test configuration with the analog filter off. *)
Definition unfiltered_config : HybridNodeConfig :=
  {| interface_type := HYBRID_INTERFACE_I2S;
     sample_rate := HYBRID_SAMPLE_RATE;
     buffer_size := Z.of_nat HYBRID_BUFFER_SIZE;
     adc_channels := Z.of_nat HYBRID_ADC_CHANNELS;
     dac_channels := Z.of_nat HYBRID_DAC_CHANNELS;
     preamp_gain := F32.of_Z 10;
     hpf_cutoff := ANALOG_HPF_CUTOFF;
     lpf_cutoff := ANALOG_LPF_CUTOFF;
     enable_analog_filter := false;
     fft_size := Z.of_nat HYBRID_FFT_SIZE;
     enable_dsp := true;
     enable_coherence := true;
     enable_ici := true;
     enable_modulation := true;
     modulation_depth := F32.lit 8 10;
     control_loop_rate := F32.of_Z 100;
     enable_voltage_clamp := true;
     enable_thermal_monitor := false;
     voltage_max := SAFETY_VOLTAGE_MAX;
     thermal_gpio_pin := 0;
     cfg_mode := HYBRID_MODE_HYBRID;
     enable_logging := false |}.

(** The second half of the cycle up to the point where the caller's output
buffer is filled: analysis and modulation, before the frame counter. *)
Definition process_analysis (cosf sinf : float -> float) (frames : Z)
    (g : Globals) : Globals :=
  let g :=
    if enable_dsp (g_config g)
       && safety_status_eqb (status (safety (g_status g))) HYBRID_SAFETY_OK
    then
      let g := dsp_process_fft cosf sinf frames g in
      let g := if enable_ici (g_config g) then dsp_calculate_ici g else g in
      let g := if enable_coherence (g_config g)
               then dsp_calculate_coherence g else g in
      set_dsp_timestamp 0 g
    else g in
  if enable_modulation (g_config g) then apply_control_voltage g else g.

(** What analysis and modulation leave alone besides [analysis_frame]:
the initialisation flag and the frame counters. *)
Definition bookkeeping_frame (g g' : Globals) : Prop :=
  g_initialized g' = g_initialized g
  /\ frames_processed (stats (g_status g')) = frames_processed (stats (g_status g))
  /\ frames_dropped (stats (g_status g')) = frames_dropped (stats (g_status g)).

End HybridNode.

(** * Properties *)

(** ** Loops and arrays *)

Section LoopFacts.
Context {St : Type}.

Lemma for_loop_S body n lo (s : St) :
  for_loop (S n) lo body s = for_loop n (S lo) body (body lo s).
Proof. reflexivity. Qed.

Lemma for_loop_invariant (P : nat -> St -> Prop) body :
  forall n lo (s : St),
    P lo s ->
    (forall i t, (lo <= i < lo + n)%nat -> P i t -> P (S i) (body i t)) ->
    P (lo + n)%nat (for_loop n lo body s).
Proof.
  induction n as [|n IH]; intros lo s H0 Hstep; simpl.
  - now rewrite Nat.add_0_r.
  - replace (lo + S n)%nat with (S lo + n)%nat by lia.
    apply IH.
    + apply Hstep; [lia | assumption].
    + intros i t Hi. apply Hstep. lia.
Qed.

(** An invariant that does not mention the counter. *)
Lemma for_loop_preserves (P : St -> Prop) body n lo (s : St) :
  P s -> (forall i t, (lo <= i < lo + n)%nat -> P t -> P (body i t)) ->
  P (for_loop n lo body s).
Proof.
  intros H0 Hstep.
  apply (for_loop_invariant (fun _ t => P t) body n lo s H0).
  intros i t Hi. now apply Hstep.
Qed.

Lemma for_loop_ext body1 body2 n :
  forall lo (s : St),
    (forall i t, (lo <= i < lo + n)%nat -> body1 i t = body2 i t) ->
    for_loop n lo body1 s = for_loop n lo body2 s.
Proof.
  induction n as [|n IH]; intros lo s H; simpl; [reflexivity|].
  rewrite H by lia. apply IH. intros i t Hi. apply H. lia.
Qed.

Lemma for_loop_snoc body n :
  forall lo (s : St),
    for_loop (S n) lo body s = body (lo + n)%nat (for_loop n lo body s).
Proof.
  induction n as [|n IH]; intros lo s.
  - simpl. now rewrite Nat.add_0_r.
  - change (for_loop (S (S n)) lo body s)
      with (for_loop (S n) (S lo) body (body lo s)).
    rewrite IH. simpl. f_equal. lia.
Qed.
End LoopFacts.

Section ArrayFacts.
Context {A : Type}.

Lemma nth_insert_ne (l : list A) (i j : nat) (x d : A) :
  i <> j -> nth j (<[i := x]> l) d = nth j l d.
Proof.
  intros Hne. rewrite !nth_lookup, list_lookup_insert_ne by assumption.
  reflexivity.
Qed.

(** Reading back a cell just written: the value written, or the default
when the index is outside the array. *)
Lemma nth_insert_eq (l : list A) (i : nat) (x d : A) :
  nth i (<[i := x]> l) d = if decide (i < length l)%nat then x else d.
Proof.
  rewrite nth_lookup. destruct (decide (i < length l)%nat) as [Hlt|Hge].
  - now rewrite list_lookup_insert_eq.
  - rewrite list_insert_ge by lia.
    rewrite (lookup_ge_None_2 l i) by lia. reflexivity.
Qed.

Lemma nth_insert_prop (P : A -> Prop) (l : list A) (i : nat) (x d : A) :
  P x -> P d -> P (nth i (<[i := x]> l) d).
Proof.
  intros Hx Hd. rewrite nth_insert_eq. now destruct (decide _).
Qed.

Lemma Forall_nth_default (P : A -> Prop) (l : list A) (i : nat) (d : A) :
  Forall P l -> P d -> P (nth i l d).
Proof.
  intros Hl Hd. rewrite nth_lookup.
  destruct (l !! i) as [x|] eqn:E; [|exact Hd].
  cbn. eapply Forall_lookup_1; eassumption.
Qed.
End ArrayFacts.

(** ** Zeros under single-precision arithmetic *)

Section ZeroArithmetic.
Import F32.

Lemma is_zero_finite x : is_zero x = true -> is_finite x = true.
Proof. destruct x; simpl; intros H; try discriminate; reflexivity. Qed.

Lemma mul_zero_l x y :
  is_zero x = true -> is_finite y = true -> is_zero (mul x y) = true.
Proof. destruct x, y; simpl; intros Hx Hy; try discriminate; reflexivity. Qed.

Lemma mul_zero_r x y :
  is_finite x = true -> is_zero y = true -> is_zero (mul x y) = true.
Proof. destruct x, y; simpl; intros Hx Hy; try discriminate; reflexivity. Qed.

Lemma mul_zero_zero x y :
  is_zero x = true -> is_zero y = true -> is_zero (mul x y) = true.
Proof. intros Hx Hy. apply mul_zero_l; [assumption | now apply is_zero_finite]. Qed.

(** The square of a zero is the positive zero. *)
Lemma mul_zero_self x : is_zero x = true -> mul x x = zero.
Proof. destruct x as [[]| | |]; simpl; intros H; try discriminate; reflexivity. Qed.

Lemma add_zero_zero x y :
  is_zero x = true -> is_zero y = true -> is_zero (add x y) = true.
Proof.
  destruct x as [[]| | |], y as [[]| | |]; simpl; intros Hx Hy;
    try discriminate; reflexivity.
Qed.

Lemma sub_zero_zero x y :
  is_zero x = true -> is_zero y = true -> is_zero (sub x y) = true.
Proof.
  destruct x as [[]| | |], y as [[]| | |]; simpl; intros Hx Hy;
    try discriminate; reflexivity.
Qed.

(** The positive zero absorbs a zero of either sign. *)
Lemma add_pzero_zero y : is_zero y = true -> add zero y = zero.
Proof. destruct y as [[]| | |]; simpl; intros H; try discriminate; reflexivity. Qed.

Lemma sub_pzero_zero y : is_zero y = true -> sub zero y = zero.
Proof. destruct y as [[]| | |]; simpl; intros H; try discriminate; reflexivity. Qed.

Lemma abs_zero x : is_zero x = true -> abs x = zero.
Proof. destruct x; simpl; intros H; try discriminate; reflexivity. Qed.

(** A number minus itself is the positive zero. *)
Lemma sub_diag_finite s m e :
  sub (S754_finite s m e) (S754_finite s m e) = zero.
Proof.
  unfold sub, SFsub. rewrite Z.sub_diag. reflexivity.
Qed.

(** The subtraction the high-pass step performs: [(h + x) - x] with a
zero state [h] is a zero for every number [x]. *)
Lemma add_sub_cancel h x :
  is_zero h = true -> is_finite x = true ->
  is_zero (sub (add h x) x) = true.
Proof.
  intros Hh Hx. destruct x as [sx| | |sx mx ex]; try discriminate.
  - apply sub_zero_zero; [|reflexivity]. now apply add_zero_zero.
  - destruct h as [sh| | |]; try discriminate.
    change (add (S754_zero sh) (S754_finite sx mx ex)) with (S754_finite sx mx ex).
    now rewrite sub_diag_finite.
Qed.
End ZeroArithmetic.

(** ** Transport codec *)

Section CodecRoundTrip.
Import I2SBridge.

Lemma union_round_trip b : is_float_bits b -> union_i_to_f (union_f_to_i b) = b.
Proof.
  unfold is_float_bits, union_i_to_f, union_f_to_i. intros Hb.
  destruct (Z.ltb_spec b (2 ^ 31)).
  - apply Z.mod_small. lia.
  - replace (b - 2 ^ 32) with (b + (-1) * 2 ^ 32) by lia.
    rewrite Z.mod_add by lia. apply Z.mod_small. lia.
Qed.

(** Iterations from sample [lo] on leave the words below [lo * 8]
    alone. *)
Lemma encode_loop_below p d c x n :
  forall lo frame (j : nat),
    (j < lo * I2S_CHANNELS + 4)%nat ->
    for_loop n lo (encode_sample p d c x) frame !! j = frame !! j.
Proof.
  induction n as [|n IH]; intros lo frame j Hj; simpl; [reflexivity|].
  rewrite IH by (unfold I2S_CHANNELS in *; lia).
  unfold encode_sample.
  rewrite !list_lookup_insert_ne by (unfold I2S_CHANNELS in *; lia).
  reflexivity.
Qed.

(** After encoding, the four metric words of the first sample hold the
    bit patterns of the record. *)
Lemma encode_first_sample frame m :
  (8 <= length frame)%nat ->
  let f := encode_metrics_to_frame frame m in
  f !! 4%nat = Some (union_f_to_i (phi_phase m)) /\
  f !! 5%nat = Some (union_f_to_i (phi_depth m)) /\
  f !! 6%nat = Some (union_f_to_i (coherence m)) /\
  f !! 7%nat = Some (union_f_to_i (extra_of m)).
Proof.
  intros Hlen f. subst f. unfold encode_metrics_to_frame.
  change I2S_BUFFER_SIZE with (S 511). rewrite for_loop_S.
  rewrite !encode_loop_below by (unfold I2S_CHANNELS; lia).
  unfold encode_sample, I2S_CHANNELS. cbn [Nat.mul Nat.add].
  repeat split.
  - rewrite !list_lookup_insert_ne by lia.
    apply list_lookup_insert_eq. lia.
  - rewrite !list_lookup_insert_ne by lia.
    apply list_lookup_insert_eq. rewrite !length_insert. lia.
  - rewrite !list_lookup_insert_ne by lia.
    apply list_lookup_insert_eq. rewrite !length_insert. lia.
  - apply list_lookup_insert_eq. rewrite !length_insert. lia.
Qed.
End CodecRoundTrip.

(** C1. Decoding the frame produced by encoding [m] recovers [phi_phase],
    [phi_depth] and [coherence] bit for bit; when the receiving record
    carries the same sequence number as [m], the 4th slot comes back as
    [criticality] on an even sequence number and as [ici] on an odd one,
    again bit for bit.  [frame] is any buffer of the size of the
    transmit buffer. *)
Theorem codec_round_trip :
  forall (m dst : I2SBridge.ConsciousnessMetrics) (frame : list Z),
    I2SBridge.metrics_ok m ->
    length frame = (I2SBridge.I2S_BUFFER_SIZE * I2SBridge.I2S_CHANNELS)%nat ->
    I2SBridge.sequence dst = I2SBridge.sequence m ->
    exists d,
      I2SBridge.decode_metrics_from_frame
        (I2SBridge.encode_metrics_to_frame frame m) dst = Some d /\
      I2SBridge.phi_phase d = I2SBridge.phi_phase m /\
      I2SBridge.phi_depth d = I2SBridge.phi_depth m /\
      I2SBridge.coherence d = I2SBridge.coherence m /\
      (Z.even (I2SBridge.sequence m) = true ->
         I2SBridge.criticality d = I2SBridge.criticality m) /\
      (Z.odd (I2SBridge.sequence m) = true ->
         I2SBridge.ici d = I2SBridge.ici m).
Proof.
  intros m dst frame (Hp & Hd & Hc & Hk & Hi) Hlen Hseq.
  destruct (encode_first_sample frame m) as (E4 & E5 & E6 & E7).
  { rewrite Hlen. unfold I2SBridge.I2S_BUFFER_SIZE, I2SBridge.I2S_CHANNELS. lia. }
  unfold I2SBridge.decode_metrics_from_frame.
  rewrite E4, E5, E6, E7. eexists; split; [reflexivity|]. cbn.
  rewrite !union_round_trip by assumption.
  rewrite Hseq. unfold I2SBridge.extra_of.
  rewrite Zmod_even, <- Z.negb_even.
  destruct (Z.even (I2SBridge.sequence m)); cbn;
    rewrite ?union_round_trip by assumption;
    repeat split; intros; congruence.
Qed.

Lemma codec_round_trip_witness :
  exists d,
    I2SBridge.decode_metrics_from_frame
      (I2SBridge.encode_metrics_to_frame
         I2SBridge.silent_frame I2SBridge.self_test_metrics)
      I2SBridge.blank_metrics = Some d /\
    I2SBridge.phi_phase d = 1078530000 /\
    I2SBridge.criticality d = 1065353216.
Proof.
  destruct (codec_round_trip I2SBridge.self_test_metrics
              I2SBridge.blank_metrics I2SBridge.silent_frame)
    as (d & Hd & Hp & _ & _ & Hk & _).
  - unfold I2SBridge.metrics_ok, I2SBridge.is_float_bits; cbn; lia.
  - reflexivity.
  - reflexivity.
  - exists d. split; [exact Hd|]. split; [exact Hp|]. apply Hk. reflexivity.
Defined.

(** ** Phi-sensor: reading consumes the pending sample *)

Section PhiSensorRead.
Import PhiSensor.

(** The two outcomes of a read through a valid pointer. *)
Lemma phi_sensor_read_cases d g :
  phi_sensor_read (Some d) g =
    if g_running g && g_data_ready g
    then (true, Some (g_current_data g), set_data_ready false g)
    else (false, Some d, g).
Proof.
  unfold phi_sensor_read.
  destruct (g_running g), (g_data_ready g); reflexivity.
Qed.

Lemma phi_sensor_read_null g : phi_sensor_read None g = (false, None, g).
Proof. reflexivity. Qed.

Lemma sample_timer_isr_ready t adc g :
  g_data_ready (sample_timer_isr t adc g) = g_running g || g_data_ready g.
Proof.
  unfold sample_timer_isr.
  destruct (g_running g); cbn [negb orb]; [|reflexivity].
  destruct (for_loop _ _ _ _) as [data g']. reflexivity.
Qed.

(** The flag [g_data_ready] is the pending-sample bit of the history. *)
Lemma step_keeps_pending e g p :
  g_data_ready g = p -> g_data_ready (step e g) = step_pending e g p.
Proof.
  intros <-. destruct e as [c|t| |t adc|d]; cbn [step step_pending].
  - destruct c; reflexivity.
  - unfold phi_sensor_start.
    destruct (negb (g_initialized g) || g_running g); reflexivity.
  - unfold phi_sensor_stop. destruct (g_running g); reflexivity.
  - rewrite sample_timer_isr_ready. destruct (g_running g); reflexivity.
  - destruct d as [d|]; [|reflexivity].
    rewrite phi_sensor_read_cases.
    destruct (g_running g) eqn:Hr, (g_data_ready g) eqn:Hd; cbn;
      rewrite ?Hd; reflexivity.
Qed.

Lemma run_keeps_pending events :
  forall g p,
    g_data_ready g = p ->
    g_data_ready (fst (run events g p)) = snd (run events g p).
Proof.
  induction events as [|e events IH]; intros g p H; cbn [run].
  - exact H.
  - apply IH. now apply step_keeps_pending.
Qed.
End PhiSensorRead.

(** C10. After any history of initialisations, starts, stops, sampling
    interrupts and reads, a read through a valid pointer succeeds exactly
    when the sensor is running and a sample has been stored since the last
    successful read; a successful read hands out the stored sample; and a
    read that follows a read directly, with no sample in between, fails and
    leaves the caller's structure as it was. *)
Theorem phi_sensor_read_consumes :
  forall (events : list PhiSensor.Event) (d d2 : PhiSensor.PhiSensorData),
    let g := fst (PhiSensor.run events PhiSensor.initial_globals false) in
    let pending := snd (PhiSensor.run events PhiSensor.initial_globals false) in
    let r := PhiSensor.phi_sensor_read (Some d) g in
    (fst (fst r) = true <-> PhiSensor.g_running g = true /\ pending = true) /\
    snd (fst r) =
      (if fst (fst r) then Some (PhiSensor.g_current_data g) else Some d) /\
    PhiSensor.phi_sensor_read (Some d2) (snd r) = (false, Some d2, snd r).
Proof.
  intros events d d2 g pending r.
  assert (Hp : PhiSensor.g_data_ready g = pending)
    by (apply run_keeps_pending; reflexivity).
  subst r. rewrite !phi_sensor_read_cases. rewrite Hp.
  destruct (PhiSensor.g_running g) eqn:Hr, pending eqn:Hq; cbn;
    rewrite ?Hr, ?Hp, ?andb_false_r; cbn;
    (split; [split; [intros; try discriminate; auto
                    | intros [? ?]; try discriminate; auto]
            | split; reflexivity]).
Qed.

(** ** Hybrid node: record bookkeeping *)

(** Reduces projections of the records of the node applied to field
updates, and nothing else: the floating-point constants stay folded. *)
Ltac node_fields :=
  cbn [fst snd negb andb orb
    HybridNode.g_config HybridNode.g_status HybridNode.g_initialized
    HybridNode.g_running HybridNode.g_adc_buffer HybridNode.g_dac_buffer
    HybridNode.g_fft_input HybridNode.g_fft_output
    HybridNode.g_prev_spectral_centroid HybridNode.g_last_zero_crossing
    HybridNode.g_ici_buffer HybridNode.g_ici_index HybridNode.hpf_state
    HybridNode.lpf_state HybridNode.dac_port HybridNode.set_config
    HybridNode.set_status HybridNode.set_initialized HybridNode.set_running
    HybridNode.set_adc_buffer HybridNode.set_dac_buffer HybridNode.set_fft
    HybridNode.set_prev_spectral_centroid HybridNode.set_ici_ring
    HybridNode.set_filter_states HybridNode.set_dac_port HybridNode.mode
    HybridNode.is_running HybridNode.is_calibrated HybridNode.analog
    HybridNode.dsp HybridNode.control HybridNode.safety
    HybridNode.calibration HybridNode.stats HybridNode.set_mode
    HybridNode.set_is_running HybridNode.set_is_calibrated
    HybridNode.set_analog HybridNode.set_dsp HybridNode.set_control
    HybridNode.set_safety HybridNode.set_calibration HybridNode.set_stats
    HybridNode.status HybridNode.temperature HybridNode.voltage_out
    HybridNode.overload_count HybridNode.clamp_count
    HybridNode.thermal_warning HybridNode.set_status_field
    HybridNode.set_temperature HybridNode.set_voltage_out
    HybridNode.set_overload_count HybridNode.set_clamp_count HybridNode.cv1
    HybridNode.cv2 HybridNode.phi_phase HybridNode.phi_depth
    HybridNode.set_cv HybridNode.interface_type HybridNode.sample_rate
    HybridNode.buffer_size HybridNode.adc_channels HybridNode.dac_channels
    HybridNode.preamp_gain HybridNode.hpf_cutoff HybridNode.lpf_cutoff
    HybridNode.enable_analog_filter HybridNode.fft_size
    HybridNode.enable_dsp HybridNode.enable_coherence HybridNode.enable_ici
    HybridNode.enable_modulation HybridNode.modulation_depth
    HybridNode.control_loop_rate HybridNode.enable_voltage_clamp
    HybridNode.enable_thermal_monitor HybridNode.voltage_max
    HybridNode.thermal_gpio_pin HybridNode.cfg_mode
    HybridNode.enable_logging HybridNode.cfg_with_preamp_gain
    HybridNode.cfg_with_mode HybridNode.rms_level HybridNode.peak_level
    HybridNode.dc_offset HybridNode.thd HybridNode.snr_db
    HybridNode.is_overloaded HybridNode.ici HybridNode.coherence
    HybridNode.criticality HybridNode.spectral_centroid
    HybridNode.spectral_flux HybridNode.zero_crossing_rate
    HybridNode.timestamp_us HybridNode.frames_processed
    HybridNode.frames_dropped HybridNode.cpu_load
    HybridNode.buffer_utilization HybridNode.uptime_ms HybridNode.drift_ppm
    HybridNode.modulation_fidelity HybridNode.adc_gain HybridNode.adc_offset
    HybridNode.dac_gain HybridNode.dac_offset HybridNode.adc_latency_us
    HybridNode.dsp_latency_us HybridNode.dac_latency_us
    HybridNode.total_latency_us HybridNode.calibration_timestamp
    HybridNode.cal_is_calibrated].

(** ** Hybrid node: comparisons *)

Section Comparisons.
Lemma SFcompare_antisym a b :
  SFcompare b a = option_map CompOpp (SFcompare a b).
Proof.
  destruct a as [sa|sa| |sa ma ea], b as [sb|sb| |sb mb eb];
    try reflexivity; try (destruct sa; reflexivity);
    try (destruct sb; reflexivity);
    try (destruct sa, sb; reflexivity).
  cbn [SFcompare option_map].
  destruct sa, sb; cbn [CompOpp]; try reflexivity;
    rewrite (Z.compare_antisym ea eb);
    destruct (ea ?= eb); cbn [CompOpp]; try reflexivity;
    rewrite ?CompOpp_involutive;
    change (PosDef.Pos.compare_cont Eq) with Pos.compare;
    now rewrite (Pos.compare_antisym ma mb), ?CompOpp_involutive.
Qed.

(** On numbers, [a < b] is the negation of [b <= a]. *)
Lemma lt_not_le a b :
  F32.is_nan a = false -> F32.is_nan b = false ->
  F32.lt a b = negb (F32.le b a).
Proof.
  unfold F32.lt, F32.le, SFltb, SFleb. intros Ha Hb.
  rewrite (SFcompare_antisym a b).
  destruct (SFcompare a b) as [[]|] eqn:E; try reflexivity.
  destruct a, b; try discriminate; cbn in E;
    repeat match goal with s : bool |- _ => destruct s end; discriminate.
Qed.
End Comparisons.

(** ** Hybrid node: lifecycle and configuration calls *)

Section Lifecycle.
Import HybridNode.

Lemma memset_zero_all {A} (z : A) (l : list A) :
  memset_zero z l (length l) = replicate (length l) z.
Proof.
  unfold memset_zero. rewrite Nat.min_id, drop_all. apply app_nil_r.
Qed.

(** Range form of the gain check for a gain that is a number. *)
Lemma set_preamp_gain_number gain g :
  F32.is_nan gain = false ->
  (fst (hybrid_node_set_preamp_gain gain g) = true <->
     F32.le ANALOG_PREAMP_GAIN_MIN gain = true
     /\ F32.le gain ANALOG_PREAMP_GAIN_MAX = true)
  /\ (fst (hybrid_node_set_preamp_gain gain g) = false ->
        snd (hybrid_node_set_preamp_gain gain g) = g)
  /\ (fst (hybrid_node_set_preamp_gain gain g) = true ->
        preamp_gain (g_config (snd (hybrid_node_set_preamp_gain gain g))) = gain).
Proof.
  intros Hn. unfold hybrid_node_set_preamp_gain, F32.gt.
  rewrite !lt_not_le by (assumption || reflexivity).
  destruct (F32.le ANALOG_PREAMP_GAIN_MIN gain),
           (F32.le gain ANALOG_PREAMP_GAIN_MAX); cbn;
    repeat split; intros; try discriminate; auto;
    match goal with H : _ /\ _ |- _ => destruct H; discriminate end.
Qed.
End Lifecycle.

(** C6. Emergency shutdown of a running node, whatever its safety state:
    the call returns true, the node is no longer running, both control
    voltages are 0, the safety state is Fault, and the last buffer handed
    to the DAC port is all zero. *)
Theorem emergency_shutdown_running :
  forall g : HybridNode.Globals,
    HybridNode.g_running g = true ->
    let r := HybridNode.hybrid_node_emergency_shutdown g in
    fst r = true
    /\ HybridNode.g_running (snd r) = false
    /\ HybridNode.is_running (HybridNode.g_status (snd r)) = false
    /\ HybridNode.cv1 (HybridNode.control (HybridNode.g_status (snd r))) = F32.zero
    /\ HybridNode.cv2 (HybridNode.control (HybridNode.g_status (snd r))) = F32.zero
    /\ HybridNode.status (HybridNode.safety (HybridNode.g_status (snd r)))
       = HybridNode.HYBRID_SAFETY_FAULT
    /\ head (HybridNode.dac_port (snd r))
       = Some (replicate (length (HybridNode.g_dac_buffer g)) F32.zero,
               HybridNode.buffer_size (HybridNode.g_config g)).
Proof.
  intros g Hrun r. subst r.
  unfold HybridNode.hybrid_node_emergency_shutdown, HybridNode.hybrid_node_stop.
  rewrite Hrun. cbn -[memset_zero].
  rewrite !memset_zero_all, !length_replicate.
  repeat split; reflexivity.
Qed.

Lemma emergency_shutdown_running_witness :
  let r := HybridNode.hybrid_node_emergency_shutdown
             (HybridNode.started HybridNode.default_config) in
  fst r = true
  /\ HybridNode.g_running (snd r) = false
  /\ HybridNode.status (HybridNode.safety (HybridNode.g_status (snd r)))
     = HybridNode.HYBRID_SAFETY_FAULT.
Proof.
  destruct (emergency_shutdown_running
              (HybridNode.started HybridNode.default_config) eq_refl)
    as (H1 & H2 & _ & _ & _ & H6 & _).
  exact (conj H1 (conj H2 H6)).
Defined.

(** C8 at the input that escapes the range check: NaN compares false
    with both bounds, so the call succeeds and NaN becomes the gain. *)
Theorem set_preamp_gain_accepts_nan :
  forall g : HybridNode.Globals,
    HybridNode.hybrid_node_set_preamp_gain F32.nan g
    = (true,
       HybridNode.set_config
         (HybridNode.cfg_with_preamp_gain F32.nan (HybridNode.g_config g)) g)
    /\ F32.le HybridNode.ANALOG_PREAMP_GAIN_MIN F32.nan = false.
Proof. intros g. split; reflexivity. Qed.

(** C9. The state guards: [start] on a running node and [calibrate] on a
    running node return false, [stop] on a stopped node returns false, and
    none of the three changes the globals (nor the caller's calibration
    structure). *)
Theorem lifecycle_guards :
  forall (g : HybridNode.Globals)
         (c : option HybridNode.CalibrationData) (now : Z),
    (HybridNode.g_running g = true ->
       HybridNode.hybrid_node_start g = (false, g)
       /\ HybridNode.hybrid_node_calibrate c now g = (false, c, g))
    /\ (HybridNode.g_running g = false ->
          HybridNode.hybrid_node_stop g = (false, g)).
Proof.
  intros g c now. split.
  - intros Hrun. split.
    + unfold HybridNode.hybrid_node_start. rewrite Hrun.
      now rewrite orb_true_r.
    + unfold HybridNode.hybrid_node_calibrate. rewrite Hrun.
      destruct c; reflexivity.
  - intros Hrun. unfold HybridNode.hybrid_node_stop. now rewrite Hrun.
Qed.

Lemma lifecycle_guards_witness :
  let g := HybridNode.started HybridNode.default_config in
  HybridNode.hybrid_node_start g = (false, g)
  /\ HybridNode.hybrid_node_calibrate (Some HybridNode.zero_calibration) 0 g
     = (false, Some HybridNode.zero_calibration, g)
  /\ HybridNode.hybrid_node_stop HybridNode.initial_globals
     = (false, HybridNode.initial_globals).
Proof.
  split; [|split].
  - apply (lifecycle_guards (HybridNode.started HybridNode.default_config)
             (Some HybridNode.zero_calibration) 0). reflexivity.
  - apply (lifecycle_guards (HybridNode.started HybridNode.default_config)
             (Some HybridNode.zero_calibration) 0). reflexivity.
  - apply (lifecycle_guards HybridNode.initial_globals None 0). reflexivity.
Defined.

(** ** Hybrid node: what each stage of the cycle touches *)

Section CycleFrame.
Import HybridNode.
Variables cosf sinf expf : float -> float.

Lemma analysis_frame_refl g : analysis_frame g g.
Proof. repeat split. Qed.

Lemma analysis_frame_trans g1 g2 g3 :
  analysis_frame g1 g2 -> analysis_frame g2 g3 -> analysis_frame g1 g3.
Proof.
  unfold analysis_frame.
  intros (A1 & A2 & A3 & A4 & A5 & A6 & A7 & A8)
         (B1 & B2 & B3 & B4 & B5 & B6 & B7 & B8).
  repeat split; congruence.
Qed.

(** Unfolds a stage down to its record updates. *)
Ltac frame_stage :=
  unfold analysis_frame;
  repeat match goal with
         | |- context [let '(_, _) := ?x in _] => destruct x
         end;
  node_fields; repeat split; reflexivity.

Lemma frame_fill_window frames g : analysis_frame g (dsp_fill_window frames g).
Proof. unfold dsp_fill_window. frame_stage. Qed.

Lemma frame_dft g : analysis_frame g (dsp_dft cosf sinf g).
Proof. unfold dsp_dft. frame_stage. Qed.

Lemma frame_centroid_flux g : analysis_frame g (dsp_spectral_centroid_flux g).
Proof. unfold dsp_spectral_centroid_flux. frame_stage. Qed.

Lemma frame_zero_crossing_rate frames g :
  analysis_frame g (dsp_zero_crossing_rate frames g).
Proof. unfold dsp_zero_crossing_rate. frame_stage. Qed.

Lemma frame_process_fft frames g :
  analysis_frame g (dsp_process_fft cosf sinf frames g).
Proof.
  unfold dsp_process_fft.
  eapply analysis_frame_trans; [apply frame_fill_window|].
  eapply analysis_frame_trans; [apply frame_dft|].
  eapply analysis_frame_trans; [apply frame_centroid_flux|].
  apply frame_zero_crossing_rate.
Qed.

Lemma frame_calculate_ici g : analysis_frame g (dsp_calculate_ici g).
Proof. unfold dsp_calculate_ici. frame_stage. Qed.

Lemma frame_calculate_coherence g : analysis_frame g (dsp_calculate_coherence g).
Proof. unfold dsp_calculate_coherence. frame_stage. Qed.

Lemma frame_dsp_timestamp t g : analysis_frame g (set_dsp_timestamp t g).
Proof. unfold set_dsp_timestamp. frame_stage. Qed.

Lemma frame_control_voltage g : analysis_frame g (apply_control_voltage g).
Proof. unfold apply_control_voltage. frame_stage. Qed.

Lemma frame_frames_processed g : analysis_frame g (bump_frames_processed g).
Proof. unfold bump_frames_processed. frame_stage. Qed.

(** Peels the stages of a composition off, last stage first. *)
Ltac frame_peel :=
  repeat first
    [ apply analysis_frame_refl
    | match goal with
      | |- analysis_frame _ (if ?b then _ else _) => destruct b
      | |- analysis_frame _ (bump_frames_processed _) =>
          eapply analysis_frame_trans; [| apply frame_frames_processed]
      | |- analysis_frame _ (apply_control_voltage _) =>
          eapply analysis_frame_trans; [| apply frame_control_voltage]
      | |- analysis_frame _ (set_dsp_timestamp _ _) =>
          eapply analysis_frame_trans; [| apply frame_dsp_timestamp]
      | |- analysis_frame _ (dsp_calculate_coherence _) =>
          eapply analysis_frame_trans; [| apply frame_calculate_coherence]
      | |- analysis_frame _ (dsp_calculate_ici _) =>
          eapply analysis_frame_trans; [| apply frame_calculate_ici]
      | |- analysis_frame _ (dsp_process_fft _ _ _ _) =>
          eapply analysis_frame_trans; [| apply frame_process_fft]
      end ].

Lemma frame_process_back frames g :
  analysis_frame g (process_back cosf sinf frames g).
Proof. unfold process_back. cbv zeta. frame_peel. Qed.

(** The entry point is its two halves. *)
Lemma process_halves input output frames g :
  g_running g = true ->
  exists out,
    hybrid_node_process cosf sinf expf (Some input) (Some output) frames g
    = (true, Some out,
       process_back cosf sinf frames (process_front expf input frames g)).
Proof.
  intros Hrun. unfold hybrid_node_process, process_back, process_front.
  rewrite Hrun. cbn [negb]. eexists. reflexivity.
Qed.

Lemma cycle_halves input frames g :
  g_running g = true ->
  cycle cosf sinf expf input frames g
  = process_back cosf sinf frames (process_front expf input frames g).
Proof.
  intros Hrun. unfold cycle.
  destruct (process_halves input
              (silence (Z.to_nat frames * HYBRID_DAC_CHANNELS)) frames g Hrun)
    as [out ->].
  reflexivity.
Qed.

(** *** The safety check *)

Lemma safety_check_status_eq g :
  status (safety (g_status (safety_check g))) =
    if enable_voltage_clamp (g_config g)
       && (F32.ge (cv1 (control (g_status g))) SAFETY_VOLTAGE_MAX
           || F32.ge (cv2 (control (g_status g))) SAFETY_VOLTAGE_MAX)
    then HYBRID_SAFETY_VOLTAGE_CLAMP
    else status (safety (g_status g)).
Proof.
  unfold safety_check. cbv zeta.
  destruct (is_overloaded (analog (g_status g))); node_fields;
    [destruct (F32.gt (preamp_gain (g_config g)) ANALOG_PREAMP_GAIN_MIN);
     node_fields|];
    destruct (enable_voltage_clamp (g_config g)); node_fields; try reflexivity;
    destruct (F32.ge (cv1 (control (g_status g))) SAFETY_VOLTAGE_MAX
              || F32.ge (cv2 (control (g_status g))) SAFETY_VOLTAGE_MAX);
    reflexivity.
Qed.

Lemma safety_check_overload g :
  overload_count (safety (g_status (safety_check g))) =
    (if is_overloaded (analog (g_status g))
     then u32 (overload_count (safety (g_status g)) + 1)
     else overload_count (safety (g_status g)))
  /\ preamp_gain (g_config (safety_check g)) =
       (if is_overloaded (analog (g_status g))
        then reduce_gain (preamp_gain (g_config g))
        else preamp_gain (g_config g))
  /\ analog (g_status (safety_check g)) = analog (g_status g)
  /\ g_running (safety_check g) = g_running g.
Proof.
  unfold safety_check, reduce_gain. cbv zeta.
  destruct (is_overloaded (analog (g_status g))); node_fields;
    [destruct (F32.gt (preamp_gain (g_config g)) ANALOG_PREAMP_GAIN_MIN);
     node_fields|];
    destruct (enable_voltage_clamp (g_config g)); node_fields;
    try (repeat split; reflexivity);
    destruct (F32.ge (cv1 (control (g_status g))) SAFETY_VOLTAGE_MAX
              || F32.ge (cv2 (control (g_status g))) SAFETY_VOLTAGE_MAX);
    repeat split; reflexivity.
Qed.

(** The copy, the filter and the analog metrics keep the configuration,
the run flag and the safety telemetry, and set the overload flag by
comparing the peak with the threshold. *)
Lemma analog_metrics_facts frames g :
  let g' := analog_metrics frames g in
  g_config g' = g_config g /\ g_running g' = g_running g
  /\ safety (g_status g') = safety (g_status g)
  /\ control (g_status g') = control (g_status g)
  /\ is_overloaded (analog (g_status g'))
     = F32.gt (peak_level (analog (g_status g'))) SAFETY_OVERLOAD_THRESH.
Proof.
  unfold analog_metrics.
  destruct (for_loop _ _ _ _) as [[rms peak] dc]. node_fields.
  repeat split; reflexivity.
Qed.

Lemma apply_analog_filter_facts frames g :
  let g' := apply_analog_filter expf frames g in
  g_config g' = g_config g /\ g_running g' = g_running g
  /\ g_status g' = g_status g.
Proof.
  unfold apply_analog_filter.
  destruct (filter_loop _ _ _ _ _) as [[b h] l]. node_fields.
  repeat split; reflexivity.
Qed.

Lemma process_front_facts input frames g :
  let g' := process_front expf input frames g in
  g_running g' = g_running g
  /\ is_overloaded (analog (g_status g'))
     = F32.gt (peak_level (analog (g_status g'))) SAFETY_OVERLOAD_THRESH
  /\ overload_count (safety (g_status g')) =
       (if is_overloaded (analog (g_status g'))
        then u32 (overload_count (safety (g_status g)) + 1)
        else overload_count (safety (g_status g)))
  /\ preamp_gain (g_config g') =
       (if is_overloaded (analog (g_status g'))
        then reduce_gain (preamp_gain (g_config g))
        else preamp_gain (g_config g)).
Proof.
  unfold process_front.
  set (g1 := set_adc_buffer _ g).
  set (g2 := if enable_analog_filter (g_config g1)
             then apply_analog_filter expf frames g1 else g1).
  assert (H2 : g_config g2 = g_config g /\ g_running g2 = g_running g
               /\ g_status g2 = g_status g).
  { subst g2. destruct (enable_analog_filter (g_config g1)).
    - destruct (apply_analog_filter_facts frames g1) as (-> & -> & ->).
      repeat split; reflexivity.
    - repeat split; reflexivity. }
  destruct H2 as (C2 & R2 & S2).
  destruct (analog_metrics_facts frames g2) as (C3 & R3 & S3 & _ & O3).
  destruct (safety_check_overload (analog_metrics frames g2))
    as (K4 & P4 & A4 & R4).
  cbv zeta. rewrite A4, K4, P4, R4, R3, R2, S3, S2, C3, C2, O3.
  repeat split; reflexivity.
Qed.

(** One cycle of a running node: the node keeps running; the overload
flag is the comparison of the conditioned peak with the threshold; an
overloaded cycle counts one overload and applies one gain step. *)
Lemma cycle_overload input frames g :
  g_running g = true ->
  let g' := cycle cosf sinf expf input frames g in
  g_running g' = true
  /\ is_overloaded (analog (g_status g'))
     = F32.gt (peak_level (analog (g_status g'))) SAFETY_OVERLOAD_THRESH
  /\ overload_count (safety (g_status g')) =
       (if is_overloaded (analog (g_status g'))
        then u32 (overload_count (safety (g_status g)) + 1)
        else overload_count (safety (g_status g)))
  /\ preamp_gain (g_config g') =
       (if is_overloaded (analog (g_status g'))
        then reduce_gain (preamp_gain (g_config g))
        else preamp_gain (g_config g)).
Proof.
  intros Hrun. cbv zeta. rewrite cycle_halves by assumption.
  destruct (frame_process_back frames (process_front expf input frames g))
    as (C & R & _ & _ & A & _ & K & _).
  destruct (process_front_facts input frames g) as (R1 & O1 & K1 & P1).
  rewrite C, R, A, K, R1, Hrun. auto.
Qed.
End CycleFrame.

(** The same peeling, for use after the section. *)
Ltac frame_peel_stages :=
  repeat first
    [ apply analysis_frame_refl
    | match goal with
      | |- HybridNode.analysis_frame _ (if ?b then _ else _) => destruct b
      | |- HybridNode.analysis_frame _ (HybridNode.bump_frames_processed _) =>
          eapply analysis_frame_trans; [| apply frame_frames_processed]
      | |- HybridNode.analysis_frame _ (HybridNode.apply_control_voltage _) =>
          eapply analysis_frame_trans; [| apply frame_control_voltage]
      | |- HybridNode.analysis_frame _ (HybridNode.set_dsp_timestamp _ _) =>
          eapply analysis_frame_trans; [| apply frame_dsp_timestamp]
      | |- HybridNode.analysis_frame _ (HybridNode.dsp_calculate_coherence _) =>
          eapply analysis_frame_trans; [| apply frame_calculate_coherence]
      | |- HybridNode.analysis_frame _ (HybridNode.dsp_calculate_ici _) =>
          eapply analysis_frame_trans; [| apply frame_calculate_ici]
      | |- HybridNode.analysis_frame _ (HybridNode.dsp_process_fft _ _ _ _) =>
          eapply analysis_frame_trans; [| apply frame_process_fft]
      end ].


(** ** Hybrid node: safety monitor and overload handling *)

Section SafetyMonitor.
Import HybridNode.
Variables cosf sinf expf : float -> float.

Lemma process_front_status input frames g :
  status (safety (g_status (process_front expf input frames g))) =
    if enable_voltage_clamp (g_config g)
       && (F32.ge (cv1 (control (g_status g))) SAFETY_VOLTAGE_MAX
           || F32.ge (cv2 (control (g_status g))) SAFETY_VOLTAGE_MAX)
    then HYBRID_SAFETY_VOLTAGE_CLAMP
    else status (safety (g_status g)).
Proof.
  unfold process_front.
  set (g1 := set_adc_buffer _ g).
  set (g2 := if enable_analog_filter (g_config g1)
             then apply_analog_filter expf frames g1 else g1).
  assert (H2 : g_config g2 = g_config g /\ g_status g2 = g_status g).
  { subst g2. destruct (enable_analog_filter (g_config g1)).
    - destruct (apply_analog_filter_facts expf frames g1) as (-> & _ & ->).
      split; reflexivity.
    - split; reflexivity. }
  destruct H2 as (C2 & S2).
  destruct (analog_metrics_facts frames g2) as (C3 & _ & S3 & V3 & _).
  cbv zeta. rewrite safety_check_status_eq, C3, S3, V3, C2, S2.
  reflexivity.
Qed.


Lemma u32_idem a : u32 (u32 a) = u32 a.
Proof. unfold u32, wrap. apply Zmod_mod. Qed.

Lemma iter_reduce_gain_floor n gain :
  F32.gt gain ANALOG_PREAMP_GAIN_MIN = false ->
  Nat.iter n reduce_gain gain = gain.
Proof.
  intros H. induction n as [|n IH]; [reflexivity|].
  rewrite Nat.iter_succ, IH. unfold reduce_gain. now rewrite H.
Qed.

End SafetyMonitor.

(** C2, as the code has it.  In a cycle of a running node the safety
state becomes VoltageClamp when voltage clamping is enabled and one of
the two control voltages is at or above the maximum when the cycle
starts; in every other case the cycle leaves the state as it was.  An
overload counts and reduces the gain but does not enter Overload, and
no cycle puts the state back to Ok. *)
Theorem safety_state_per_cycle :
  forall (cosf sinf expf : float -> float) (input : list float) (frames : Z)
         (g : HybridNode.Globals),
    HybridNode.g_running g = true ->
    HybridNode.status (HybridNode.safety (HybridNode.g_status
      (HybridNode.cycle cosf sinf expf input frames g))) =
      if HybridNode.enable_voltage_clamp (HybridNode.g_config g)
         && (F32.ge (HybridNode.cv1 (HybridNode.control (HybridNode.g_status g)))
                    HybridNode.SAFETY_VOLTAGE_MAX
             || F32.ge (HybridNode.cv2 (HybridNode.control (HybridNode.g_status g)))
                       HybridNode.SAFETY_VOLTAGE_MAX)
      then HybridNode.HYBRID_SAFETY_VOLTAGE_CLAMP
      else HybridNode.status (HybridNode.safety (HybridNode.g_status g)).
Proof.
  intros cosf sinf expf input frames g Hrun.
  rewrite cycle_halves by assumption.
  destruct (frame_process_back cosf sinf frames
              (HybridNode.process_front expf input frames g))
    as (_ & _ & _ & _ & _ & S & _).
  rewrite S. apply process_front_status.
Qed.

Lemma safety_state_per_cycle_witness :
  HybridNode.status (HybridNode.safety (HybridNode.g_status
    (HybridNode.cycle HybridNode.not_called HybridNode.not_called
       HybridNode.not_called (HybridNode.silence 8) 4
       HybridNode.clamp_requested)))
  = HybridNode.HYBRID_SAFETY_VOLTAGE_CLAMP.
Proof.
  rewrite (safety_state_per_cycle HybridNode.not_called HybridNode.not_called
             HybridNode.not_called (HybridNode.silence 8) 4
             HybridNode.clamp_requested eq_refl).
  reflexivity.
Defined.

(** C2 fails twice on the pass-through node.  A full-scale cycle sets the
overload flag and counts the overload, yet the state stays Ok instead of
Overload.  And once a 5 V request has put the state to VoltageClamp, a
later cycle in which nothing triggers (outputs at 0 V, no overload)
leaves it at VoltageClamp instead of Ok. *)
Lemma safety_state_counterexample :
  (HybridNode.is_overloaded (HybridNode.analog
     (HybridNode.g_status HybridNode.after_loud_cycle)) = true
   /\ HybridNode.overload_count (HybridNode.safety
        (HybridNode.g_status HybridNode.after_loud_cycle)) = 1
   /\ HybridNode.status (HybridNode.safety
        (HybridNode.g_status HybridNode.after_loud_cycle))
      = HybridNode.HYBRID_SAFETY_OK)
  /\ (HybridNode.status (HybridNode.safety
        (HybridNode.g_status HybridNode.clamp_cycle))
      = HybridNode.HYBRID_SAFETY_VOLTAGE_CLAMP
      /\ HybridNode.cv1 (HybridNode.control
           (HybridNode.g_status HybridNode.clamp_released)) = F32.zero
      /\ HybridNode.cv2 (HybridNode.control
           (HybridNode.g_status HybridNode.clamp_released)) = F32.zero
      /\ HybridNode.is_overloaded (HybridNode.analog
           (HybridNode.g_status HybridNode.after_release_cycle)) = false
      /\ HybridNode.status (HybridNode.safety
           (HybridNode.g_status HybridNode.after_release_cycle))
         = HybridNode.HYBRID_SAFETY_VOLTAGE_CLAMP).
Proof. vm_compute. repeat split; reflexivity. Qed.




(** ** Hybrid node: spectral centroid *)

Section SpectralCentroid.
Import HybridNode.
Variables cosf sinf : float -> float.




Lemma zero_crossing_rate_keeps frames g :
  let g' := dsp_zero_crossing_rate frames g in
  spectral_centroid (dsp (g_status g')) = spectral_centroid (dsp (g_status g))
  /\ spectral_flux (dsp (g_status g')) = spectral_flux (dsp (g_status g))
  /\ coherence (dsp (g_status g')) = coherence (dsp (g_status g)).
Proof. repeat split; reflexivity. Qed.

Lemma fill_window_keeps frames g :
  g_status (dsp_fill_window frames g) = g_status g
  /\ g_prev_spectral_centroid (dsp_fill_window frames g) = g_prev_spectral_centroid g.
Proof. split; reflexivity. Qed.

Lemma dft_keeps g :
  g_status (dsp_dft cosf sinf g) = g_status g
  /\ g_config (dsp_dft cosf sinf g) = g_config g
  /\ g_prev_spectral_centroid (dsp_dft cosf sinf g) = g_prev_spectral_centroid g.
Proof. repeat split; reflexivity. Qed.
End SpectralCentroid.



(** ** Hybrid node: the analog filter *)

Section AnalogFilter.
Import HybridNode.
Variable expf : float -> float.

Lemma all_zero_finite l : all_zero l -> all_finite l.
Proof.
  intros H. eapply Forall_impl; [exact H|].
  intros x. apply is_zero_finite.
Qed.

(** One sample through the two filter steps, from zero filter states:
the states stay zero and the sample is replaced by a zero. *)
Lemma filter_sample_step hpf_coeff lpf_coeff channels i ch buffer hpf lpf :
  F32.is_finite hpf_coeff = true -> F32.is_finite lpf_coeff = true ->
  all_finite buffer -> all_zero hpf -> all_zero lpf ->
  exists buffer' hpf' lpf',
    filter_sample hpf_coeff lpf_coeff channels i ch (buffer, hpf, lpf)
    = (buffer', hpf', lpf')
    /\ all_finite buffer' /\ all_zero hpf' /\ all_zero lpf'
    /\ F32.is_zero (nth (i * channels + ch) buffer' F32.zero) = true
    /\ (forall j, j <> (i * channels + ch)%nat ->
          nth j buffer' F32.zero = nth j buffer F32.zero)
    /\ (all_zero buffer -> all_zero buffer').
Proof.
  intros Hhc Hlc Hbuf Hhpf Hlpf.
  unfold filter_sample. cbv zeta.
  set (idx := (i * channels + ch)%nat).
  set (x := nth idx buffer F32.zero).
  set (h := F32.mul hpf_coeff
              (F32.sub (F32.add (nth ch hpf F32.zero) x) x)).
  set (hpf' := <[ch := h]> hpf).
  set (buffer1 := <[idx := nth ch hpf' F32.zero]> buffer).
  set (l := F32.add (nth ch lpf F32.zero)
              (F32.mul lpf_coeff
                 (F32.sub (nth idx buffer1 F32.zero) (nth ch lpf F32.zero)))).
  set (lpf' := <[ch := l]> lpf).
  assert (Hx : F32.is_finite x = true)
    by (apply (Forall_nth_default (fun x => F32.is_finite x = true));
        [assumption | reflexivity]).
  assert (Hh0 : F32.is_zero (nth ch hpf F32.zero) = true)
    by (apply (Forall_nth_default (fun x => F32.is_zero x = true));
        [assumption | reflexivity]).
  assert (Hh : F32.is_zero h = true)
    by (apply mul_zero_r; [assumption | now apply add_sub_cancel]).
  assert (Hhpf' : all_zero hpf') by (apply Forall_insert; assumption).
  assert (Hb1 : F32.is_zero (nth ch hpf' F32.zero) = true)
    by (apply (Forall_nth_default (fun x => F32.is_zero x = true));
        [assumption | reflexivity]).
  assert (Hy : F32.is_zero (nth idx buffer1 F32.zero) = true)
    by (apply (nth_insert_prop (fun x => F32.is_zero x = true));
        [assumption | reflexivity]).
  assert (Hl0 : F32.is_zero (nth ch lpf F32.zero) = true)
    by (apply (Forall_nth_default (fun x => F32.is_zero x = true));
        [assumption | reflexivity]).
  assert (Hl : F32.is_zero l = true).
  { apply add_zero_zero; [assumption|].
    apply mul_zero_r; [assumption|]. now apply sub_zero_zero. }
  assert (Hlpf' : all_zero lpf') by (apply Forall_insert; assumption).
  assert (Hb2 : F32.is_zero (nth ch lpf' F32.zero) = true)
    by (apply (Forall_nth_default (fun x => F32.is_zero x = true));
        [assumption | reflexivity]).
  eexists _, _, _. split; [reflexivity|].
  split; [|split; [exact Hhpf'|split; [exact Hlpf'|split; [|split]]]].
  - apply Forall_insert; [apply Forall_insert|]; try assumption;
      now apply is_zero_finite.
  - apply (nth_insert_prop (fun x => F32.is_zero x = true));
      [assumption | reflexivity].
  - intros j Hj. subst buffer1. rewrite !nth_insert_ne by congruence.
    reflexivity.
  - intros Hz. apply Forall_insert; [apply Forall_insert|]; assumption.
Qed.

Lemma filter_sample_filtered hpf_coeff lpf_coeff channels i ch st :
  F32.is_finite hpf_coeff = true -> F32.is_finite lpf_coeff = true ->
  filtered (i * channels + ch) st ->
  filtered (i * channels + S ch)
           (filter_sample hpf_coeff lpf_coeff channels i ch st).
Proof.
  intros Hhc Hlc. destruct st as [[buffer hpf] lpf].
  intros (Hb & Hh & Hl & Hz).
  destruct (filter_sample_step hpf_coeff lpf_coeff channels i ch
              buffer hpf lpf Hhc Hlc Hb Hh Hl)
    as (b' & h' & l' & -> & Hb' & Hh' & Hl' & Hidx & Hother & _).
  repeat split; try assumption.
  intros j Hj. destruct (decide (j = (i * channels + ch)%nat)) as [->|Hne].
  - exact Hidx.
  - rewrite Hother by assumption. apply Hz. lia.
Qed.

Lemma filter_loop_filtered hpf_coeff lpf_coeff channels frames st :
  F32.is_finite hpf_coeff = true -> F32.is_finite lpf_coeff = true ->
  filtered 0 st ->
  filtered (frames * channels)
           (filter_loop hpf_coeff lpf_coeff channels frames st).
Proof.
  intros Hhc Hlc H0. unfold filter_loop.
  apply (for_loop_invariant (fun i st => filtered (i * channels) st)
           _ frames 0 st H0).
  intros i t _ Hi.
  replace (S i * channels)%nat with (i * channels + channels)%nat by lia.
  apply (for_loop_invariant (fun ch st => filtered (i * channels + ch) st)
           _ channels 0 t).
  - now rewrite Nat.add_0_r.
  - intros ch u _ Hu. now apply filter_sample_filtered.
Qed.

(** The same loops on a buffer of zeros leave a buffer of zeros. *)
Lemma filter_loop_silent hpf_coeff lpf_coeff channels frames st :
  F32.is_finite hpf_coeff = true -> F32.is_finite lpf_coeff = true ->
  silent st -> silent (filter_loop hpf_coeff lpf_coeff channels frames st).
Proof.
  intros Hhc Hlc H0. unfold filter_loop.
  apply for_loop_preserves; [assumption|]. intros i t _ Ht.
  apply for_loop_preserves; [assumption|]. intros ch u _ Hu.
  destruct u as [[buffer hpf] lpf]. destruct Hu as (Hb & Hh & Hl).
  destruct (filter_sample_step hpf_coeff lpf_coeff channels i ch
              buffer hpf lpf Hhc Hlc (all_zero_finite _ Hb) Hh Hl)
    as (b' & h' & l' & -> & _ & Hh' & Hl' & _ & _ & Hz).
  repeat split; auto.
Qed.

Lemma apply_analog_filter_silent frames g :
  F32.is_finite (filter_coeff expf (hpf_cutoff (g_config g))
                   (sample_rate (g_config g))) = true ->
  F32.is_finite (filter_coeff expf (lpf_cutoff (g_config g))
                   (sample_rate (g_config g))) = true ->
  all_zero (g_adc_buffer g) -> all_zero (hpf_state g) -> all_zero (lpf_state g) ->
  all_zero (g_adc_buffer (apply_analog_filter expf frames g)).
Proof.
  intros Hhc Hlc Hb Hh Hl. unfold apply_analog_filter.
  pose proof (filter_loop_silent _ _
                (Z.to_nat (adc_channels (g_config g))) (Z.to_nat frames)
                (g_adc_buffer g, hpf_state g, lpf_state g) Hhc Hlc
                (conj Hb (conj Hh Hl))) as H.
  destruct (filter_loop _ _ _ _ _) as [[b h] l].
  destruct H as (Hb' & _). exact Hb'.
Qed.

Lemma all_finite_check l : forallb F32.is_finite l = true -> all_finite l.
Proof.
  intros H. apply Forall_forall. intros x Hx.
  apply list_elem_of_In in Hx.
  now apply (proj1 (forallb_forall F32.is_finite l) H).
Qed.

Lemma all_zero_check l : forallb F32.is_zero l = true -> all_zero l.
Proof.
  intros H. apply Forall_forall. intros x Hx.
  apply list_elem_of_In in Hx.
  now apply (proj1 (forallb_forall F32.is_zero l) H).
Qed.
End AnalogFilter.

(** C4 at work on the code.  With finite filter coefficients and zero
filter states (the states of a freshly loaded program), the filter
replaces every sample of a buffer of numbers by zero and leaves both
states zero, so the next cycle starts from the same condition: the
high-pass step computes [hpf_coeff * (state + x - x)], which is zero, and
the low-pass step only ever sees zeros.  No input signal survives. *)
Theorem analog_filter_erases_signal :
  forall (expf : float -> float) (frames : Z) (g : HybridNode.Globals),
    F32.is_finite
      (HybridNode.filter_coeff expf
         (HybridNode.hpf_cutoff (HybridNode.g_config g))
         (HybridNode.sample_rate (HybridNode.g_config g))) = true ->
    F32.is_finite
      (HybridNode.filter_coeff expf
         (HybridNode.lpf_cutoff (HybridNode.g_config g))
         (HybridNode.sample_rate (HybridNode.g_config g))) = true ->
    HybridNode.all_finite (HybridNode.g_adc_buffer g) ->
    HybridNode.all_zero (HybridNode.hpf_state g) ->
    HybridNode.all_zero (HybridNode.lpf_state g) ->
    let g' := HybridNode.apply_analog_filter expf frames g in
    (forall j : nat,
       (j < Z.to_nat frames
            * Z.to_nat (HybridNode.adc_channels (HybridNode.g_config g)))%nat ->
       F32.is_zero (nth j (HybridNode.g_adc_buffer g') F32.zero) = true)
    /\ HybridNode.all_zero (HybridNode.hpf_state g')
    /\ HybridNode.all_zero (HybridNode.lpf_state g').
Proof.
  intros expf frames g Hhc Hlc Hb Hh Hl.
  unfold HybridNode.apply_analog_filter.
  assert (H0 : HybridNode.filtered 0
                 (HybridNode.g_adc_buffer g, HybridNode.hpf_state g,
                  HybridNode.lpf_state g)).
  { repeat split; try assumption. intros j Hj. lia. }
  pose proof (filter_loop_filtered _ _
                (Z.to_nat (HybridNode.adc_channels (HybridNode.g_config g)))
                (Z.to_nat frames) _ Hhc Hlc H0) as H.
  destruct (HybridNode.filter_loop _ _ _ _ _) as [[b h] l].
  destruct H as (_ & Hh' & Hl' & Hz). node_fields.
  repeat split; assumption.
Qed.

Lemma analog_filter_erases_signal_witness :
  let g' := HybridNode.apply_analog_filter HybridNode.expf_default_cutoffs 4
              HybridNode.alternating_loaded in
  F32.is_zero (nth 0 (HybridNode.g_adc_buffer g') F32.zero) = true
  /\ F32.is_zero (nth 7 (HybridNode.g_adc_buffer g') F32.zero) = true
  /\ HybridNode.all_zero (HybridNode.hpf_state g').
Proof.
  destruct (analog_filter_erases_signal HybridNode.expf_default_cutoffs 4
              HybridNode.alternating_loaded)
    as (Hz & Hh & _).
  - vm_compute. reflexivity.
  - vm_compute. reflexivity.
  - apply all_finite_check. vm_compute. reflexivity.
  - apply all_zero_check. vm_compute. reflexivity.
  - apply all_zero_check. vm_compute. reflexivity.
  - split; [apply Hz; vm_compute; lia|].
    split; [apply Hz; vm_compute; lia | exact Hh].
Defined.

(** The alternating full-scale buffer through the filter of the default
configuration: the working buffer held +1, +1, -1, -1, ... and holds
eight zeros afterwards. *)
Lemma analog_filter_alternating :
  take 4 (HybridNode.g_adc_buffer HybridNode.alternating_loaded)
  = [F32.of_Z 1; F32.of_Z 1; F32.of_Z (-1); F32.of_Z (-1)]
  /\ HybridNode.filter_coeff HybridNode.expf_default_cutoffs
       HybridNode.ANALOG_HPF_CUTOFF HybridNode.HYBRID_SAMPLE_RATE
     = S754_finite false 16734528 (-30)
  /\ HybridNode.filter_coeff HybridNode.expf_default_cutoffs
       HybridNode.ANALOG_LPF_CUTOFF HybridNode.HYBRID_SAMPLE_RATE
     = S754_finite false 10889759 (-24)
  /\ take 8 (HybridNode.g_adc_buffer
               (HybridNode.apply_analog_filter HybridNode.expf_default_cutoffs 4
                  HybridNode.alternating_loaded))
     = replicate 8 F32.zero.
Proof. vm_compute. repeat split; reflexivity. Qed.


(** ** Hybrid node: a silent buffer through the cycle *)

Section SilentCycle.
Import HybridNode.
Variables cosf sinf expf : float -> float.

Lemma all_zero_nth l i : all_zero l -> F32.is_zero (nth i l F32.zero) = true.
Proof.
  intros H. apply (Forall_nth_default (fun x => F32.is_zero x = true));
    [assumption | reflexivity].
Qed.

Lemma all_zero_silence n : all_zero (silence n).
Proof. apply Forall_replicate. reflexivity. Qed.

Lemma all_zero_memcpy dst src n :
  all_zero dst -> all_zero src -> all_zero (memcpy dst src n).
Proof.
  intros Hd Hs. unfold memcpy. apply Forall_app. split.
  - now apply Forall_take.
  - now apply Forall_drop.
Qed.

Lemma all_zero_memset dst n : all_zero dst -> all_zero (memset_zero F32.zero dst n).
Proof.
  intros Hd. unfold memset_zero. apply Forall_app. split.
  - apply Forall_replicate. reflexivity.
  - now apply Forall_drop.
Qed.

(** *** The state after [init] and [start] *)


(** *** Analog metrics of a buffer of zeros *)

Lemma metrics_loop_silent buffer n :
  all_zero buffer ->
  forall lo,
    for_loop n lo (metrics_step buffer) (F32.zero, F32.zero, F32.zero)
    = (F32.zero, F32.zero, F32.zero).
Proof.
  intros Hz. induction n as [|n IH]; intros lo; [reflexivity|].
  rewrite for_loop_S. unfold metrics_step at 2.
  pose proof (all_zero_nth buffer lo Hz) as Hs.
  rewrite (mul_zero_self _ Hs), (abs_zero _ Hs), (add_pzero_zero _ Hs).
  apply IH.
Qed.

Lemma analog_metrics_silent frames g :
  all_zero (g_adc_buffer g) ->
  let g' := analog_metrics frames g in
  let count := usize (frames * adc_channels (g_config g)) in
  rms_level (analog (g_status g'))
  = F32.sqrt (F32.div F32.zero (F32.of_Z count))
  /\ peak_level (analog (g_status g')) = F32.zero
  /\ is_overloaded (analog (g_status g')) = false
  /\ g_adc_buffer g' = g_adc_buffer g
  /\ g_fft_input g' = g_fft_input g /\ g_fft_output g' = g_fft_output g
  /\ g_prev_spectral_centroid g' = g_prev_spectral_centroid g
  /\ dsp (g_status g') = dsp (g_status g).
Proof.
  intros Hz. unfold analog_metrics.
  rewrite (metrics_loop_silent _ _ Hz). node_fields.
  repeat split; reflexivity.
Qed.

(** Nothing triggers: the safety check is the identity. *)
Lemma safety_check_idle g :
  is_overloaded (analog (g_status g)) = false ->
  cv1 (control (g_status g)) = F32.zero ->
  cv2 (control (g_status g)) = F32.zero ->
  safety_check g = g.
Proof.
  intros Ho H1 H2. unfold safety_check. rewrite Ho, H1, H2.
  destruct (enable_voltage_clamp (g_config g)); reflexivity.
Qed.

(** *** The analysis window and the transform of zeros *)

Lemma fill_window_silent frames g :
  all_zero (g_adc_buffer g) -> all_zero (g_fft_input g) ->
  all_zero (g_fft_input (dsp_fill_window frames g)).
Proof.
  intros Hb Hf. unfold dsp_fill_window. cbv zeta. node_fields.
  set (fin := for_loop _ _ _ _).
  assert (Hfin : all_zero fin).
  { subst fin. apply for_loop_preserves; [assumption|].
    intros i t _ Ht. apply Forall_insert; [assumption|].
    now apply all_zero_nth. }
  destruct (Z.to_nat frames <? HYBRID_FFT_SIZE)%nat; [|assumption].
  apply Forall_app. split.
  - now apply Forall_take.
  - apply all_zero_memset. now apply Forall_drop.
Qed.

Lemma dft_bin_silent fft_input k :
  all_zero fft_input ->
  (forall n, (n < HYBRID_FFT_SIZE)%nat ->
     F32.is_finite (cosf (dft_angle k n)) = true
     /\ F32.is_finite (sinf (dft_angle k n)) = true) ->
  for_loop HYBRID_FFT_SIZE 0 (dft_term cosf sinf fft_input k) (F32.zero, F32.zero)
  = (F32.zero, F32.zero).
Proof.
  intros Hz Hlib.
  apply (for_loop_preserves (fun acc => acc = (F32.zero, F32.zero)));
    [reflexivity|].
  intros n acc Hn ->. unfold dft_term.
  destruct (Hlib n ltac:(lia)) as [Hc Hs].
  pose proof (all_zero_nth fft_input n Hz) as Hx.
  rewrite (add_pzero_zero _ (mul_zero_l _ _ Hx Hc)).
  rewrite (sub_pzero_zero _ (mul_zero_l _ _ Hx Hs)).
  reflexivity.
Qed.

Lemma dft_silent g :
  all_zero (g_fft_input g) -> all_zero (g_fft_output g) ->
  (forall k n, (k < HYBRID_FFT_SIZE / 2)%nat -> (n < HYBRID_FFT_SIZE)%nat ->
     F32.is_finite (cosf (dft_angle k n)) = true
     /\ F32.is_finite (sinf (dft_angle k n)) = true) ->
  all_zero (g_fft_output (dsp_dft cosf sinf g)).
Proof.
  intros Hin Hout Hlib. unfold dsp_dft. node_fields.
  apply for_loop_preserves; [assumption|].
  intros k t Hk Ht. unfold dft_bin.
  rewrite dft_bin_silent; [|assumption|].
  - apply Forall_insert; [apply Forall_insert|]; try assumption; reflexivity.
  - intros n Hn. apply Hlib; [lia | assumption].
Qed.

Lemma bin_frequency_finite rate k :
  bin_frequencies_finite rate = true ->
  (1 <= k < HYBRID_FFT_SIZE / 2)%nat ->
  F32.is_finite (bin_frequency rate k) = true.
Proof.
  unfold bin_frequencies_finite, non_dc_bins. intros H Hk.
  apply (proj1 (forallb_forall _ _) H). apply in_seq.
  change (HYBRID_FFT_SIZE / 2)%nat with 512%nat in *. lia.
Qed.

Lemma centroid_sums_silent rate fft_output :
  bin_frequencies_finite rate = true ->
  all_zero fft_output ->
  centroid_sums rate fft_output = (F32.zero, F32.zero).
Proof.
  intros Hrate Hz. unfold centroid_sums.
  apply (for_loop_preserves (fun acc => acc = (F32.zero, F32.zero)));
    [reflexivity|].
  intros k acc Hk ->. unfold centroid_term.
  rewrite (mul_zero_self _ (all_zero_nth fft_output (k * 2) Hz)).
  rewrite (mul_zero_self _ (all_zero_nth fft_output (k * 2 + 1) Hz)).
  change (F32.sqrt (F32.add F32.zero F32.zero)) with F32.zero.
  change (F32.div (F32.of_Z (usize (Z.of_nat k * rate)))
                  (F32.of_Z (Z.of_nat HYBRID_FFT_SIZE)))
    with (bin_frequency rate k).
  rewrite (add_pzero_zero (F32.mul (bin_frequency rate k) F32.zero)).
  - reflexivity.
  - apply mul_zero_r; [|reflexivity].
    apply bin_frequency_finite; [assumption|].
    change (HYBRID_FFT_SIZE / 2 - 1)%nat with 511%nat in Hk.
    change (HYBRID_FFT_SIZE / 2)%nat with 512%nat. lia.
Qed.

(** On the spectrum of a silent window the centroid keeps its value and
the flux is its distance to the value of the previous cycle. *)
Lemma centroid_flux_silent g :
  bin_frequencies_finite (sample_rate (g_config g)) = true ->
  all_zero (g_fft_output g) ->
  let g' := dsp_spectral_centroid_flux g in
  spectral_centroid (dsp (g_status g')) = spectral_centroid (dsp (g_status g))
  /\ spectral_flux (dsp (g_status g'))
     = F32.abs (F32.sub (spectral_centroid (dsp (g_status g)))
                        (g_prev_spectral_centroid g)).
Proof.
  intros Hrate Hz. unfold dsp_spectral_centroid_flux.
  rewrite (centroid_sums_silent _ _ Hrate Hz). node_fields.
  split; reflexivity.
Qed.
End SilentCycle.

Section SilentCycleHalves.
Import HybridNode.
Variables cosf sinf expf : float -> float.

Lemma apply_analog_filter_keeps frames g :
  let g' := apply_analog_filter expf frames g in
  g_fft_input g' = g_fft_input g /\ g_fft_output g' = g_fft_output g
  /\ g_prev_spectral_centroid g' = g_prev_spectral_centroid g.
Proof.
  unfold apply_analog_filter.
  destruct (filter_loop _ _ _ _ _) as [[b h] l]. node_fields.
  repeat split; reflexivity.
Qed.

(** The first half of the cycle on a silent buffer: zero metrics, no
overload, and nothing else moves. *)
Lemma process_front_silent input frames g :
  all_zero input -> all_zero (g_adc_buffer g) ->
  all_zero (hpf_state g) -> all_zero (lpf_state g) ->
  (enable_analog_filter (g_config g) = true ->
     F32.is_finite (filter_coeff expf (hpf_cutoff (g_config g))
                      (sample_rate (g_config g))) = true
     /\ F32.is_finite (filter_coeff expf (lpf_cutoff (g_config g))
                         (sample_rate (g_config g))) = true) ->
  cv1 (control (g_status g)) = F32.zero ->
  cv2 (control (g_status g)) = F32.zero ->
  let g' := process_front expf input frames g in
  let count := usize (frames * adc_channels (g_config g)) in
  g_config g' = g_config g
  /\ all_zero (g_adc_buffer g')
  /\ rms_level (analog (g_status g'))
     = F32.sqrt (F32.div F32.zero (F32.of_Z count))
  /\ peak_level (analog (g_status g')) = F32.zero
  /\ is_overloaded (analog (g_status g')) = false
  /\ safety (g_status g') = safety (g_status g)
  /\ dsp (g_status g') = dsp (g_status g)
  /\ g_fft_input g' = g_fft_input g /\ g_fft_output g' = g_fft_output g
  /\ g_prev_spectral_centroid g' = g_prev_spectral_centroid g.
Proof.
  intros Hin Hbuf Hh Hl Hcoeff Hcv1 Hcv2. unfold process_front.
  set (g1 := set_adc_buffer _ g).
  assert (Hb1 : all_zero (g_adc_buffer g1))
    by (subst g1; node_fields; now apply all_zero_memcpy).
  set (g2 := if enable_analog_filter (g_config g1)
             then apply_analog_filter expf frames g1 else g1).
  assert (H2 : g_config g2 = g_config g /\ g_status g2 = g_status g
               /\ all_zero (g_adc_buffer g2)
               /\ g_fft_input g2 = g_fft_input g
               /\ g_fft_output g2 = g_fft_output g
               /\ g_prev_spectral_centroid g2 = g_prev_spectral_centroid g).
  { subst g2. destruct (enable_analog_filter (g_config g1)) eqn:Hen.
    - destruct (apply_analog_filter_facts expf frames g1) as (-> & _ & ->).
      destruct (apply_analog_filter_keeps frames g1) as (-> & -> & ->).
      destruct (Hcoeff Hen) as [Hhc Hlc].
      repeat split; try reflexivity.
      now apply apply_analog_filter_silent.
    - repeat split; try reflexivity. assumption. }
  destruct H2 as (C2 & S2 & B2 & FI2 & FO2 & P2).
  destruct (analog_metrics_silent frames g2 B2)
    as (R3 & K3 & O3 & B3 & FI3 & FO3 & P3 & D3).
  destruct (analog_metrics_facts frames g2) as (C3 & _ & S3 & V3 & _).
  cbv zeta. rewrite safety_check_idle.
  - rewrite R3, K3, O3, B3, FI3, FO3, P3, D3, C3, S3, C2, S2, FI2, FO2, P2.
    repeat split; try reflexivity. assumption.
  - exact O3.
  - now rewrite V3, S2.
  - now rewrite V3, S2.
Qed.

Lemma calculate_ici_keeps g :
  let g' := dsp_calculate_ici g in
  g_config g' = g_config g
  /\ spectral_flux (dsp (g_status g')) = spectral_flux (dsp (g_status g))
  /\ coherence (dsp (g_status g')) = coherence (dsp (g_status g)).
Proof.
  unfold dsp_calculate_ici.
  destruct (for_loop _ _ _ _) as [a b]. node_fields.
  repeat split; reflexivity.
Qed.

Lemma calculate_coherence_value g :
  let g' := dsp_calculate_coherence g in
  spectral_flux (dsp (g_status g')) = spectral_flux (dsp (g_status g))
  /\ coherence (dsp (g_status g'))
     = F32.sub one
         (F32.fminf (F32.div (spectral_flux (dsp (g_status g))) (F32.of_Z 1000))
                    one).
Proof. split; reflexivity. Qed.

Lemma dsp_timestamp_keeps t g :
  spectral_flux (dsp (g_status (set_dsp_timestamp t g)))
  = spectral_flux (dsp (g_status g))
  /\ coherence (dsp (g_status (set_dsp_timestamp t g)))
     = coherence (dsp (g_status g)).
Proof. split; reflexivity. Qed.

Lemma modulation_keeps_dsp (b : bool) g :
  dsp (g_status (bump_frames_processed
                   (if b then apply_control_voltage g else g)))
  = dsp (g_status g).
Proof. destruct b; reflexivity. Qed.

(** The analysis stage writes the coherence only in
[dsp_calculate_coherence]. *)
Lemma process_fft_keeps_coherence frames g :
  coherence (dsp (g_status (dsp_process_fft cosf sinf frames g)))
  = coherence (dsp (g_status g)).
Proof.
  unfold dsp_process_fft. cbv zeta.
  destruct (zero_crossing_rate_keeps frames
              (dsp_spectral_centroid_flux
                 (dsp_dft cosf sinf (dsp_fill_window frames g))))
    as (_ & _ & ->).
  unfold dsp_spectral_centroid_flux.
  destruct (centroid_sums _ _) as [w m]. reflexivity.
Qed.


(** The second half of the cycle on a silent working buffer: the flux is
the distance of the centroid to the centroid of the previous cycle, and
the coherence, where it is calculated, follows from the flux. *)
Lemma process_back_silent frames g :
  enable_dsp (g_config g) = true ->
  status (safety (g_status g)) = HYBRID_SAFETY_OK ->
  bin_frequencies_finite (sample_rate (g_config g)) = true ->
  all_zero (g_adc_buffer g) -> all_zero (g_fft_input g) ->
  all_zero (g_fft_output g) ->
  (forall k n, (k < HYBRID_FFT_SIZE / 2)%nat -> (n < HYBRID_FFT_SIZE)%nat ->
     F32.is_finite (cosf (dft_angle k n)) = true
     /\ F32.is_finite (sinf (dft_angle k n)) = true) ->
  let g' := process_back cosf sinf frames g in
  let flux := F32.abs (F32.sub (spectral_centroid (dsp (g_status g)))
                               (g_prev_spectral_centroid g)) in
  spectral_flux (dsp (g_status g')) = flux
  /\ coherence (dsp (g_status g'))
     = (if enable_coherence (g_config g)
        then F32.sub one (F32.fminf (F32.div flux (F32.of_Z 1000)) one)
        else coherence (dsp (g_status g))).
Proof.
  intros Hdsp Hok Hrate Hbuf Hfin Hfout Hlib.
  unfold process_back. rewrite Hdsp, Hok. cbn [safety_status_eqb andb].
  cbv zeta. rewrite modulation_keeps_dsp.
  set (ga := dsp_process_fft cosf sinf frames g).
  assert (Ha : g_config ga = g_config g
               /\ spectral_flux (dsp (g_status ga))
                  = F32.abs (F32.sub (spectral_centroid (dsp (g_status g)))
                                     (g_prev_spectral_centroid g))
               /\ coherence (dsp (g_status ga)) = coherence (dsp (g_status g))).
  { subst ga. split; [apply frame_process_fft|].
    split; [|apply process_fft_keeps_coherence].
    unfold dsp_process_fft. cbv zeta.
    destruct (zero_crossing_rate_keeps frames
                (dsp_spectral_centroid_flux
                   (dsp_dft cosf sinf (dsp_fill_window frames g))))
      as (_ & -> & _).
    set (gd := dsp_dft cosf sinf (dsp_fill_window frames g)).
    assert (Hgd : g_config gd = g_config g /\ g_status gd = g_status g
                  /\ g_prev_spectral_centroid gd = g_prev_spectral_centroid g)
      by (repeat split; reflexivity).
    destruct Hgd as (Cd & Sd & Pd).
    assert (Hzd : all_zero (g_fft_output gd)).
    { subst gd. apply dft_silent; try assumption.
      now apply fill_window_silent. }
    destruct (centroid_flux_silent gd) as (_ & ->);
      [now rewrite Cd | exact Hzd |].
    rewrite Sd, Pd. reflexivity. }
  destruct Ha as (Ca & Fa & Ka).
  set (gb := if enable_ici (g_config ga) then dsp_calculate_ici ga else ga).
  assert (Hb : g_config gb = g_config g
               /\ spectral_flux (dsp (g_status gb))
                  = spectral_flux (dsp (g_status ga))
               /\ coherence (dsp (g_status gb)) = coherence (dsp (g_status ga))).
  { subst gb. destruct (enable_ici (g_config ga)).
    - destruct (calculate_ici_keeps ga) as (-> & -> & ->). now repeat split.
    - now repeat split. }
  destruct Hb as (Cb & Fb & Kb).
  rewrite Cb. destruct (enable_coherence (g_config g)).
  - destruct (dsp_timestamp_keeps 0 (dsp_calculate_coherence gb)) as (-> & ->).
    destruct (calculate_coherence_value gb) as (-> & ->).
    rewrite Fb, Fa. split; reflexivity.
  - destruct (dsp_timestamp_keeps 0 gb) as (-> & ->).
    rewrite Fb, Kb, Fa, Ka. split; reflexivity.
Qed.
End SilentCycleHalves.




(** *** A later start

[hybrid_node_init] resets the status but not the centroid of the previous
analysis cycle.  A node that is initialised and started again, its working
buffers and filter state being zero as after a session that ended on
silence, reports on a silent buffer the distance to that earlier centroid
as the flux, and the coherence that follows from it. *)
Section SilentRestart.
Import HybridNode.
Variables cosf sinf expf : float -> float.

Lemma restart_state cfg g0 :
  g_running g0 = false ->
  let g := snd (hybrid_node_start (snd (hybrid_node_init (Some cfg) g0))) in
  g_config g = cfg /\ g_running g = true
  /\ g_adc_buffer g = g_adc_buffer g0
  /\ hpf_state g = hpf_state g0 /\ lpf_state g = lpf_state g0
  /\ g_fft_input g = g_fft_input g0 /\ g_fft_output g = g_fft_output g0
  /\ g_prev_spectral_centroid g = g_prev_spectral_centroid g0
  /\ dsp (g_status g) = zero_dsp
  /\ control (g_status g) = zero_control
  /\ status (safety (g_status g)) = HYBRID_SAFETY_OK.
Proof.
  intros Hrun. unfold hybrid_node_init, hybrid_node_start. cbv zeta.
  cbn [platform_adc_init platform_dac_init negb snd]. node_fields.
  rewrite Hrun. cbn [negb orb snd]. node_fields.
  repeat split; reflexivity.
Qed.

Lemma silent_cycle_restart cfg g0 output :
  sample_rate cfg = 48000 -> adc_channels cfg = 2 ->
  enable_dsp cfg = true ->
  g_running g0 = false ->
  all_zero (g_adc_buffer g0) ->
  all_zero (hpf_state g0) -> all_zero (lpf_state g0) ->
  all_zero (g_fft_input g0) -> all_zero (g_fft_output g0) ->
  (forall k n : nat, (k < 512)%nat -> (n < 1024)%nat ->
     F32.is_finite (cosf (dft_angle k n)) = true
     /\ F32.is_finite (sinf (dft_angle k n)) = true) ->
  (enable_analog_filter cfg = true ->
     F32.is_finite (filter_coeff expf (hpf_cutoff cfg) 48000) = true
     /\ F32.is_finite (filter_coeff expf (lpf_cutoff cfg) 48000) = true) ->
  let g := snd (hybrid_node_start (snd (hybrid_node_init (Some cfg) g0))) in
  let r := hybrid_node_process cosf sinf expf
             (Some (silence 1024)) (Some output) 512 g in
  let flux := F32.abs (F32.sub F32.zero (g_prev_spectral_centroid g0)) in
  fst (fst r) = true
  /\ spectral_flux (dsp (g_status (snd r))) = flux
  /\ coherence (dsp (g_status (snd r)))
     = (if enable_coherence cfg
        then F32.sub one (F32.fminf (F32.div flux (F32.of_Z 1000)) one)
        else F32.zero).
Proof.
  intros Hrate Hch Hdsp Hrun Hb Hh Hl Hfi Hfo Hlib Hcoeff. cbv zeta.
  destruct (restart_state cfg g0 Hrun)
    as (C0 & R0 & B0 & H0 & L0 & FI0 & FO0 & P0 & D0 & V0 & S0).
  set (g := snd (hybrid_node_start (snd (hybrid_node_init (Some cfg) g0)))) in *.
  destruct (process_halves cosf sinf expf (silence 1024) output 512 g R0)
    as [out ->].
  cbn [fst snd]. split; [reflexivity|].
  destruct (process_front_silent expf (silence 1024) 512 g)
    as (C1 & B1 & _ & _ & _ & S1 & D1 & FI1 & FO1 & P1).
  { apply all_zero_silence. }
  { now rewrite B0. }
  { now rewrite H0. }
  { now rewrite L0. }
  { rewrite C0, Hrate. exact Hcoeff. }
  { now rewrite V0. }
  { now rewrite V0. }
  set (g1 := process_front expf (silence 1024) 512 g) in *.
  destruct (process_back_silent cosf sinf 512 g1) as (FL & CO).
  { now rewrite C1, C0. }
  { now rewrite S1. }
  { rewrite C1, C0, Hrate. vm_compute. reflexivity. }
  { exact B1. }
  { now rewrite FI1, FI0. }
  { now rewrite FO1, FO0. }
  { exact Hlib. }
  cbv zeta in FL, CO. rewrite FL, CO, D1, D0, P1, P0, C1, C0.
  destruct (enable_coherence cfg); split; reflexivity.
Qed.
End SilentRestart.

(** * Further properties of the hybrid node *)

(** ** Actuation bounds *)

Section ActuationBounds.
Import HybridNode.
Variables cosf sinf expf : float -> float.

Lemma fmaxf_lower v :
  F32.is_nan (F32.fmaxf v SAFETY_VOLTAGE_MIN) = false
  /\ F32.le SAFETY_VOLTAGE_MIN (F32.fmaxf v SAFETY_VOLTAGE_MIN) = true.
Proof.
  unfold F32.fmaxf. destruct (F32.is_nan v) eqn:Hn; [split; reflexivity|].
  change (F32.is_nan SAFETY_VOLTAGE_MIN) with false. cbv iota.
  rewrite lt_not_le by (assumption || reflexivity).
  destruct (F32.le SAFETY_VOLTAGE_MIN v) eqn:Hle; cbn [negb].
  - split; assumption.
  - split; reflexivity.
Qed.

(** The clamp maps every float, NaN and the infinities included, into
the safety bounds. *)
Lemma clamp_voltage_within v : within_bounds (clamp_voltage v).
Proof.
  unfold within_bounds, clamp_voltage.
  destruct (fmaxf_lower v) as [Hn Hlo].
  set (m := F32.fmaxf v SAFETY_VOLTAGE_MIN) in *.
  unfold F32.fminf. rewrite Hn.
  change (F32.is_nan SAFETY_VOLTAGE_MAX) with false. cbv iota.
  rewrite lt_not_le by (assumption || reflexivity).
  destruct (F32.le m SAFETY_VOLTAGE_MAX) eqn:Hle; cbn [negb].
  - split; assumption.
  - split; reflexivity.
Qed.

Lemma cfg_with_preamp_gain_same c : cfg_with_preamp_gain (preamp_gain c) c = c.
Proof. destruct c; reflexivity. Qed.

(** The safety check changes the configuration in the gain only. *)
Lemma safety_check_config g :
  g_config (safety_check g)
  = cfg_with_preamp_gain (preamp_gain (g_config (safety_check g))) (g_config g).
Proof.
  unfold safety_check. cbv zeta.
  destruct (is_overloaded (analog (g_status g))); node_fields;
    [destruct (F32.gt (preamp_gain (g_config g)) ANALOG_PREAMP_GAIN_MIN);
     node_fields|];
    destruct (enable_voltage_clamp (g_config g)); node_fields;
    try (destruct (F32.ge (cv1 (control (g_status g))) SAFETY_VOLTAGE_MAX
                   || F32.ge (cv2 (control (g_status g))) SAFETY_VOLTAGE_MAX);
         node_fields);
    try reflexivity; symmetry; apply cfg_with_preamp_gain_same.
Qed.

Lemma process_front_config input frames g :
  g_config (process_front expf input frames g)
  = cfg_with_preamp_gain
      (preamp_gain (g_config (process_front expf input frames g))) (g_config g).
Proof.
  unfold process_front.
  set (g1 := set_adc_buffer _ g).
  set (g2 := if enable_analog_filter (g_config g1)
             then apply_analog_filter expf frames g1 else g1).
  assert (C2 : g_config g2 = g_config g).
  { subst g2. destruct (enable_analog_filter (g_config g1)).
    - now destruct (apply_analog_filter_facts expf frames g1) as (-> & _).
    - reflexivity. }
  destruct (analog_metrics_facts frames g2) as (C3 & _).
  cbv zeta. rewrite safety_check_config at 1. now rewrite C3, C2.
Qed.

Lemma bump_keeps_control g :
  control (g_status (bump_frames_processed g)) = control (g_status g).
Proof. reflexivity. Qed.

Lemma control_voltage_clamped g :
  enable_voltage_clamp (g_config g) = true ->
  let c := control (g_status (apply_control_voltage g)) in
  within_bounds (cv1 c) /\ within_bounds (cv2 c).
Proof.
  intros Hen. unfold apply_control_voltage. cbv zeta. rewrite Hen. node_fields.
  split; apply clamp_voltage_within.
Qed.
End ActuationBounds.

(** X1. With voltage clamping enabled, both control voltages are within
[0 V, 5 V] after a request through [hybrid_node_set_control_voltage] and
after every cycle that runs the modulator, whatever was requested and
whatever the analysis produced (NaN and infinities included). *)
Theorem actuation_within_bounds :
  forall (cosf sinf expf : float -> float) (input : list float) (frames : Z)
         (request : HybridNode.ControlVoltage) (g : HybridNode.Globals),
    HybridNode.enable_voltage_clamp (HybridNode.g_config g) = true ->
    (let c := HybridNode.control (HybridNode.g_status
                (snd (HybridNode.hybrid_node_set_control_voltage (Some request) g))) in
     HybridNode.within_bounds (HybridNode.cv1 c)
     /\ HybridNode.within_bounds (HybridNode.cv2 c))
    /\ (HybridNode.g_running g = true ->
        HybridNode.enable_modulation (HybridNode.g_config g) = true ->
        let c := HybridNode.control (HybridNode.g_status
                   (HybridNode.cycle cosf sinf expf input frames g)) in
        HybridNode.within_bounds (HybridNode.cv1 c)
        /\ HybridNode.within_bounds (HybridNode.cv2 c)).
Proof.
  intros cosf sinf expf input frames request g Hclamp. split.
  - unfold HybridNode.hybrid_node_set_control_voltage. rewrite Hclamp.
    node_fields. split; apply clamp_voltage_within.
  - intros Hrun Hmod. rewrite cycle_halves by assumption.
    set (g1 := HybridNode.process_front expf input frames g).
    assert (C1 : HybridNode.enable_voltage_clamp (HybridNode.g_config g1) = true
                 /\ HybridNode.enable_modulation (HybridNode.g_config g1) = true).
    { subst g1. rewrite process_front_config. node_fields. now split. }
    destruct C1 as [Hclamp1 Hmod1].
    unfold HybridNode.process_back. cbv zeta.
    set (g2 := if _ && _ then _ else g1).
    assert (C2 : HybridNode.g_config g2 = HybridNode.g_config g1).
    { subst g2. destruct (_ && _); [|reflexivity].
      cut (HybridNode.analysis_frame g1
             (HybridNode.set_dsp_timestamp 0
                (let g := HybridNode.dsp_process_fft cosf sinf frames g1 in
                 let g := if HybridNode.enable_ici (HybridNode.g_config g)
                          then HybridNode.dsp_calculate_ici g else g in
                 if HybridNode.enable_coherence (HybridNode.g_config g)
                 then HybridNode.dsp_calculate_coherence g else g))).
      { intros (C & _). exact C. }
      cbv zeta. frame_peel_stages. }
    rewrite C2, Hmod1.
    rewrite bump_keeps_control.
    apply control_voltage_clamped. now rewrite C2.
Qed.

Lemma actuation_within_bounds_witness :
  (let c := HybridNode.control (HybridNode.g_status
              (snd (HybridNode.hybrid_node_set_control_voltage
                      (Some (HybridNode.set_cv_request S754_nan))
                      (HybridNode.started HybridNode.default_config)))) in
   HybridNode.within_bounds (HybridNode.cv1 c)
   /\ HybridNode.within_bounds (HybridNode.cv2 c))
  /\ (let c := HybridNode.control (HybridNode.g_status
                 (HybridNode.cycle HybridNode.not_called HybridNode.not_called
                    HybridNode.not_called HybridNode.loud_input 4
                    (HybridNode.started HybridNode.default_config))) in
      HybridNode.within_bounds (HybridNode.cv1 c)
      /\ HybridNode.within_bounds (HybridNode.cv2 c)).
Proof.
  destruct (actuation_within_bounds HybridNode.not_called HybridNode.not_called
              HybridNode.not_called HybridNode.loud_input 4
              (HybridNode.set_cv_request S754_nan)
              (HybridNode.started HybridNode.default_config) eq_refl)
    as [H1 H2].
  split; [exact H1 | exact (H2 eq_refl eq_refl)].
Defined.

(** ** Frame counter, flags and the sticky safety state *)

Section Bookkeeping.
Import HybridNode.
Variables cosf sinf expf : float -> float.

Lemma bookkeeping_frame_refl g : bookkeeping_frame g g.
Proof. repeat split. Qed.

Lemma bookkeeping_frame_trans g1 g2 g3 :
  bookkeeping_frame g1 g2 -> bookkeeping_frame g2 g3 -> bookkeeping_frame g1 g3.
Proof.
  unfold bookkeeping_frame. intros (A1 & A2 & A3) (B1 & B2 & B3).
  repeat split; congruence.
Qed.

Ltac book_stage :=
  unfold bookkeeping_frame;
  repeat match goal with
         | |- context [let '(_, _) := ?x in _] => destruct x
         end;
  node_fields; repeat split; reflexivity.

Lemma book_fill_window frames g : bookkeeping_frame g (dsp_fill_window frames g).
Proof. unfold dsp_fill_window. book_stage. Qed.

Lemma book_dft g : bookkeeping_frame g (dsp_dft cosf sinf g).
Proof. unfold dsp_dft. book_stage. Qed.

Lemma book_centroid_flux g : bookkeeping_frame g (dsp_spectral_centroid_flux g).
Proof. unfold dsp_spectral_centroid_flux. book_stage. Qed.

Lemma book_zero_crossing_rate frames g :
  bookkeeping_frame g (dsp_zero_crossing_rate frames g).
Proof. unfold dsp_zero_crossing_rate. book_stage. Qed.

Lemma book_process_fft frames g :
  bookkeeping_frame g (dsp_process_fft cosf sinf frames g).
Proof.
  unfold dsp_process_fft. cbv zeta.
  eapply bookkeeping_frame_trans; [apply book_fill_window|].
  eapply bookkeeping_frame_trans; [apply book_dft|].
  eapply bookkeeping_frame_trans; [apply book_centroid_flux|].
  apply book_zero_crossing_rate.
Qed.

Lemma book_calculate_ici g : bookkeeping_frame g (dsp_calculate_ici g).
Proof. unfold dsp_calculate_ici. book_stage. Qed.

Lemma book_calculate_coherence g :
  bookkeeping_frame g (dsp_calculate_coherence g).
Proof. unfold dsp_calculate_coherence. book_stage. Qed.

Lemma book_dsp_timestamp t g : bookkeeping_frame g (set_dsp_timestamp t g).
Proof. unfold set_dsp_timestamp. book_stage. Qed.

Lemma book_control_voltage g : bookkeeping_frame g (apply_control_voltage g).
Proof. unfold apply_control_voltage. book_stage. Qed.

Ltac book_peel :=
  repeat first
    [ apply bookkeeping_frame_refl
    | match goal with
      | |- bookkeeping_frame _ (if ?b then _ else _) => destruct b
      | |- bookkeeping_frame _ (apply_control_voltage _) =>
          eapply bookkeeping_frame_trans; [| apply book_control_voltage]
      | |- bookkeeping_frame _ (set_dsp_timestamp _ _) =>
          eapply bookkeeping_frame_trans; [| apply book_dsp_timestamp]
      | |- bookkeeping_frame _ (dsp_calculate_coherence _) =>
          eapply bookkeeping_frame_trans; [| apply book_calculate_coherence]
      | |- bookkeeping_frame _ (dsp_calculate_ici _) =>
          eapply bookkeeping_frame_trans; [| apply book_calculate_ici]
      | |- bookkeeping_frame _ (dsp_process_fft _ _ _ _) =>
          eapply bookkeeping_frame_trans; [| apply book_process_fft]
      end ].

Lemma book_process_analysis frames g :
  bookkeeping_frame g (process_analysis cosf sinf frames g).
Proof. unfold process_analysis. cbv zeta. book_peel. Qed.

Lemma frame_process_analysis frames g :
  analysis_frame g (process_analysis cosf sinf frames g).
Proof. unfold process_analysis. cbv zeta. frame_peel_stages. Qed.

Lemma process_back_analysis frames g :
  process_back cosf sinf frames g
  = bump_frames_processed (process_analysis cosf sinf frames g).
Proof. reflexivity. Qed.

(** What the first half of the cycle leaves alone. *)
Lemma safety_check_keeps g :
  let g' := safety_check g in
  g_initialized g' = g_initialized g
  /\ is_running (g_status g') = is_running (g_status g)
  /\ dsp (g_status g') = dsp (g_status g)
  /\ stats (g_status g') = stats (g_status g)
  /\ control (g_status g') = control (g_status g)
  /\ g_adc_buffer g' = g_adc_buffer g.
Proof.
  unfold safety_check. cbv zeta.
  destruct (is_overloaded (analog (g_status g))); node_fields;
    [destruct (F32.gt (preamp_gain (g_config g)) ANALOG_PREAMP_GAIN_MIN);
     node_fields|];
    destruct (enable_voltage_clamp (g_config g)); node_fields;
    try (destruct (F32.ge (cv1 (control (g_status g))) SAFETY_VOLTAGE_MAX
                   || F32.ge (cv2 (control (g_status g))) SAFETY_VOLTAGE_MAX);
         node_fields);
    repeat split; reflexivity.
Qed.

Lemma analog_metrics_keeps frames g :
  let g' := analog_metrics frames g in
  g_initialized g' = g_initialized g
  /\ is_running (g_status g') = is_running (g_status g)
  /\ dsp (g_status g') = dsp (g_status g)
  /\ stats (g_status g') = stats (g_status g)
  /\ g_adc_buffer g' = g_adc_buffer g.
Proof.
  unfold analog_metrics.
  destruct (for_loop _ _ _ _) as [[rms peak] dc]. node_fields.
  repeat split; reflexivity.
Qed.

Lemma apply_analog_filter_initialized frames g :
  g_initialized (apply_analog_filter expf frames g) = g_initialized g.
Proof.
  unfold apply_analog_filter.
  destruct (filter_loop _ _ _ _ _) as [[b h] l]. reflexivity.
Qed.

Lemma process_front_keeps input frames g :
  let g' := process_front expf input frames g in
  g_initialized g' = g_initialized g
  /\ is_running (g_status g') = is_running (g_status g)
  /\ dsp (g_status g') = dsp (g_status g)
  /\ stats (g_status g') = stats (g_status g)
  /\ control (g_status g') = control (g_status g).
Proof.
  unfold process_front.
  set (g1 := set_adc_buffer _ g).
  set (g2 := if enable_analog_filter (g_config g1)
             then apply_analog_filter expf frames g1 else g1).
  assert (H2 : g_initialized g2 = g_initialized g /\ g_status g2 = g_status g).
  { subst g2. destruct (enable_analog_filter (g_config g1)).
    - rewrite apply_analog_filter_initialized.
      destruct (apply_analog_filter_facts expf frames g1) as (_ & _ & ->).
      split; reflexivity.
    - split; reflexivity. }
  destruct H2 as (I2 & S2).
  destruct (analog_metrics_keeps frames g2) as (I3 & R3 & D3 & T3 & _).
  destruct (analog_metrics_facts frames g2) as (_ & _ & _ & V3 & _).
  destruct (safety_check_keeps (analog_metrics frames g2))
    as (I4 & R4 & D4 & T4 & V4 & _).
  cbv zeta. rewrite I4, R4, D4, T4, V4, I3, R3, D3, T3, V3, I2, S2.
  repeat split; reflexivity.
Qed.

Lemma safety_status_eqb_ok s :
  s <> HYBRID_SAFETY_OK -> safety_status_eqb s HYBRID_SAFETY_OK = false.
Proof. destruct s; intros H; try reflexivity. now contradiction H. Qed.

(** A cycle of a running node counts one frame; with the safety state
away from Ok it skips the analysis and stays away from Ok. *)
Lemma cycle_bookkeeping input frames g :
  g_running g = true ->
  let g' := cycle cosf sinf expf input frames g in
  g_running g' = true
  /\ g_initialized g' = g_initialized g
  /\ is_running (g_status g') = is_running (g_status g)
  /\ frames_processed (stats (g_status g'))
     = u64 (frames_processed (stats (g_status g)) + 1)
  /\ (status (safety (g_status g)) <> HYBRID_SAFETY_OK ->
      status (safety (g_status g')) <> HYBRID_SAFETY_OK
      /\ dsp (g_status g') = dsp (g_status g)).
Proof.
  intros Hrun. cbv zeta.
  destruct (cycle_overload cosf sinf expf input frames g Hrun) as (R & _).
  rewrite cycle_halves by assumption.
  set (g1 := process_front expf input frames g).
  destruct (process_front_keeps input frames g) as (I1 & R1 & D1 & T1 & _).
  fold g1 in I1, R1, D1, T1.
  destruct (frame_process_back cosf sinf frames g1)
    as (_ & Rb & IRb & _ & _ & Sb & _).
  rewrite cycle_halves in R by assumption. fold g1 in R.
  split; [exact R|].
  rewrite process_back_analysis in *.
  destruct (book_process_analysis frames g1) as (Ia & Fa & _).
  split; [|split; [|split]].
  - change (g_initialized (bump_frames_processed
                             (process_analysis cosf sinf frames g1)))
      with (g_initialized (process_analysis cosf sinf frames g1)).
    now rewrite Ia, I1.
  - now rewrite IRb, R1.
  - change (frames_processed (stats (g_status (bump_frames_processed
              (process_analysis cosf sinf frames g1)))))
      with (u64 (frames_processed (stats (g_status
              (process_analysis cosf sinf frames g1))) + 1)).
    now rewrite Fa, T1.
  - intros Hbad.
    assert (Hbad1 : status (safety (g_status g1)) <> HYBRID_SAFETY_OK).
    { subst g1. rewrite process_front_status.
      destruct (_ && _); [discriminate | assumption]. }
    split; [now rewrite Sb|].
    rewrite <- process_back_analysis. unfold process_back. cbv zeta.
    rewrite (safety_status_eqb_ok _ Hbad1), andb_false_r.
    rewrite modulation_keeps_dsp. exact D1.
Qed.
End Bookkeeping.

Section CallHistories.
Import HybridNode.
Variables cosf sinf expf : float -> float.

Lemma process_snd_cycle input output frames g :
  g_running g = true ->
  snd (hybrid_node_process cosf sinf expf (Some input) (Some output) frames g)
  = cycle cosf sinf expf input frames g.
Proof.
  intros Hrun. rewrite cycle_halves by assumption.
  destruct (process_halves cosf sinf expf input output frames g Hrun)
    as [out ->].
  reflexivity.
Qed.

Lemma process_rejected input output frames g :
  g_running g = false ->
  hybrid_node_process cosf sinf expf input output frames g = (false, output, g).
Proof.
  intros Hrun. unfold hybrid_node_process. rewrite Hrun.
  destruct input, output; reflexivity.
Qed.

Lemma process_null_cases input output frames g :
  input = None \/ output = None ->
  hybrid_node_process cosf sinf expf input output frames g = (false, output, g).
Proof.
  intros [-> | ->]; unfold hybrid_node_process;
    [destruct output | destruct input]; reflexivity.
Qed.

(** The acquisition loop of the calibration touches the working buffer
only. *)
Lemma calibrate_acquire_loop_keeps n :
  forall lo samples g,
    let st := for_loop n lo calibrate_acquire (samples, g) in
    g_config (snd st) = g_config g
    /\ g_status (snd st) = g_status g
    /\ g_initialized (snd st) = g_initialized g
    /\ g_running (snd st) = g_running g
    /\ g_dac_buffer (snd st) = g_dac_buffer g
    /\ dac_port (snd st) = dac_port g.
Proof.
  induction n as [|n IH]; intros lo samples g; [repeat split; reflexivity|].
  rewrite for_loop_S. unfold calibrate_acquire at 2.
  cbv zeta in IH |- *.
  match goal with
  | |- context [for_loop n (S lo) calibrate_acquire (?s, ?g1)] =>
      destruct (IH (S lo) s g1) as (-> & -> & -> & -> & -> & ->)
  end.
  repeat split; reflexivity.
Qed.

Lemma calibrate_keeps calibration now g :
  let g' := snd (hybrid_node_calibrate calibration now g) in
  g_running g' = g_running g
  /\ g_initialized g' = g_initialized g
  /\ is_running (g_status g') = is_running (g_status g)
  /\ safety (g_status g') = safety (g_status g)
  /\ dsp (g_status g') = dsp (g_status g).
Proof.
  unfold hybrid_node_calibrate.
  destruct calibration as [c|]; [|repeat split; reflexivity].
  destruct (g_running g) eqn:Hrun;
    [cbv zeta; cbn [snd]; repeat split; auto|].
  pose proof (calibrate_acquire_loop_keeps CAL_SAMPLES 0
                (replicate (HYBRID_ADC_CHANNELS * CAL_SAMPLES) F32.zero) g) as H.
  cbv zeta in H.
  destruct (for_loop CAL_SAMPLES 0 calibrate_acquire _) as [samples g1].
  cbn [snd] in H. destruct H as (C1 & S1 & I1 & R1 & _).
  cbv zeta. node_fields. unfold platform_adc_read, platform_dac_write.
  node_fields. rewrite S1, I1, R1, Hrun.
  repeat split; reflexivity.
Qed.

(** *** One call at a time *)

(** Closes a goal about the two flags once the call is unfolded. *)
Ltac flags_done :=
  cbn [snd]; node_fields;
  repeat match goal with
         | H : ?x = true |- context [?x] => rewrite H
         | H : ?x = false |- context [?x] => rewrite H
         end;
  split; intros; try discriminate; try reflexivity; auto;
  try match goal with
      | H : true = true -> false = true |- _ => discriminate (H eq_refl)
      end.

Lemma call_flags c g :
  (g_running g = true -> g_initialized g = true) ->
  (is_running (g_status g) = true -> g_running g = true) ->
  let g' := call cosf sinf expf c g in
  (g_running g' = true -> g_initialized g' = true)
  /\ (is_running (g_status g') = true -> g_running g' = true).
Proof.
  intros Hinit Hmirror.
  destruct c as [config| | |input output frames|gain|cv|m|cal now|cal| |];
    cbv zeta; cbn [call].
  - destruct config as [cfg|]; [|split; assumption].
    unfold hybrid_node_init, platform_adc_init, platform_dac_init.
    cbn [negb]. flags_done.
  - unfold hybrid_node_start.
    destruct (g_initialized g) eqn:Hi, (g_running g) eqn:Hr; cbn [negb orb];
      flags_done.
  - unfold hybrid_node_stop, platform_dac_write.
    destruct (g_running g) eqn:Hr; cbn [negb]; flags_done.
  - destruct (g_running g) eqn:Hr.
    + destruct input as [input|], output as [output|];
        try (rewrite process_null_cases by auto; flags_done).
      rewrite process_snd_cycle by assumption.
      destruct (cycle_bookkeeping cosf sinf expf input frames g Hr)
        as (R & I & M & _).
      rewrite R, I. split; auto.
    + rewrite process_rejected by assumption. flags_done.
  - unfold hybrid_node_set_preamp_gain. destruct (_ || _); split; assumption.
  - destruct cv as [cv|]; [|split; assumption].
    unfold hybrid_node_set_control_voltage. split; assumption.
  - unfold hybrid_node_set_mode. destruct (g_running g) eqn:Hr; flags_done.
  - destruct (calibrate_keeps cal now g) as (-> & -> & -> & _).
    split; assumption.
  - destruct cal as [c|]; split; assumption.
  - split; assumption.
  - unfold hybrid_node_emergency_shutdown, hybrid_node_stop, platform_dac_write.
    destruct (g_running g) eqn:Hr; cbn [negb]; flags_done.
Qed.

Lemma call_sticky c g :
  not_init c = true ->
  status (safety (g_status g)) <> HYBRID_SAFETY_OK ->
  let g' := call cosf sinf expf c g in
  status (safety (g_status g')) <> HYBRID_SAFETY_OK
  /\ dsp (g_status g') = dsp (g_status g).
Proof.
  intros Hc Hbad.
  destruct c as [config| | |input output frames|gain|cv|m|cal now|cal| |];
    try discriminate Hc; cbn [call].
  - unfold hybrid_node_start. destruct (_ || _); split; auto.
  - unfold hybrid_node_stop. destruct (g_running g); split; auto.
  - destruct (g_running g) eqn:Hr.
    + destruct input as [input|], output as [output|];
        try (rewrite process_null_cases by auto; split; auto).
      rewrite process_snd_cycle by assumption.
      destruct (cycle_bookkeeping cosf sinf expf input frames g Hr)
        as (_ & _ & _ & _ & H).
      exact (H Hbad).
    + rewrite process_rejected by assumption. split; auto.
  - unfold hybrid_node_set_preamp_gain. destruct (_ || _); split; auto.
  - destruct cv as [cv|]; split; auto.
  - unfold hybrid_node_set_mode. destruct (g_running g); split; auto.
  - destruct (calibrate_keeps cal now g) as (_ & _ & _ & -> & ->).
    split; auto.
  - destruct cal as [c|]; split; auto.
  - split; auto.
  - unfold hybrid_node_emergency_shutdown, hybrid_node_stop.
    destruct (g_running g); cbn; split; (discriminate || reflexivity).
Qed.
End CallHistories.

(** X2. Whatever the application calls, in whatever order, since the program
was loaded: a node whose run flag is set has been initialised, and the
[is_running] field of the status never reads true on a node whose run flag
is clear. *)
Theorem run_flags_invariant :
  forall (cosf sinf expf : float -> float) (cs : list HybridNode.Call),
    let g := HybridNode.calls cosf sinf expf cs HybridNode.initial_globals in
    (HybridNode.g_running g = true -> HybridNode.g_initialized g = true)
    /\ (HybridNode.is_running (HybridNode.g_status g) = true ->
        HybridNode.g_running g = true).
Proof.
  intros cosf sinf expf cs. unfold HybridNode.calls.
  cut (forall g,
         (HybridNode.g_running g = true -> HybridNode.g_initialized g = true) ->
         (HybridNode.is_running (HybridNode.g_status g) = true ->
          HybridNode.g_running g = true) ->
         let g' := fold_left (fun g c => HybridNode.call cosf sinf expf c g) cs g in
         (HybridNode.g_running g' = true -> HybridNode.g_initialized g' = true)
         /\ (HybridNode.is_running (HybridNode.g_status g') = true ->
             HybridNode.g_running g' = true)).
  { intros H. apply H; discriminate. }
  induction cs as [|c cs IH]; intros g H1 H2; cbn [fold_left].
  - split; assumption.
  - destruct (call_flags cosf sinf expf c g H1 H2) as [H1' H2'].
    apply IH; assumption.
Qed.

Lemma run_flags_invariant_witness :
  let g := HybridNode.calls HybridNode.not_called HybridNode.not_called
             HybridNode.not_called
             [HybridNode.CallInit (Some HybridNode.passthrough_config);
              HybridNode.CallStart;
              HybridNode.CallProcess (Some HybridNode.loud_input)
                (Some (HybridNode.silence 16)) 4]
             HybridNode.initial_globals in
  HybridNode.g_running g = true /\ HybridNode.g_initialized g = true.
Proof.
  split; [reflexivity|].
  apply (run_flags_invariant HybridNode.not_called HybridNode.not_called
           HybridNode.not_called
           [HybridNode.CallInit (Some HybridNode.passthrough_config);
            HybridNode.CallStart;
            HybridNode.CallProcess (Some HybridNode.loud_input)
              (Some (HybridNode.silence 16)) 4]).
  reflexivity.
Defined.

(** X3. Only [hybrid_node_init] brings the safety state back to Ok.  Once the
state is away from Ok, every history of other calls leaves it away from Ok,
and the DSP metrics (ICI, coherence, centroid, flux, zero-crossing rate)
keep the values they had: the analysis stage is skipped in each cycle. *)
Theorem safety_state_sticky :
  forall (cosf sinf expf : float -> float) (cs : list HybridNode.Call)
         (g : HybridNode.Globals),
    forallb HybridNode.not_init cs = true ->
    HybridNode.status (HybridNode.safety (HybridNode.g_status g))
      <> HybridNode.HYBRID_SAFETY_OK ->
    let g' := HybridNode.calls cosf sinf expf cs g in
    HybridNode.status (HybridNode.safety (HybridNode.g_status g'))
      <> HybridNode.HYBRID_SAFETY_OK
    /\ HybridNode.dsp (HybridNode.g_status g')
       = HybridNode.dsp (HybridNode.g_status g).
Proof.
  intros cosf sinf expf cs. unfold HybridNode.calls.
  induction cs as [|c cs IH]; intros g Hcs Hbad; cbn [fold_left].
  - split; [assumption | reflexivity].
  - cbn [forallb] in Hcs. apply andb_prop in Hcs. destruct Hcs as [Hc Hcs].
    destruct (call_sticky cosf sinf expf c g Hc Hbad) as [Hbad' Hdsp].
    destruct (IH _ Hcs Hbad') as [Hfin Hdsp'].
    split; [exact Hfin | congruence].
Qed.

Lemma safety_state_sticky_witness :
  let g' := HybridNode.calls HybridNode.not_called HybridNode.not_called
              HybridNode.not_called
              [HybridNode.CallSetControlVoltage
                 (Some (HybridNode.set_cv_request F32.zero));
               HybridNode.CallProcess (Some (HybridNode.silence 8))
                 (Some (HybridNode.silence 16)) 4;
               HybridNode.CallStop; HybridNode.CallStart]
              HybridNode.clamp_cycle in
  HybridNode.status (HybridNode.safety (HybridNode.g_status g'))
    <> HybridNode.HYBRID_SAFETY_OK
  /\ HybridNode.dsp (HybridNode.g_status g')
     = HybridNode.dsp (HybridNode.g_status HybridNode.clamp_cycle).
Proof.
  apply (safety_state_sticky HybridNode.not_called HybridNode.not_called
           HybridNode.not_called).
  - reflexivity.
  - vm_compute. discriminate.
Defined.

Section FrameCounter.
Import HybridNode.
Variables cosf sinf expf : float -> float.

Lemma u64_succ a n : u64 (u64 (a + 1) + n) = u64 (a + (1 + n)).
Proof. unfold u64, wrap. rewrite Zplus_mod_idemp_l. f_equal. lia. Qed.

Lemma cycles_count inputs frames :
  forall g,
    g_running g = true ->
    let g' := cycles cosf sinf expf inputs frames g in
    g_running g' = true
    /\ frames_processed (stats (g_status g'))
       = match inputs with
         | [] => frames_processed (stats (g_status g))
         | _ => u64 (frames_processed (stats (g_status g))
                     + Z.of_nat (length inputs))
         end.
Proof.
  induction inputs as [|input rest IH]; intros g Hrun; cbn [cycles].
  - split; [assumption | reflexivity].
  - destruct (cycle_bookkeeping cosf sinf expf input frames g Hrun)
      as (R & _ & _ & F & _).
    destruct (IH _ R) as (R' & F'). cbv zeta in F' |- *.
    split; [exact R'|]. rewrite F', F.
    destruct rest as [|input' rest'].
    + cbn [length]. reflexivity.
    + rewrite u64_succ. f_equal. cbn [length]. lia.
Qed.
End FrameCounter.

(** X4. The frame counter counts cycles: a node that is initialised and
stopped, once started, has processed as many frames as cycles have run
since (modulo 2^64), whatever [frames_processed] held before the start. *)
Theorem frames_processed_counts_cycles :
  forall (cosf sinf expf : float -> float) (inputs : list (list float))
         (frames : Z) (g : HybridNode.Globals),
    HybridNode.g_initialized g = true ->
    HybridNode.g_running g = false ->
    let g' := HybridNode.cycles cosf sinf expf inputs frames
                (snd (HybridNode.hybrid_node_start g)) in
    fst (HybridNode.hybrid_node_start g) = true
    /\ HybridNode.frames_processed (HybridNode.stats (HybridNode.g_status g'))
       = u64 (Z.of_nat (length inputs)).
Proof.
  intros cosf sinf expf inputs frames g Hinit Hrun.
  assert (Hstart : HybridNode.hybrid_node_start g
                   = (true, snd (HybridNode.hybrid_node_start g))
                   /\ HybridNode.g_running (snd (HybridNode.hybrid_node_start g)) = true
                   /\ HybridNode.frames_processed (HybridNode.stats
                        (HybridNode.g_status (snd (HybridNode.hybrid_node_start g)))) = 0).
  { unfold HybridNode.hybrid_node_start. rewrite Hinit, Hrun.
    repeat split; reflexivity. }
  destruct Hstart as (E & R & F).
  destruct (cycles_count cosf sinf expf inputs frames _ R) as (_ & C).
  cbv zeta. rewrite E at 1. split; [reflexivity|].
  rewrite C, F. destruct inputs; reflexivity.
Qed.

Lemma frames_processed_counts_cycles_witness :
  HybridNode.frames_processed (HybridNode.stats (HybridNode.g_status
    (HybridNode.cycles HybridNode.not_called HybridNode.not_called
       HybridNode.not_called HybridNode.loud_run 4
       (snd (HybridNode.hybrid_node_start
               (snd (HybridNode.hybrid_node_init
                       (Some HybridNode.passthrough_config)
                       HybridNode.initial_globals)))))))
  = 22.
Proof.
  destruct (frames_processed_counts_cycles HybridNode.not_called
              HybridNode.not_called HybridNode.not_called
              HybridNode.loud_run 4
              (snd (HybridNode.hybrid_node_init
                      (Some HybridNode.passthrough_config)
                      HybridNode.initial_globals))
              eq_refl eq_refl) as (_ & H).
  exact H.
Defined.

(** ** Emergency shutdown, then what *)

(** X5. After an emergency shutdown, from any state, [hybrid_node_process] is
rejected and changes neither the node nor the caller's output buffer; on
an initialised node a later [hybrid_node_start] succeeds, and the node
then runs with the safety state still at Fault. *)
Theorem shutdown_halts_processing :
  forall (cosf sinf expf : float -> float)
         (input output : option (list float)) (frames : Z)
         (g : HybridNode.Globals),
    let g1 := snd (HybridNode.hybrid_node_emergency_shutdown g) in
    HybridNode.hybrid_node_process cosf sinf expf input output frames g1
    = (false, output, g1)
    /\ (HybridNode.g_initialized g = true ->
        let r := HybridNode.hybrid_node_start g1 in
        fst r = true
        /\ HybridNode.g_running (snd r) = true
        /\ HybridNode.status (HybridNode.safety (HybridNode.g_status (snd r)))
           = HybridNode.HYBRID_SAFETY_FAULT).
Proof.
  intros cosf sinf expf input output frames g g1.
  assert (H1 : HybridNode.g_running g1 = false
               /\ HybridNode.g_initialized g1 = HybridNode.g_initialized g
               /\ HybridNode.status (HybridNode.safety (HybridNode.g_status g1))
                  = HybridNode.HYBRID_SAFETY_FAULT).
  { subst g1.
    unfold HybridNode.hybrid_node_emergency_shutdown,
      HybridNode.hybrid_node_stop, HybridNode.platform_dac_write.
    destruct (HybridNode.g_running g) eqn:Hr; cbn [negb snd]; node_fields;
      rewrite ?Hr; repeat split; reflexivity. }
  destruct H1 as (R1 & I1 & S1). split.
  - now apply process_rejected.
  - intros Hinit. unfold HybridNode.hybrid_node_start.
    rewrite I1, Hinit, R1. cbn [negb orb fst snd]. node_fields.
    repeat split; try reflexivity; try exact S1.
Qed.

Lemma shutdown_halts_processing_witness :
  let g1 := snd (HybridNode.hybrid_node_emergency_shutdown
                   (HybridNode.started HybridNode.default_config)) in
  HybridNode.g_running (snd (HybridNode.hybrid_node_start g1)) = true
  /\ HybridNode.status (HybridNode.safety (HybridNode.g_status
       (snd (HybridNode.hybrid_node_start g1))))
     = HybridNode.HYBRID_SAFETY_FAULT.
Proof.
  destruct (shutdown_halts_processing HybridNode.not_called
              HybridNode.not_called HybridNode.not_called None None 0
              (HybridNode.started HybridNode.default_config))
    as (_ & H).
  destruct (H eq_refl) as (_ & R & S). exact (conj R S).
Defined.

(** ** The caller's output buffer *)

Section OutputBuffer.
Import HybridNode.
Variables cosf sinf expf : float -> float.

Lemma process_output input output frames g :
  g_running g = true ->
  hybrid_node_process cosf sinf expf (Some input) (Some output) frames g
  = (true,
     Some (for_loop (Z.to_nat frames) 0
             (output_frame
                (process_analysis cosf sinf frames
                   (process_front expf input frames g))) output),
     bump_frames_processed
       (process_analysis cosf sinf frames (process_front expf input frames g))).
Proof.
  intros Hrun.
  unfold hybrid_node_process, process_analysis, process_front.
  rewrite Hrun. reflexivity.
Qed.

(** The output loop on a node with two ADC and four DAC channels. *)
Lemma output_loop_layout g n output :
  adc_channels (g_config g) = 2 -> dac_channels (g_config g) = 4 ->
  (4 * n <= length output)%nat ->
  let out := for_loop n 0 (output_frame g) output in
  length out = length output
  /\ (forall i, (i < n)%nat ->
        out !! (4 * i)%nat = Some (nth (2 * i) (g_adc_buffer g) F32.zero)
        /\ out !! (4 * i + 1)%nat = Some (nth (2 * i + 1) (g_adc_buffer g) F32.zero)
        /\ out !! (4 * i + 2)%nat = Some (cv1 (control (g_status g)))
        /\ out !! (4 * i + 3)%nat = Some (cv2 (control (g_status g))))
  /\ (forall j, (4 * n <= j)%nat -> out !! j = output !! j).
Proof.
  intros Hadc Hdac Hlen.
  set (P := fun (k : nat) (out : list float) =>
              length out = length output
              /\ (forall i, (i < k)%nat ->
                    out !! (4 * i)%nat
                    = Some (nth (2 * i) (g_adc_buffer g) F32.zero)
                    /\ out !! (4 * i + 1)%nat
                       = Some (nth (2 * i + 1) (g_adc_buffer g) F32.zero)
                    /\ out !! (4 * i + 2)%nat = Some (cv1 (control (g_status g)))
                    /\ out !! (4 * i + 3)%nat = Some (cv2 (control (g_status g))))
              /\ (forall j, (4 * k <= j)%nat -> out !! j = output !! j)).
  change (P (0 + n)%nat (for_loop n 0 (output_frame g) output)).
  apply for_loop_invariant.
  - split; [reflexivity|]. split; [intros i Hi; lia|]. intros; reflexivity.
  - intros k out Hk (HL & Hdone & Hrest).
    unfold output_frame. rewrite Hadc, Hdac.
    change (Z.to_nat 2) with 2%nat. change (Z.to_nat 4) with 4%nat.
    change (1 <? 2) with true. change (2 <? 4) with true. cbv iota zeta.
    replace (k * 4 + 0)%nat with (4 * k)%nat by lia.
    replace (k * 4 + 1)%nat with (4 * k + 1)%nat by lia.
    replace (k * 4 + 2)%nat with (4 * k + 2)%nat by lia.
    replace (k * 4 + 3)%nat with (4 * k + 3)%nat by lia.
    replace (k * 2 + 0)%nat with (2 * k)%nat by lia.
    replace (k * 2 + 1)%nat with (2 * k + 1)%nat by lia.
    split; [now rewrite !length_insert|]. split.
    + intros i Hi. destruct (decide (i = k)) as [->|Hne].
      * repeat split.
        -- rewrite !list_lookup_insert_ne by lia.
           apply list_lookup_insert_eq. lia.
        -- rewrite !list_lookup_insert_ne by lia.
           apply list_lookup_insert_eq. rewrite !length_insert. lia.
        -- rewrite !list_lookup_insert_ne by lia.
           apply list_lookup_insert_eq. rewrite !length_insert. lia.
        -- apply list_lookup_insert_eq. rewrite !length_insert. lia.
      * rewrite !list_lookup_insert_ne by lia. apply Hdone. lia.
    + intros j Hj. rewrite !list_lookup_insert_ne by lia. apply Hrest. lia.
Qed.

Lemma memcpy_whole {A} (dst src : list A) (d : A) i :
  (i < length src)%nat ->
  nth i (memcpy dst src (length src)) d = nth i src d.
Proof.
  intros Hi. unfold memcpy. rewrite firstn_all.
  now apply app_nth1.
Qed.

Lemma copy_count frames :
  0 <= frames <= 512 ->
  Z.to_nat (usize (usize (frames * 2) * 4) / 4) = (2 * Z.to_nat frames)%nat.
Proof.
  intros H. unfold usize, wrap.
  rewrite (Z.mod_small (frames * 2)) by lia.
  rewrite (Z.mod_small (frames * 2 * 4)) by lia.
  rewrite Z.div_mul by lia. lia.
Qed.
End OutputBuffer.

(** X6. Pass-through of the input.  On a running node with two ADC channels,
four DAC channels and the analog filter off, a cycle of at most 512
frames on buffers of the documented sizes fills every output frame with
the two input samples of that frame followed by the two control voltages
the cycle ends with, and keeps the size of the buffer. *)
Theorem output_buffer_layout :
  forall (cosf sinf expf : float -> float) (input output : list float)
         (frames : Z) (g : HybridNode.Globals),
    HybridNode.g_running g = true ->
    HybridNode.enable_analog_filter (HybridNode.g_config g) = false ->
    HybridNode.adc_channels (HybridNode.g_config g) = 2 ->
    HybridNode.dac_channels (HybridNode.g_config g) = 4 ->
    0 <= frames <= 512 ->
    length input = (2 * Z.to_nat frames)%nat ->
    length output = (4 * Z.to_nat frames)%nat ->
    let r := HybridNode.hybrid_node_process cosf sinf expf
               (Some input) (Some output) frames g in
    let c := HybridNode.control (HybridNode.g_status (snd r)) in
    exists out,
      snd (fst r) = Some out
      /\ length out = length output
      /\ forall i, (i < Z.to_nat frames)%nat ->
           out !! (4 * i)%nat = input !! (2 * i)%nat
           /\ out !! (4 * i + 1)%nat = input !! (2 * i + 1)%nat
           /\ out !! (4 * i + 2)%nat = Some (HybridNode.cv1 c)
           /\ out !! (4 * i + 3)%nat = Some (HybridNode.cv2 c).
Proof.
  intros cosf sinf expf input output frames g Hrun Hfilter Hadc Hdac
         Hframes Hin Hout.
  cbv zeta. rewrite (process_output cosf sinf expf) by assumption.
  cbn [fst snd]. rewrite bump_keeps_control.
  set (g1 := HybridNode.process_front expf input frames g).
  set (gm := HybridNode.process_analysis cosf sinf frames g1).
  destruct (frame_process_analysis cosf sinf frames g1)
    as (Cm & _ & _ & Bm & _).
  fold gm in Cm, Bm.
  assert (C1 : HybridNode.adc_channels (HybridNode.g_config g1) = 2
               /\ HybridNode.dac_channels (HybridNode.g_config g1) = 4).
  { subst g1. rewrite process_front_config. node_fields. now split. }
  destruct C1 as [Hadc1 Hdac1].
  assert (B1 : HybridNode.g_adc_buffer g1
               = memcpy (HybridNode.g_adc_buffer g) input (length input)).
  { subst g1. unfold HybridNode.process_front. cbv zeta. node_fields.
    rewrite Hfilter.
    destruct (safety_check_keeps
                (HybridNode.analog_metrics frames
                   (HybridNode.set_adc_buffer
                      (memcpy (HybridNode.g_adc_buffer g) input
                         (Z.to_nat
                            (usize (usize (frames * HybridNode.adc_channels
                                                      (HybridNode.g_config g)) * 4) / 4)))
                      g)))
      as (_ & _ & _ & _ & _ & ->).
    destruct (analog_metrics_keeps frames
                (HybridNode.set_adc_buffer
                   (memcpy (HybridNode.g_adc_buffer g) input
                      (Z.to_nat
                         (usize (usize (frames * HybridNode.adc_channels
                                                   (HybridNode.g_config g)) * 4) / 4)))
                   g))
      as (_ & _ & _ & _ & ->).
    node_fields. rewrite Hadc, copy_count, Hin by assumption. reflexivity. }
  destruct (output_loop_layout gm (Z.to_nat frames) output)
    as (HL & Hdone & _).
  { now rewrite Cm. }
  { now rewrite Cm. }
  { lia. }
  eexists. split; [reflexivity|]. split; [exact HL|].
  intros i Hi. destruct (Hdone i Hi) as (E0 & E1 & E2 & E3).
  rewrite E0, E1, E2, E3, Bm, B1.
  rewrite !memcpy_whole by lia.
  rewrite !nth_lookup.
  destruct (lookup_lt_is_Some_2 input (2 * i)%nat ltac:(lia)) as [x0 ->].
  destruct (lookup_lt_is_Some_2 input (2 * i + 1)%nat ltac:(lia)) as [x1 ->].
  repeat split; reflexivity.
Qed.

Lemma output_buffer_layout_witness :
  let r := HybridNode.hybrid_node_process HybridNode.not_called
             HybridNode.not_called HybridNode.not_called
             (Some HybridNode.loud_input) (Some (HybridNode.silence 16)) 4
             (HybridNode.started HybridNode.passthrough_config) in
  exists out,
    snd (fst r) = Some out
    /\ out !! 0%nat = Some (F32.of_Z 1)
    /\ out !! 2%nat = Some F32.zero.
Proof.
  destruct (output_buffer_layout HybridNode.not_called HybridNode.not_called
              HybridNode.not_called HybridNode.loud_input
              (HybridNode.silence 16) 4
              (HybridNode.started HybridNode.passthrough_config))
    as (out & Hout & _ & Hlay); try reflexivity; try lia.
  exists out. split; [exact Hout|].
  destruct (Hlay 0%nat ltac:(vm_compute; lia)) as (E0 & _ & E2 & _).
  split; [exact E0 | exact E2].
Defined.

(** ** Inter-event interval *)

Section InterEventInterval.
Import HybridNode.

Lemma peaks_from_bounds ring lo n : 0 <= peaks_from ring lo n <= Z.of_nat n.
Proof.
  unfold peaks_from. split; [lia|].
  apply inj_le.
  etransitivity; [apply length_filter|]. now rewrite length_seq.
Qed.

Lemma peaks_from_S ring lo n :
  peaks_from ring lo (S n)
  = (if F32.gt (nth lo ring F32.zero) (F32.lit 1 2) then 1 else 0)
    + peaks_from ring (S lo) n.
Proof.
  unfold peaks_from. cbn [seq]. rewrite filter_cons.
  destruct (F32.gt (nth lo ring F32.zero) (F32.lit 1 2)).
  - destruct (decide (true = true)) as [_|Hn]; [|now contradiction Hn].
    cbn [length]. lia.
  - destruct (decide (false = true)) as [Hn|_]; [discriminate Hn|]. lia.
Qed.

(** The counting loop, up to the 32-bit wrap of its two counters. *)
Lemma ici_loop_counts bs ring n :
  forall lo a p,
    let r := for_loop n lo (ici_count bs ring) (a, p) in
    u32 (fst r) = u32 (a + peaks_from ring lo n * bs)
    /\ u32 (snd r) = u32 (p + peaks_from ring lo n)
    /\ (a = u32 a -> fst r = u32 (fst r))
    /\ (p = u32 p -> snd r = u32 (snd r)).
Proof.
  induction n as [|n IH]; intros lo a p.
  - unfold peaks_from. cbn [seq filter length for_loop fst snd Z.of_nat].
    rewrite Z.mul_0_l, !Z.add_0_r. repeat split; auto.
  - rewrite for_loop_S, peaks_from_S. unfold ici_count at 2.
    destruct (F32.gt (nth lo ring F32.zero) (F32.lit 1 2)) eqn:Hpk.
    + specialize (IH (S lo) (u32 (a + bs)) (u32 (p + 1))).
      cbv zeta in IH |- *. destruct IH as (Ha & Hp & Ia & Ip).
      split; [|split; [|split]].
      * rewrite Ha. unfold u32, wrap. rewrite Zplus_mod_idemp_l.
        f_equal. lia.
      * rewrite Hp. unfold u32, wrap. rewrite Zplus_mod_idemp_l.
        f_equal. lia.
      * intros _. apply Ia. now rewrite u32_idem.
      * intros _. apply Ip. now rewrite u32_idem.
    + rewrite Z.add_0_l. apply IH.
Qed.

Lemma ici_loop_result bs ring :
  for_loop 32 0 (ici_count bs ring) (0, 0)
  = (u32 (peaks_in_ring ring * bs), peaks_in_ring ring).
Proof.
  pose proof (ici_loop_counts bs ring 32 0 0 0) as H. cbv zeta in H.
  destruct (for_loop 32 0 (ici_count bs ring) (0, 0)) as [a p].
  cbn [fst snd] in H. destruct H as (Ha & Hp & Ia & Ip).
  fold (peaks_in_ring ring) in *.
  change (peaks_from ring 0 32) with (peaks_in_ring ring) in *.
  rewrite Z.add_0_l in Ha, Hp.
  rewrite (Ia eq_refl), (Ip eq_refl), Ha, Hp. f_equal.
  pose proof (peaks_from_bounds ring 0 32) as Hb.
  change (peaks_from ring 0 32) with (peaks_in_ring ring) in Hb.
  unfold u32, wrap. apply Z.mod_small. lia.
Qed.
End InterEventInterval.

(** X7. [dsp_calculate_ici] stores the current flux at the ring position,
advances the position by one modulo 32 and reports, with n the number of
ring entries above 0.5: ((n * buffer_size mod 2^32) / sample_rate / n) *
1000 when n is at least 2, and the default of 100 ms otherwise. *)
Theorem ici_from_ring :
  forall g : HybridNode.Globals,
    let g' := HybridNode.dsp_calculate_ici g in
    let n := HybridNode.peaks_in_ring (HybridNode.ring_with_flux g) in
    HybridNode.g_ici_buffer g' = HybridNode.ring_with_flux g
    /\ HybridNode.g_ici_index g' = (HybridNode.g_ici_index g + 1) mod 32
    /\ 0 <= n <= 32
    /\ HybridNode.ici (HybridNode.dsp (HybridNode.g_status g')) =
         if 1 <? n
         then F32.mul
                (F32.div
                   (F32.div
                      (F32.of_Z (u32 (n * HybridNode.buffer_size (HybridNode.g_config g))))
                      (F32.of_Z (HybridNode.sample_rate (HybridNode.g_config g))))
                   (F32.of_Z n))
                (F32.of_Z 1000)
         else F32.of_Z 100.
Proof.
  intros g. cbv zeta. unfold HybridNode.dsp_calculate_ici. cbv zeta.
  node_fields.
  fold (HybridNode.ring_with_flux g).
  rewrite ici_loop_result. node_fields.
  split; [reflexivity|]. split.
  - unfold u8, wrap. apply Z.mod_small.
    pose proof (Z.mod_pos_bound (HybridNode.g_ici_index g + 1) 32 ltac:(lia)).
    lia.
  - split; [|reflexivity].
    unfold HybridNode.peaks_in_ring. split; [lia|].
    change 32 with (Z.of_nat 32). apply inj_le.
    etransitivity; [apply length_filter|]. now rewrite length_seq.
Qed.

(** ** Initialisation *)

(** X8. [hybrid_node_init] with a configuration succeeds, installs the
configuration and resets the whole status (safety state Ok, counters and
control voltages zero), but it neither clears the run flag nor the state
the analyzer and the filter carry between cycles: a node initialised again
while running keeps processing, with [is_running] reading false. *)
Theorem init_keeps_running :
  forall (cosf sinf expf : float -> float)
         (cfg : HybridNode.HybridNodeConfig) (input output : list float)
         (frames : Z) (g : HybridNode.Globals),
    let r := HybridNode.hybrid_node_init (Some cfg) g in
    let g1 := snd r in
    fst r = true
    /\ HybridNode.g_config g1 = cfg
    /\ HybridNode.g_initialized g1 = true
    /\ HybridNode.safety (HybridNode.g_status g1)
       = HybridNode.set_temperature (F32.of_Z 25) HybridNode.zero_safety
    /\ HybridNode.control (HybridNode.g_status g1) = HybridNode.zero_control
    /\ HybridNode.is_running (HybridNode.g_status g1) = false
    /\ HybridNode.g_running g1 = HybridNode.g_running g
    /\ HybridNode.g_prev_spectral_centroid g1
       = HybridNode.g_prev_spectral_centroid g
    /\ HybridNode.hpf_state g1 = HybridNode.hpf_state g
    /\ HybridNode.lpf_state g1 = HybridNode.lpf_state g
    /\ HybridNode.g_ici_buffer g1 = HybridNode.g_ici_buffer g
    /\ (HybridNode.g_running g = true ->
        fst (fst (HybridNode.hybrid_node_process cosf sinf expf
                    (Some input) (Some output) frames g1)) = true).
Proof.
  intros cosf sinf expf cfg input output frames g. cbv zeta.
  unfold HybridNode.hybrid_node_init, HybridNode.platform_adc_init,
    HybridNode.platform_dac_init.
  cbn [negb fst snd]. node_fields.
  repeat split; try reflexivity.
  intros Hrun.
  match goal with
  | |- context [HybridNode.hybrid_node_process _ _ _ _ _ _ ?g1] =>
      destruct (process_halves cosf sinf expf input output frames g1 Hrun)
        as [out ->]
  end.
  reflexivity.
Qed.

Lemma init_keeps_running_witness :
  fst (fst (HybridNode.hybrid_node_process HybridNode.not_called
              HybridNode.not_called HybridNode.not_called
              (Some HybridNode.loud_input) (Some (HybridNode.silence 16)) 4
              (snd (HybridNode.hybrid_node_init
                      (Some HybridNode.passthrough_config)
                      (HybridNode.started HybridNode.passthrough_config)))))
  = true.
Proof.
  destruct (init_keeps_running HybridNode.not_called HybridNode.not_called
              HybridNode.not_called HybridNode.passthrough_config
              HybridNode.loud_input (HybridNode.silence 16) 4
              (HybridNode.started HybridNode.passthrough_config))
    as (_ & _ & _ & _ & _ & _ & _ & _ & _ & _ & _ & H).
  exact (H eq_refl).
Defined.

(** ** Calibration of a stopped node *)

Section CalibrationProfile.
Import HybridNode.

Lemma calibrate_offset_loop_keeps samples n :
  forall lo c,
    let c' := for_loop n lo (calibrate_offset samples) c in
    adc_gain c' = adc_gain c /\ dac_gain c' = dac_gain c
    /\ dac_offset c' = dac_offset c
    /\ length (adc_offset c') = length (adc_offset c).
Proof.
  induction n as [|n IH]; intros lo c; [repeat split; reflexivity|].
  rewrite for_loop_S. cbv zeta.
  destruct (IH (S lo) (calibrate_offset samples lo c)) as (-> & -> & -> & ->).
  unfold calibrate_offset. cbn [adc_gain dac_gain dac_offset adc_offset].
  rewrite length_insert. repeat split; reflexivity.
Qed.

Lemma calibrate_dac_loop_keeps n :
  forall lo c,
    let c' := for_loop n lo calibrate_dac c in
    adc_gain c' = adc_gain c /\ adc_offset c' = adc_offset c.
Proof.
  induction n as [|n IH]; intros lo c; [split; reflexivity|].
  rewrite for_loop_S. cbv zeta.
  destruct (IH (S lo) (calibrate_dac lo c)) as (-> & ->).
  split; reflexivity.
Qed.
End CalibrationProfile.

(** X9. On a stopped node [hybrid_node_calibrate] succeeds; the profile it
hands back is the profile it installs in the status, marked valid and
stamped with the time modulo 2^32; the latency is the 2000 microsecond
estimate of the host build, split into three parts of 666; the node stays
stopped; the last buffer handed to the DAC port is the unit impulse; and
the ADC gains of the profile are whatever the caller's structure held,
since the routine never writes them. *)
Theorem calibrate_installs_profile :
  forall (c : HybridNode.CalibrationData) (now : Z) (g : HybridNode.Globals),
    HybridNode.g_running g = false ->
    let r := HybridNode.hybrid_node_calibrate (Some c) now g in
    fst (fst r) = true
    /\ snd (fst r)
       = Some (HybridNode.calibration (HybridNode.g_status (snd r)))
    /\ HybridNode.is_calibrated (HybridNode.g_status (snd r)) = true
    /\ HybridNode.cal_is_calibrated
         (HybridNode.calibration (HybridNode.g_status (snd r))) = true
    /\ HybridNode.calibration_timestamp
         (HybridNode.calibration (HybridNode.g_status (snd r))) = now mod 2 ^ 32
    /\ HybridNode.total_latency_us
         (HybridNode.calibration (HybridNode.g_status (snd r))) = 2000
    /\ HybridNode.adc_latency_us
         (HybridNode.calibration (HybridNode.g_status (snd r))) = 666
    /\ HybridNode.dsp_latency_us
         (HybridNode.calibration (HybridNode.g_status (snd r))) = 666
    /\ HybridNode.dac_latency_us
         (HybridNode.calibration (HybridNode.g_status (snd r))) = 666
    /\ HybridNode.adc_gain
         (HybridNode.calibration (HybridNode.g_status (snd r)))
       = HybridNode.adc_gain c
    /\ HybridNode.g_running (snd r) = false
    /\ head (HybridNode.dac_port (snd r))
       = Some (<[0%nat := F32.of_Z 1]>
                 (replicate (length (HybridNode.g_dac_buffer g)) F32.zero),
               HybridNode.buffer_size (HybridNode.g_config g)).
Proof.
  intros c now g Hrun. cbv zeta.
  unfold HybridNode.hybrid_node_calibrate. rewrite Hrun.
  pose proof (calibrate_acquire_loop_keeps HybridNode.CAL_SAMPLES 0
                (replicate (HybridNode.HYBRID_ADC_CHANNELS * HybridNode.CAL_SAMPLES)
                   F32.zero) g) as H.
  cbv zeta in H.
  destruct (for_loop HybridNode.CAL_SAMPLES 0 HybridNode.calibrate_acquire _)
    as [samples g1].
  cbn [snd] in H. destruct H as (C1 & S1 & I1 & R1 & D1 & P1).
  cbv zeta. unfold HybridNode.platform_adc_read, HybridNode.platform_dac_write.
  cbn [fst snd]. node_fields.
  rewrite C1, R1, D1, Hrun, memset_zero_all.
  destruct (calibrate_dac_loop_keeps
              (Z.to_nat (HybridNode.dac_channels (HybridNode.g_config g))) 0
              (for_loop (Z.to_nat (HybridNode.adc_channels (HybridNode.g_config g)))
                 0 (HybridNode.calibrate_offset samples) c))
    as (G2 & _).
  destruct (calibrate_offset_loop_keeps samples
              (Z.to_nat (HybridNode.adc_channels (HybridNode.g_config g))) 0 c)
    as (G1 & _).
  cbv zeta in G1, G2.
  repeat split; try reflexivity.
  now rewrite G2, G1.
Qed.

Lemma calibrate_installs_profile_witness :
  let r := HybridNode.hybrid_node_calibrate
             (Some HybridNode.zero_calibration) 1700000000
             (snd (HybridNode.hybrid_node_init
                     (Some HybridNode.default_config)
                     HybridNode.initial_globals)) in
  fst (fst r) = true
  /\ HybridNode.is_calibrated (HybridNode.g_status (snd r)) = true.
Proof.
  destruct (calibrate_installs_profile HybridNode.zero_calibration 1700000000
              (snd (HybridNode.hybrid_node_init
                      (Some HybridNode.default_config)
                      HybridNode.initial_globals)) eq_refl)
    as (H1 & _ & H3 & _).
  exact (conj H1 H3).
Defined.

(** ** The comparison operators as an order *)

Section FloatOrder.

Lemma SFcompare_key a b :
  F32.is_nan a = false -> F32.is_nan b = false ->
  SFcompare a b = Some (key_compare (float_key a) (float_key b)).
Proof.
  intros Ha Hb.
  destruct a as [sa|sa| |sa ma ea], b as [sb|sb| |sb mb eb];
    try discriminate;
    repeat match goal with s : bool |- _ => destruct s end;
    try reflexivity.
  cbn [SFcompare float_key key_compare]. rewrite Z.compare_refl.
    rewrite Z.compare_opp.
    change (Z.neg ma ?= Z.neg mb) with (CompOpp (ma ?= mb)%positive).
    rewrite (Z.compare_antisym ea eb).
    destruct (ea ?= eb); reflexivity.
Qed.

Lemma key_compare_lt a b : key_compare a b = Lt <-> key_lt a b.
Proof.
  destruct a as [[a1 a2] a3], b as [[b1 b2] b3]. unfold key_compare, key_lt.
  destruct (Z.compare_spec a1 b1); [destruct (Z.compare_spec a2 b2)|..];
    try rewrite Z.compare_lt_iff; split; intros;
    first [reflexivity | discriminate | lia | exfalso; lia].
Qed.

Lemma key_compare_gt a b : key_compare a b = Gt <-> key_lt b a.
Proof.
  destruct a as [[a1 a2] a3], b as [[b1 b2] b3]. unfold key_compare, key_lt.
  destruct (Z.compare_spec a1 b1); [destruct (Z.compare_spec a2 b2)|..];
    try rewrite Z.compare_gt_iff; split; intros;
    first [reflexivity | discriminate | lia | exfalso; lia].
Qed.

Lemma key_lt_trans a b c : key_lt a b -> key_lt b c -> key_lt a c.
Proof.
  destruct a as [[a1 a2] a3], b as [[b1 b2] b3], c as [[c1 c2] c3].
  unfold key_lt. lia.
Qed.

Lemma lt_key a b :
  F32.lt a b = true <->
  F32.is_nan a = false /\ F32.is_nan b = false
  /\ key_lt (float_key a) (float_key b).
Proof.
  unfold F32.lt, SFltb. split.
  - destruct (F32.is_nan a) eqn:Ha;
      [destruct a; try discriminate; cbn; discriminate|].
    destruct (F32.is_nan b) eqn:Hb;
      [destruct b; try discriminate; destruct a; cbn; discriminate|].
    rewrite SFcompare_key by assumption.
    destruct (key_compare _ _) eqn:E; try discriminate.
    intros _. repeat split. now apply key_compare_lt.
  - intros (Ha & Hb & Hk). rewrite SFcompare_key by assumption.
    apply key_compare_lt in Hk. now rewrite Hk.
Qed.

Lemma le_key a b :
  F32.le a b = true <->
  F32.is_nan a = false /\ F32.is_nan b = false
  /\ ~ key_lt (float_key b) (float_key a).
Proof.
  unfold F32.le, SFleb. split.
  - destruct (F32.is_nan a) eqn:Ha;
      [destruct a; try discriminate; cbn; discriminate|].
    destruct (F32.is_nan b) eqn:Hb;
      [destruct b; try discriminate; destruct a; cbn; discriminate|].
    rewrite SFcompare_key by assumption.
    destruct (key_compare _ _) eqn:E; try discriminate; intros _;
      repeat split; intros Hk; apply key_compare_gt in Hk; congruence.
  - intros (Ha & Hb & Hk). rewrite SFcompare_key by assumption.
    destruct (key_compare _ _) eqn:E; try reflexivity.
    apply key_compare_gt in E. contradiction.
Qed.

Lemma key_lt_total a b : key_lt a b \/ a = b \/ key_lt b a.
Proof.
  destruct a as [[a1 a2] a3], b as [[b1 b2] b3]. unfold key_lt.
  destruct (Z.lt_trichotomy a1 b1) as [?|[?|?]];
    destruct (Z.lt_trichotomy a2 b2) as [?|[?|?]];
    destruct (Z.lt_trichotomy a3 b3) as [?|[?|?]];
    subst; auto; try (left; lia); try (right; right; lia).
Qed.

Lemma key_lt_irrefl a : ~ key_lt a a.
Proof. destruct a as [[a1 a2] a3]. unfold key_lt. lia. Qed.

Lemma lt_trans a b c :
  F32.lt a b = true -> F32.lt b c = true -> F32.lt a c = true.
Proof.
  rewrite !lt_key. intros (Ha & Hb & H1) (_ & Hc & H2).
  repeat split; try assumption. eapply key_lt_trans; eassumption.
Qed.

Lemma lt_le_trans a b c :
  F32.lt a b = true -> F32.le b c = true -> F32.lt a c = true.
Proof.
  rewrite !lt_key, le_key. intros (Ha & Hb & H1) (_ & Hc & H2).
  repeat split; try assumption.
  destruct (key_lt_total (float_key b) (float_key c)) as [H|[H|H]].
  - eapply key_lt_trans; eassumption.
  - now rewrite <- H.
  - contradiction.
Qed.

Lemma le_trans a b c :
  F32.le a b = true -> F32.le b c = true -> F32.le a c = true.
Proof.
  rewrite !le_key. intros (Ha & Hb & H1) (_ & Hc & H2).
  repeat split; try assumption. intros H.
  destruct (key_lt_total (float_key a) (float_key b)) as [K|[K|K]].
  - apply H2. eapply key_lt_trans; eassumption.
  - apply H2. now rewrite <- K.
  - contradiction.
Qed.

Lemma le_refl a : F32.is_nan a = false -> F32.le a a = true.
Proof.
  intros Ha. apply le_key. repeat split; try assumption.
  apply key_lt_irrefl.
Qed.

(** [fmaxf] of a number and anything is a number, at least as large as
both when the second is a number, and exceeds a threshold exactly when one
of the two does. *)
Lemma fmaxf_number p a :
  F32.is_nan p = false -> F32.is_nan (F32.fmaxf p a) = false.
Proof.
  intros Hp. unfold F32.fmaxf. rewrite Hp.
  destruct (F32.is_nan a) eqn:Ha; [assumption|].
  destruct (F32.lt p a); assumption.
Qed.

Lemma fmaxf_upper p a :
  F32.is_nan p = false ->
  F32.le p (F32.fmaxf p a) = true
  /\ (F32.is_nan a = false -> F32.le a (F32.fmaxf p a) = true).
Proof.
  intros Hp. unfold F32.fmaxf. rewrite Hp.
  destruct (F32.is_nan a) eqn:Ha.
  - split; [now apply le_refl | discriminate].
  - destruct (F32.lt p a) eqn:Hlt.
    + split; [|intros _; now apply le_refl].
      apply lt_key in Hlt. destruct Hlt as (_ & _ & Hk).
      apply le_key. repeat split; try assumption.
      intros Hk'. apply (key_lt_irrefl (float_key p)).
      eapply key_lt_trans; eassumption.
    + split; [now apply le_refl|]. intros _.
      rewrite lt_not_le in Hlt by assumption.
      now destruct (F32.le a p).
Qed.

Lemma fmaxf_exceeds p a t :
  F32.is_nan p = false ->
  F32.gt (F32.fmaxf p a) t = F32.gt p t || F32.gt a t.
Proof.
  intros Hp.
  change (F32.lt t (F32.fmaxf p a) = F32.lt t p || F32.lt t a).
  destruct (fmaxf_upper p a Hp) as [H1 H2].
  destruct (F32.lt t p) eqn:Tp; cbn [orb].
  - eapply lt_le_trans; eassumption.
  - destruct (F32.lt t a) eqn:Ta.
    + eapply lt_le_trans; [eassumption|]. apply H2.
      apply lt_key in Ta. tauto.
    + unfold F32.fmaxf. rewrite Hp.
      destruct (F32.is_nan a); [assumption|].
      destruct (F32.lt p a); assumption.
Qed.
End FloatOrder.

(** ** The peak detector *)

Section PeakDetector.
Import HybridNode.
Variables cosf sinf expf : float -> float.

Lemma abs_number x : F32.is_nan x = false -> F32.is_nan (F32.abs x) = false.
Proof. destruct x; intros H; try discriminate; reflexivity. Qed.

(** The accumulation loop: the running peak is a number, dominates the
magnitude of every sample read so far that is a number, and exceeds a
threshold that zero does not exceed exactly when one of those magnitudes
does. *)
Lemma metrics_loop_peak buffer t n :
  F32.gt F32.zero t = false ->
  let peak := snd (fst (for_loop n 0 (metrics_step buffer)
                          (F32.zero, F32.zero, F32.zero))) in
  F32.is_nan peak = false
  /\ (forall i, (i < n)%nat ->
        F32.is_nan (F32.abs (nth i buffer F32.zero)) = false ->
        F32.le (F32.abs (nth i buffer F32.zero)) peak = true)
  /\ F32.gt peak t
     = existsb (fun i => F32.gt (F32.abs (nth i buffer F32.zero)) t) (seq 0 n).
Proof.
  intros Ht. cbv zeta.
  apply (for_loop_invariant
           (fun k s =>
              F32.is_nan (snd (fst s)) = false
              /\ (forall i, (i < k)%nat ->
                    F32.is_nan (F32.abs (nth i buffer F32.zero)) = false ->
                    F32.le (F32.abs (nth i buffer F32.zero)) (snd (fst s)) = true)
              /\ F32.gt (snd (fst s)) t
                 = existsb (fun i => F32.gt (F32.abs (nth i buffer F32.zero)) t)
                     (seq 0 k))
           (metrics_step buffer) n 0%nat).
  - cbn [fst snd seq existsb]. split; [reflexivity|]. split; [intros; lia|].
    exact Ht.
  - intros k [[rms peak] dc] _ (Hn & Hle & Hgt). cbn [fst snd] in *.
    unfold metrics_step. cbn [fst snd].
    destruct (fmaxf_upper peak (F32.abs (nth k buffer F32.zero)) Hn)
      as [U1 U2].
    split; [now apply fmaxf_number|]. split.
    + intros i Hi Hnum. destruct (decide (i = k)) as [->|Hne].
      * now apply U2.
      * eapply le_trans; [apply Hle; [lia | assumption] | exact U1].
    + rewrite seq_S, existsb_app, fmaxf_exceeds, Hgt by assumption.
      cbn [existsb Nat.add]. now rewrite orb_false_r.
Qed.

Lemma analog_metrics_peak frames g :
  let g' := analog_metrics frames g in
  let n := Z.to_nat (usize (frames * adc_channels (g_config g))) in
  let level i := F32.abs (nth i (g_adc_buffer g) F32.zero) in
  F32.is_nan (peak_level (analog (g_status g'))) = false
  /\ (forall i, (i < n)%nat -> F32.is_nan (level i) = false ->
        F32.le (level i) (peak_level (analog (g_status g'))) = true)
  /\ is_overloaded (analog (g_status g'))
     = existsb (fun i => F32.gt (level i) SAFETY_OVERLOAD_THRESH) (seq 0 n).
Proof.
  cbv zeta.
  pose proof (metrics_loop_peak (g_adc_buffer g) SAFETY_OVERLOAD_THRESH
                (Z.to_nat (usize (frames * adc_channels (g_config g))))
                eq_refl) as H.
  cbv zeta in H. unfold analog_metrics.
  destruct (for_loop _ _ _ _) as [[rms peak] dc]. node_fields.
  cbn [fst snd] in H. exact H.
Qed.

Lemma process_front_peak input frames g :
  let g' := process_front expf input frames g in
  let n := Z.to_nat (usize (frames * adc_channels (g_config g))) in
  let level i := F32.abs (nth i (g_adc_buffer g') F32.zero) in
  F32.is_nan (peak_level (analog (g_status g'))) = false
  /\ (forall i, (i < n)%nat -> F32.is_nan (level i) = false ->
        F32.le (level i) (peak_level (analog (g_status g'))) = true)
  /\ is_overloaded (analog (g_status g'))
     = existsb (fun i => F32.gt (level i) SAFETY_OVERLOAD_THRESH) (seq 0 n).
Proof.
  unfold process_front.
  set (g1 := set_adc_buffer _ g).
  set (g2 := if enable_analog_filter (g_config g1)
             then apply_analog_filter expf frames g1 else g1).
  assert (C2 : g_config g2 = g_config g).
  { subst g2. destruct (enable_analog_filter (g_config g1)).
    - now destruct (apply_analog_filter_facts expf frames g1) as (-> & _).
    - reflexivity. }
  destruct (analog_metrics_keeps frames g2) as (_ & _ & _ & _ & B3).
  destruct (safety_check_keeps (analog_metrics frames g2))
    as (_ & _ & _ & _ & _ & B4).
  destruct (safety_check_overload (analog_metrics frames g2))
    as (_ & _ & A4 & _).
  cbv zeta. rewrite A4, B4, B3, <- C2.
  apply analog_metrics_peak.
Qed.
End PeakDetector.

(** X10. The overload flag is a peak detector over the conditioned samples of
the cycle: after a cycle of a running node, the recorded peak is a number
(never NaN, whatever the input), it is at least the magnitude of every
conditioned sample that is a number, and the overload flag is raised
exactly when the magnitude of some conditioned sample exceeds the
threshold of 0.95.  A NaN sample is skipped by [fmaxf] and never raises
the flag. *)
Theorem overload_flag_detects_peak :
  forall (cosf sinf expf : float -> float) (input : list float) (frames : Z)
         (g : HybridNode.Globals),
    HybridNode.g_running g = true ->
    let g' := HybridNode.cycle cosf sinf expf input frames g in
    let n := Z.to_nat (usize (frames * HybridNode.adc_channels
                                         (HybridNode.g_config g))) in
    let level i := F32.abs (nth i (HybridNode.g_adc_buffer g') F32.zero) in
    let peak := HybridNode.peak_level
                  (HybridNode.analog (HybridNode.g_status g')) in
    F32.is_nan peak = false
    /\ (forall i, (i < n)%nat -> F32.is_nan (level i) = false ->
          F32.le (level i) peak = true)
    /\ (HybridNode.is_overloaded
          (HybridNode.analog (HybridNode.g_status g')) = true
        <-> exists i, (i < n)%nat
                      /\ F32.gt (level i) HybridNode.SAFETY_OVERLOAD_THRESH
                         = true).
Proof.
  intros cosf sinf expf input frames g Hrun. cbv zeta.
  rewrite cycle_halves by assumption.
  destruct (frame_process_back cosf sinf frames
              (HybridNode.process_front expf input frames g))
    as (_ & _ & _ & B & A & _).
  rewrite B, A.
  destruct (process_front_peak expf input frames g) as (Hn & Hle & Hov).
  split; [exact Hn|]. split; [exact Hle|].
  rewrite Hov, existsb_exists. split.
  - intros (i & Hin & Hi). exists i. split; [|exact Hi].
    apply in_seq in Hin. lia.
  - intros (i & Hlt & Hi). exists i. split; [|exact Hi].
    apply in_seq. lia.
Qed.

Lemma overload_flag_detects_peak_witness :
  HybridNode.is_overloaded
    (HybridNode.analog (HybridNode.g_status HybridNode.after_loud_cycle))
  = true
  <-> exists i, (i < 8)%nat
        /\ F32.gt (F32.abs (nth i (HybridNode.g_adc_buffer
                                     HybridNode.after_loud_cycle) F32.zero))
                  HybridNode.SAFETY_OVERLOAD_THRESH = true.
Proof.
  destruct (overload_flag_detects_peak HybridNode.not_called
              HybridNode.not_called HybridNode.not_called
              HybridNode.loud_input 4
              (HybridNode.started HybridNode.passthrough_config) eq_refl)
    as (_ & _ & H).
  exact H.
Defined.

(** ** The bridge: frame layout, what the codec transports, life cycle *)

Section BridgeFacts.
Import I2SBridge.

Lemma lookup_insert_fmap {A} (l : list A) (i j : nat) (x : A) :
  <[i := x]> l !! j = if decide (i = j) then (fun _ => x) <$> l !! j else l !! j.
Proof.
  destruct (decide (i = j)) as [->|Hne].
  - destruct (decide (j < length l)%nat) as [Hlt|Hge].
    + rewrite list_lookup_insert_eq by assumption.
      destruct (lookup_lt_is_Some_2 l j Hlt) as [y ->]. reflexivity.
    + rewrite list_insert_ge by lia.
      rewrite (lookup_ge_None_2 l j) by lia. reflexivity.
  - now rewrite list_lookup_insert_ne.
Qed.

(** One iteration writes the four metric words of its sample and
nothing else. *)
Lemma encode_sample_lookup m k frame (i c : nat) :
  (c < I2S_CHANNELS)%nat ->
  encode_sample (union_f_to_i (phi_phase m)) (union_f_to_i (phi_depth m))
    (union_f_to_i (coherence m)) (union_f_to_i (extra_of m)) k frame
    !! (i * I2S_CHANNELS + c)%nat
  = if decide (i = k)
    then channel_word m c <$> frame !! (i * I2S_CHANNELS + c)%nat
    else frame !! (i * I2S_CHANNELS + c)%nat.
Proof.
  unfold encode_sample. unfold I2S_CHANNELS. intros Hc.
  rewrite !lookup_insert_fmap.
  destruct (decide (i = k)) as [->|Hne].
  - do 8 (destruct c as [|c]; [repeat case_decide; try lia;
            destruct (frame !! _); reflexivity |]).
    lia.
  - repeat case_decide; try lia; reflexivity.
Qed.

(** The whole encoder: in each of the 512 samples channels 4 to 7 hold
the metric words and channels 0 to 3 are as they were. *)
Lemma encode_layout m frame n (i c : nat) :
  (c < I2S_CHANNELS)%nat ->
  for_loop n 0
    (encode_sample (union_f_to_i (phi_phase m)) (union_f_to_i (phi_depth m))
       (union_f_to_i (coherence m)) (union_f_to_i (extra_of m))) frame
    !! (i * I2S_CHANNELS + c)%nat
  = if decide (i < n)%nat
    then channel_word m c <$> frame !! (i * I2S_CHANNELS + c)%nat
    else frame !! (i * I2S_CHANNELS + c)%nat.
Proof.
  intros Hc. induction n as [|n IH].
  - reflexivity.
  - rewrite for_loop_snoc, encode_sample_lookup, IH by assumption.
    cbn [Nat.add].
    destruct (decide (i = n)) as [->|Hne]; repeat case_decide; try lia;
      reflexivity.
Qed.

Lemma memcpy_lookup {A} (dst src : list A) n j :
  (n <= length src)%nat -> (j < n)%nat -> memcpy dst src n !! j = src !! j.
Proof.
  intros Hn Hj. unfold memcpy.
  rewrite lookup_app_l by (rewrite length_take; lia).
  now apply lookup_take_lt.
Qed.

Lemma call_keeps_stopped p c b :
  platform_dma_start p = false ->
  g_running (g_io b) = false ->
  g_running (g_io (snd (call p c b))) = false
  /\ (is_transfer c = true -> call p c b = (false, b)).
Proof.
  intros Hp Hrun. destruct b as [io cfg ini fd lat jit drift link up].
  cbn [g_io] in Hrun.
  destruct c as [[cfg'|]| | |[audio|] [m|]|[audio|] [m|]|enable|];
    unfold call, is_transfer, i2s_bridge_init, i2s_bridge_start,
      i2s_bridge_stop, i2s_bridge_set_gpio_sync, i2s_bridge_reset_statistics,
      i2s_bridge_transmit, i2s_bridge_receive, set_io, io_with_counters,
      io_with_running;
    cbn [g_io g_initialized g_running];
    rewrite ?Hrun, ?Hp; cbn [negb orb];
    try (destruct (platform_i2s_init p));
    try (destruct ini);
    cbn [negb orb snd g_io g_running];
    (split; [assumption || reflexivity | intros; try discriminate]);
    destruct io; reflexivity.
Qed.

Lemma call_keeps_link p c b :
  platform_dma_start p = false ->
  g_running (g_io b) = false ->
  link_status b <> I2S_LINK_STABLE ->
  link_status (snd (call p c b)) <> I2S_LINK_STABLE.
Proof.
  intros Hp Hrun Hlink. destruct b as [io cfg ini fd lat jit drift link up].
  cbn [g_io link_status] in Hrun, Hlink.
  destruct c as [[cfg'|]| | |[audio|] [m|]|[audio|] [m|]|enable|];
    unfold call, i2s_bridge_init, i2s_bridge_start,
      i2s_bridge_stop, i2s_bridge_set_gpio_sync, i2s_bridge_reset_statistics,
      i2s_bridge_transmit, i2s_bridge_receive, set_io, io_with_counters,
      io_with_running;
    cbn [g_io g_initialized g_running];
    rewrite ?Hrun, ?Hp; cbn [negb orb];
    try (destruct (platform_i2s_init p));
    try (destruct ini);
    cbn [negb orb snd link_status];
    assumption || discriminate.
Qed.

Lemma call_keeps_uninitialized c b :
  g_initialized b = false -> g_initialized (snd (call HOST c b)) = false.
Proof.
  intros Hini. destruct b as [io cfg ini fd lat jit drift link up].
  cbn [g_initialized] in Hini. subst ini.
  destruct c as [[cfg'|]| | |audio m|audio m|enable|]; try reflexivity.
  - unfold call, i2s_bridge_stop. cbn [g_io].
    destruct (negb (g_running io)); reflexivity.
  - unfold call. destruct (i2s_bridge_transmit audio m _). reflexivity.
  - unfold call.
    destruct (i2s_bridge_receive audio m _) as [[[ok a'] m'] io'].
    reflexivity.
Qed.
End BridgeFacts.

(** X11. A transmitted frame carries the caller's audio in channels 0 to 3 of
every sample and the four metric words in channels 4 to 7 of every
sample, whatever the caller put into those channels; the call counts one
frame and leaves the receive buffer alone. *)
Theorem transmit_frame_layout :
  forall (audio : list Z) (m : I2SBridge.ConsciousnessMetrics)
         (g : I2SBridge.Globals),
    I2SBridge.g_running g = true ->
    (I2SBridge.I2S_BUFFER_SIZE * I2SBridge.I2S_CHANNELS <= length audio)%nat ->
    let r := I2SBridge.i2s_bridge_transmit (Some audio) (Some m) g in
    fst r = true
    /\ I2SBridge.frames_transmitted (snd r)
       = u64 (I2SBridge.frames_transmitted g + 1)
    /\ I2SBridge.g_rx_buffer (snd r) = I2SBridge.g_rx_buffer g
    /\ I2SBridge.g_running (snd r) = true
    /\ forall i c : nat,
         (i < I2SBridge.I2S_BUFFER_SIZE)%nat ->
         (c < I2SBridge.I2S_CHANNELS)%nat ->
         I2SBridge.g_tx_buffer (snd r) !! (i * I2SBridge.I2S_CHANNELS + c)%nat
         = I2SBridge.channel_word m c
             <$> audio !! (i * I2SBridge.I2S_CHANNELS + c)%nat.
Proof.
  intros audio m g Hrun Hlen. cbv zeta.
  unfold I2SBridge.i2s_bridge_transmit. rewrite Hrun.
  cbn [negb fst snd I2SBridge.frames_transmitted I2SBridge.g_rx_buffer
       I2SBridge.g_running I2SBridge.g_tx_buffer].
  repeat split; try reflexivity. intros i c Hi Hc.
  unfold I2SBridge.encode_metrics_to_frame.
  rewrite encode_layout by assumption.
  destruct (decide (i < I2SBridge.I2S_BUFFER_SIZE)%nat); [|lia].
  rewrite memcpy_lookup; [reflexivity | assumption |].
  unfold I2SBridge.I2S_BUFFER_SIZE, I2SBridge.I2S_CHANNELS in *. lia.
Qed.

Lemma transmit_frame_layout_witness :
  I2SBridge.g_tx_buffer
    (snd (I2SBridge.i2s_bridge_transmit (Some I2SBridge.square_wave)
            (Some I2SBridge.self_test_metrics) I2SBridge.running_io))
    !! (511 * I2SBridge.I2S_CHANNELS + 6)%nat
  = I2SBridge.channel_word I2SBridge.self_test_metrics 6
      <$> I2SBridge.square_wave !! (511 * I2SBridge.I2S_CHANNELS + 6)%nat.
Proof.
  refine (proj2 (proj2 (proj2 (proj2
            (transmit_frame_layout I2SBridge.square_wave
               I2SBridge.self_test_metrics I2SBridge.running_io
               eq_refl _)))) 511%nat 6%nat _ _).
  - vm_compute. lia.
  - vm_compute. lia.
  - vm_compute. lia.
Defined.

(** X12. What the codec transports: the decoder takes [phi_phase], [phi_depth]
and [coherence] from the frame, and stores the 4th word according to the
parity of the sequence number already in the receiving record, not the
sender's: as [criticality] when that is even, as [ici] when it is odd;
the other of the two, the sequence number and the time stamp of the
receiving record stay as they were.  The sender's sequence number and
time stamp are not in the frame. *)
Theorem codec_transports_four_words :
  forall (m dst : I2SBridge.ConsciousnessMetrics) (frame : list Z),
    I2SBridge.metrics_ok m ->
    length frame = (I2SBridge.I2S_BUFFER_SIZE * I2SBridge.I2S_CHANNELS)%nat ->
    exists d,
      I2SBridge.decode_metrics_from_frame
        (I2SBridge.encode_metrics_to_frame frame m) dst = Some d
      /\ I2SBridge.phi_phase d = I2SBridge.phi_phase m
      /\ I2SBridge.phi_depth d = I2SBridge.phi_depth m
      /\ I2SBridge.coherence d = I2SBridge.coherence m
      /\ I2SBridge.sequence d = I2SBridge.sequence dst
      /\ I2SBridge.timestamp_us d = I2SBridge.timestamp_us dst
      /\ I2SBridge.criticality d
         = (if Z.even (I2SBridge.sequence dst)
            then I2SBridge.extra_of m else I2SBridge.criticality dst)
      /\ I2SBridge.ici d
         = (if Z.even (I2SBridge.sequence dst)
            then I2SBridge.ici dst else I2SBridge.extra_of m).
Proof.
  intros m dst frame (Hp & Hd & Hc & Hk & Hi) Hlen.
  destruct (encode_first_sample frame m) as (E4 & E5 & E6 & E7).
  { rewrite Hlen. unfold I2SBridge.I2S_BUFFER_SIZE, I2SBridge.I2S_CHANNELS. lia. }
  unfold I2SBridge.decode_metrics_from_frame.
  rewrite E4, E5, E6, E7. eexists; split; [reflexivity|].
  cbn [I2SBridge.phi_phase I2SBridge.phi_depth I2SBridge.coherence
       I2SBridge.sequence I2SBridge.timestamp_us I2SBridge.criticality
       I2SBridge.ici].
  assert (Hx : I2SBridge.is_float_bits (I2SBridge.extra_of m)).
  { unfold I2SBridge.extra_of.
    destruct (I2SBridge.sequence m mod 2 =? 0); assumption. }
  rewrite !union_round_trip by assumption.
  rewrite Zmod_even.
  destruct (Z.even (I2SBridge.sequence dst)); cbn;
    repeat split; reflexivity.
Qed.

Lemma codec_transports_four_words_witness :
  exists d,
    I2SBridge.decode_metrics_from_frame
      (I2SBridge.encode_metrics_to_frame
         I2SBridge.silent_frame I2SBridge.self_test_metrics)
      I2SBridge.blank_metrics = Some d
    /\ I2SBridge.sequence d = 0 /\ I2SBridge.ici d = 0.
Proof.
  destruct (codec_transports_four_words I2SBridge.self_test_metrics
              I2SBridge.blank_metrics I2SBridge.silent_frame)
    as (d & Hd & _ & _ & _ & Hs & _ & _ & Hi).
  - unfold I2SBridge.metrics_ok, I2SBridge.is_float_bits; cbn; lia.
  - reflexivity.
  - exists d. split; [exact Hd|]. split; [exact Hs | exact Hi].
Defined.

(** X13. Only the [TEENSY] build can run the bridge.  In the other builds
[platform_dma_start] fails, so whatever is called in whatever order, the
bridge never runs, the link status never reads stable, and every
transmit and receive is refused with the state unchanged.  In the build for neither board the hardware
initialisation fails as well, and the bridge is never initialised. *)
Theorem bridge_runs_only_on_teensy :
  forall (p : I2SBridge.Platform) (history : list I2SBridge.Call)
         (c : I2SBridge.Call),
    p <> I2SBridge.TEENSY ->
    let b := I2SBridge.calls p history I2SBridge.initial_bridge in
    I2SBridge.g_running (I2SBridge.g_io b) = false
    /\ I2SBridge.i2s_bridge_get_link_status b <> I2SBridge.I2S_LINK_STABLE
    /\ (I2SBridge.is_transfer c = true -> I2SBridge.call p c b = (false, b))
    /\ (p = I2SBridge.HOST -> I2SBridge.g_initialized b = false).
Proof.
  intros p history c Hp. cbv zeta.
  assert (Hdma : I2SBridge.platform_dma_start p = false)
    by (destruct p; [contradiction | reflexivity | reflexivity]).
  assert (Hinv : forall b,
             I2SBridge.g_running (I2SBridge.g_io b) = false ->
             I2SBridge.link_status b <> I2SBridge.I2S_LINK_STABLE ->
             (p = I2SBridge.HOST -> I2SBridge.g_initialized b = false) ->
             I2SBridge.g_running
               (I2SBridge.g_io (I2SBridge.calls p history b)) = false
             /\ I2SBridge.link_status (I2SBridge.calls p history b)
                <> I2SBridge.I2S_LINK_STABLE
             /\ (p = I2SBridge.HOST ->
                 I2SBridge.g_initialized (I2SBridge.calls p history b)
                 = false)).
  { unfold I2SBridge.calls.
    induction history as [|c' rest IH]; intros b Hrun Hlink Hini;
      cbn [fold_left].
    - repeat split; assumption.
    - apply IH.
      + now apply call_keeps_stopped.
      + now apply call_keeps_link.
      + intros ->. apply call_keeps_uninitialized. now apply Hini. }
  destruct (Hinv I2SBridge.initial_bridge eq_refl) as (Hrun & Hlink & Hini).
  { discriminate. }
  { reflexivity. }
  split; [exact Hrun|]. split; [exact Hlink|]. split; [|exact Hini].
  now apply call_keeps_stopped.
Qed.

Lemma bridge_runs_only_on_teensy_witness :
  I2SBridge.call I2SBridge.RASPBERRY_PI
    (I2SBridge.CallTransmit (Some I2SBridge.square_wave)
       (Some I2SBridge.self_test_metrics))
    (I2SBridge.calls I2SBridge.RASPBERRY_PI
       [I2SBridge.CallInit (Some I2SBridge.self_test_config);
        I2SBridge.CallStart] I2SBridge.initial_bridge)
  = (false,
     I2SBridge.calls I2SBridge.RASPBERRY_PI
       [I2SBridge.CallInit (Some I2SBridge.self_test_config);
        I2SBridge.CallStart] I2SBridge.initial_bridge).
Proof.
  refine (proj1 (proj2 (proj2
            (bridge_runs_only_on_teensy I2SBridge.RASPBERRY_PI
               [I2SBridge.CallInit (Some I2SBridge.self_test_config);
                I2SBridge.CallStart]
               (I2SBridge.CallTransmit (Some I2SBridge.square_wave)
                  (Some I2SBridge.self_test_metrics)) _))) eq_refl).
  intros H; discriminate H.
Defined.

(** ** The sensor: conversion, sampling interrupt, interface *)

Ltac phi_fields :=
  cbn [PhiSensor.g_config PhiSensor.g_stats PhiSensor.g_calibration
       PhiSensor.g_initialized PhiSensor.g_running PhiSensor.g_sample_counter
       PhiSensor.g_last_sample_us PhiSensor.g_current_data
       PhiSensor.g_data_ready PhiSensor.g_filter_state
       PhiSensor.set_running PhiSensor.set_sample_counter
       PhiSensor.set_last_sample_us PhiSensor.set_current_data
       PhiSensor.set_data_ready PhiSensor.set_filter_state
       PhiSensor.set_stats PhiSensor.set_config PhiSensor.set_calibration
       PhiSensor.bump_total_samples PhiSensor.stats_with_calibrated
       PhiSensor.cfg_with_sample_rate PhiSensor.cfg_with_filtering
       PhiSensor.adc_pins PhiSensor.sample_rate_hz PhiSensor.enable_filtering
       PhiSensor.filter_cutoff_hz PhiSensor.enable_calibration
       PhiSensor.raw_adc PhiSensor.voltage PhiSensor.normalized
       PhiSensor.timestamp_us PhiSensor.sample_number
       PhiSensor.total_samples PhiSensor.sample_rate_actual
       PhiSensor.sample_rate_jitter PhiSensor.dropped_samples
       PhiSensor.signal_quality PhiSensor.calibrated
       fst snd negb andb orb] in *.

Section SensorFacts.
Import PhiSensor.

Lemma conversion_table :
  forallb conversion_in_range (map Z.of_nat (seq 0 4096)) = true.
Proof. vm_compute. reflexivity. Qed.

Lemma isr_frame_refl g : isr_frame g g.
Proof. repeat split. Qed.

Lemma isr_frame_trans g1 g2 g3 :
  isr_frame g1 g2 -> isr_frame g2 g3 -> isr_frame g1 g3.
Proof.
  unfold isr_frame. intros H1 H2.
  destruct H1 as (A1 & A2 & A3 & A4 & A5 & A6 & A7 & A8 & A9 & A10).
  destruct H2 as (B1 & B2 & B3 & B4 & B5 & B6 & B7 & B8 & B9 & B10).
  repeat split; congruence.
Qed.

Lemma apply_filter_frame x ch g : isr_frame g (snd (apply_filter x ch g)).
Proof.
  unfold apply_filter. destruct (negb (enable_filtering (g_config g))).
  - apply isr_frame_refl.
  - unfold isr_frame. phi_fields. rewrite length_insert. repeat split.
Qed.

Lemma apply_calibration_frame g g' v ch :
  isr_frame g g' -> apply_calibration g' v ch = apply_calibration g v ch.
Proof.
  intros (C & S & K & _). unfold apply_calibration. now rewrite C, S, K.
Qed.

Lemma sample_channel_frame adc ch data g :
  let st := sample_channel adc ch (data, g) in
  isr_frame g (snd st)
  /\ timestamp_us (fst st) = timestamp_us data
  /\ sample_number (fst st) = sample_number data.
Proof.
  unfold sample_channel.
  pose proof (apply_filter_frame
                (apply_calibration g (adc_to_voltage (wrap 16 (adc ch))) ch)
                ch g) as H.
  destruct (apply_filter _ ch g) as [n g']. phi_fields.
  repeat split; apply H.
Qed.

Lemma channel_loop_frame adc n lo data g :
  let st := for_loop n lo (sample_channel adc) (data, g) in
  isr_frame g (snd st)
  /\ timestamp_us (fst st) = timestamp_us data
  /\ sample_number (fst st) = sample_number data.
Proof.
  cbv zeta.
  apply (for_loop_preserves
           (fun st => isr_frame g (snd st)
                      /\ timestamp_us (fst st) = timestamp_us data
                      /\ sample_number (fst st) = sample_number data)).
  - split; [apply isr_frame_refl | split; reflexivity].
  - intros i [d g1] _ (F & T & N). cbn [fst snd] in F, T, N.
    destruct (sample_channel_frame adc i d g1) as (F' & T' & N').
    split; [eapply isr_frame_trans; eassumption|]. split; congruence.
Qed.

(** One firing of the interrupt on a running sensor. *)
Lemma sample_timer_isr_running t adc g :
  g_running g = true ->
  let g' := sample_timer_isr t adc g in
  g_running g' = true /\ g_initialized g' = g_initialized g
  /\ g_config g' = g_config g /\ g_calibration g' = g_calibration g
  /\ g_stats g' = bump_total_samples (g_stats g)
  /\ g_sample_counter g' = u32 (g_sample_counter g + 1)
  /\ g_last_sample_us g' = t
  /\ g_data_ready g' = true
  /\ timestamp_us (g_current_data g') = t
  /\ sample_number (g_current_data g') = g_sample_counter g
  /\ length (g_filter_state g') = length (g_filter_state g).
Proof.
  intros Hrun. unfold sample_timer_isr. rewrite Hrun. cbn [negb]. cbv zeta.
  match goal with
  | |- context [for_loop ?n ?lo ?body (?d, ?g0)] =>
      pose proof (channel_loop_frame adc n lo d g0) as H;
      destruct (for_loop n lo body (d, g0)) as [data g1]
  end.
  cbv zeta in H. phi_fields.
  destruct H as ((C & S & K & I & R & N & L & D & Y & F) & T & M).
  phi_fields. rewrite S, C, K, I, R, N, F, T, M.
  repeat split; assumption || reflexivity.
Qed.

Lemma sample_timer_isr_stopped t adc g :
  g_running g = false -> sample_timer_isr t adc g = g.
Proof. intros Hrun. unfold sample_timer_isr. now rewrite Hrun. Qed.



End SensorFacts.

(** X14. Every 12-bit reading converts within range: the voltage lies in
[0, 3.3] and, while no calibration is applied, the normalised reading lies
in [0, 1]. *)
Theorem adc_conversion_in_range :
  forall (raw : Z) (g : PhiSensor.Globals) (ch : nat),
    0 <= raw <= PhiSensor.PHI_SENSOR_ADC_MAX ->
    PhiSensor.enable_calibration (PhiSensor.g_config g)
      && PhiSensor.calibrated (PhiSensor.g_stats g) = false ->
    let v := PhiSensor.adc_to_voltage raw in
    let n := PhiSensor.apply_calibration g v ch in
    F32.le F32.zero v = true
    /\ F32.le v PhiSensor.PHI_SENSOR_VOLTAGE_MAX = true
    /\ F32.le F32.zero n = true
    /\ F32.le n PhiSensor.one = true.
Proof.
  intros raw g ch Hraw Hcal. cbv zeta.
  assert (Hin : In raw (map Z.of_nat (seq 0 4096))).
  { apply in_map_iff. exists (Z.to_nat raw). split; [lia|].
    apply in_seq. unfold PhiSensor.PHI_SENSOR_ADC_MAX in Hraw. lia. }
  pose proof (proj1 (forallb_forall _ _) conversion_table raw Hin) as H.
  unfold PhiSensor.conversion_in_range in H. cbv zeta in H.
  apply andb_prop in H. destruct H as [H H4].
  apply andb_prop in H. destruct H as [H H3].
  apply andb_prop in H. destruct H as [H1 H2].
  assert (Hn : PhiSensor.apply_calibration g (PhiSensor.adc_to_voltage raw) ch
               = F32.div (PhiSensor.adc_to_voltage raw)
                   PhiSensor.PHI_SENSOR_VOLTAGE_MAX).
  { unfold PhiSensor.apply_calibration.
    destruct (PhiSensor.enable_calibration (PhiSensor.g_config g));
      destruct (PhiSensor.calibrated (PhiSensor.g_stats g));
      try discriminate; reflexivity. }
  rewrite Hn. repeat split; assumption.
Qed.

Lemma adc_conversion_in_range_witness :
  F32.le (PhiSensor.apply_calibration PhiSensor.running_sensor
            (PhiSensor.adc_to_voltage 4095) 0) PhiSensor.one = true.
Proof.
  refine (proj2 (proj2 (proj2
            (adc_conversion_in_range 4095 PhiSensor.running_sensor 0%nat
               _ eq_refl)))).
  vm_compute. split; intros H; discriminate H.
Defined.

(** X15. With a calibration profile applied, a normalised reading is never
outside [0, 1]: it is 0.5 when the profile's range is empty or reversed,
and otherwise the clamped quotient, which is in [0, 1] unless it is NaN
(as for a profile or a voltage that is not a number).  This holds for
every profile, also one that was loaded unchecked. *)
Theorem calibrated_reading_clamped :
  forall (g : PhiSensor.Globals) (v : spec_float) (ch : nat),
    PhiSensor.enable_calibration (PhiSensor.g_config g) = true ->
    PhiSensor.calibrated (PhiSensor.g_stats g) = true ->
    let v_min := nth ch (PhiSensor.voltage_min (PhiSensor.g_calibration g))
                   F32.zero in
    let v_max := nth ch (PhiSensor.voltage_max (PhiSensor.g_calibration g))
                   F32.zero in
    let n := PhiSensor.apply_calibration g v ch in
    (F32.le v_max v_min = true -> n = PhiSensor.half)
    /\ (F32.is_nan n = true
        \/ (F32.le F32.zero n = true /\ F32.le n PhiSensor.one = true)).
Proof.
  intros g v ch He Hc. cbv zeta. unfold PhiSensor.apply_calibration.
  rewrite He, Hc. cbn [negb orb].
  destruct (F32.le _ _) eqn:Hrange.
  - split; [reflexivity|]. right. split; vm_compute; reflexivity.
  - split; [discriminate|].
    set (q := F32.div _ _).
    destruct (F32.lt q F32.zero) eqn:Hneg.
    + right. split; vm_compute; reflexivity.
    + destruct (F32.gt q PhiSensor.one) eqn:Hbig.
      * right. split; vm_compute; reflexivity.
      * destruct (F32.is_nan q) eqn:Hnan; [now left | right].
        unfold F32.gt in Hbig.
        change (SFltb PhiSensor.one q) with (F32.lt PhiSensor.one q) in Hbig.
        rewrite lt_not_le in Hneg, Hbig by (assumption || reflexivity).
        split.
        -- now destruct (F32.le F32.zero q).
        -- now destruct (F32.le q PhiSensor.one).
Qed.

Lemma calibrated_reading_clamped_witness :
  F32.le (PhiSensor.apply_calibration
            (snd (PhiSensor.phi_sensor_load_calibration
                    (Some PhiSensor.example_calibration)
                    (PhiSensor.set_config
                       (PhiSensor.cfg_with_filtering false
                          {| PhiSensor.adc_pins := [14; 15; 16; 17];
                             PhiSensor.sample_rate_hz := 30;
                             PhiSensor.enable_filtering := true;
                             PhiSensor.filter_cutoff_hz := F32.of_Z 10;
                             PhiSensor.enable_calibration := true |})
                       PhiSensor.running_sensor)))
            (PhiSensor.adc_to_voltage 4095) 0) PhiSensor.one = true.
Proof.
  destruct (calibrated_reading_clamped
              (snd (PhiSensor.phi_sensor_load_calibration
                      (Some PhiSensor.example_calibration)
                      (PhiSensor.set_config
                         (PhiSensor.cfg_with_filtering false
                            {| PhiSensor.adc_pins := [14; 15; 16; 17];
                               PhiSensor.sample_rate_hz := 30;
                               PhiSensor.enable_filtering := true;
                               PhiSensor.filter_cutoff_hz := F32.of_Z 10;
                               PhiSensor.enable_calibration := true |})
                         PhiSensor.running_sensor)))
              (PhiSensor.adc_to_voltage 4095) 0%nat eq_refl eq_refl)
    as [_ [Hnan | [_ Hle]]].
  - vm_compute in Hnan. discriminate Hnan.
  - exact Hle.
Defined.

Section SensorRuns.
Import PhiSensor.



Lemma filtering_loop_length n lo g :
  let g' := for_loop n lo
              (fun ch g =>
                 set_filter_state (<[ch := F32.zero]> (g_filter_state g)) g) g in
  g_config g' = g_config g /\ g_stats g' = g_stats g
  /\ g_initialized g' = g_initialized g /\ g_running g' = g_running g
  /\ length (g_filter_state g') = length (g_filter_state g).
Proof.
  cbv zeta.
  apply (for_loop_preserves
           (fun g' => g_config g' = g_config g /\ g_stats g' = g_stats g
                      /\ g_initialized g' = g_initialized g
                      /\ g_running g' = g_running g
                      /\ length (g_filter_state g') = length (g_filter_state g))).
  - repeat split.
  - intros i t _ (C & S & I & R & L). phi_fields.
    rewrite length_insert. repeat split; assumption.
Qed.

Ltac keeps_done :=
  repeat split; auto; try (intros; congruence); try (intros; discriminate);
  try lia.

(** What every call and every interrupt keeps: no drop is counted, no
rate is measured, a running sensor is initialised, an initialised sensor
has a rate of at least 1 Hz, and the filter state has one cell per
channel. *)
Lemma call_keeps c g :
  rate_configured c = true ->
  dropped_samples (g_stats g) = 0
  /\ sample_rate_actual (g_stats g) = 0
  /\ (g_running g = true -> g_initialized g = true)
  /\ (g_initialized g = true -> 1 <= sample_rate_hz (g_config g))
  /\ length (g_filter_state g) = PHI_SENSOR_CHANNELS ->
  dropped_samples (g_stats (call c g)) = 0
  /\ sample_rate_actual (g_stats (call c g)) = 0
  /\ (g_running (call c g) = true -> g_initialized (call c g) = true)
  /\ (g_initialized (call c g) = true -> 1 <= sample_rate_hz (g_config (call c g)))
  /\ length (g_filter_state (call c g)) = PHI_SENSOR_CHANNELS.
Proof.
  intros Hrate (D & A & RI & IR & L).
  destruct c as [[cfg|]|t| |t adc|[d|]|[cal|]| |rate t|enable]; cbn [call].
  - cbn [rate_configured] in Hrate. apply Z.leb_le in Hrate.
    unfold phi_sensor_init. phi_fields. keeps_done.
  - unfold phi_sensor_init. phi_fields. keeps_done.
  - unfold phi_sensor_start.
    destruct (g_initialized g) eqn:Hi; cbn [negb orb];
      [destruct (g_running g) eqn:Hr|]; phi_fields;
      rewrite ?Hi; keeps_done.
  - unfold phi_sensor_stop. destruct (g_running g) eqn:Hr; cbn [negb];
      phi_fields; keeps_done.
  - destruct (g_running g) eqn:Hr.
    + destruct (sample_timer_isr_running t adc g Hr)
        as (R & I & C & _ & S & _ & _ & _ & _ & _ & F).
      cbv zeta in *. rewrite S, I, C, F. phi_fields. keeps_done.
    + rewrite sample_timer_isr_stopped by assumption.
      rewrite Hr. keeps_done.
  - rewrite phi_sensor_read_cases.
    destruct (g_running g && g_data_ready g); phi_fields; keeps_done.
  - phi_fields. keeps_done.
  - unfold phi_sensor_load_calibration. phi_fields. keeps_done.
  - phi_fields. keeps_done.
  - unfold phi_sensor_reset_statistics. phi_fields. keeps_done.
  - unfold phi_sensor_set_sample_rate. cbv zeta.
    destruct (Z.ltb_spec (u32 rate) 1); cbn [orb];
      [phi_fields; keeps_done|].
    destruct (Z.ltb_spec 1000 (u32 rate)); phi_fields;
      [keeps_done|].
    destruct (g_running g) eqn:Hr.
    + unfold phi_sensor_stop, phi_sensor_start. phi_fields. rewrite Hr.
      cbn [negb]. phi_fields. rewrite (RI eq_refl). cbn [negb orb].
      phi_fields. keeps_done.
    + phi_fields. rewrite Hr. keeps_done.
  - unfold phi_sensor_set_filtering. cbv zeta.
    destruct enable; cbn [negb]; phi_fields.
    + keeps_done.
    + match goal with
      | |- context [for_loop ?n ?lo ?body ?g0] =>
          destruct (filtering_loop_length n lo g0) as (C & S & I & R & F)
      end.
      cbv zeta in *. rewrite C, S, I, R, F. phi_fields. keeps_done.
Qed.

Lemma calls_keep history :
  forall g,
    forallb rate_configured history = true ->
    dropped_samples (g_stats g) = 0
    /\ sample_rate_actual (g_stats g) = 0
    /\ (g_running g = true -> g_initialized g = true)
    /\ (g_initialized g = true -> 1 <= sample_rate_hz (g_config g))
    /\ length (g_filter_state g) = PHI_SENSOR_CHANNELS ->
    let g' := calls history g in
    dropped_samples (g_stats g') = 0
    /\ sample_rate_actual (g_stats g') = 0
    /\ (g_running g' = true -> g_initialized g' = true)
    /\ (g_initialized g' = true -> 1 <= sample_rate_hz (g_config g'))
    /\ length (g_filter_state g') = PHI_SENSOR_CHANNELS.
Proof.
  unfold calls.
  induction history as [|c rest IH]; intros g Hrates H; cbn [fold_left].
  - exact H.
  - cbn [forallb] in Hrates. apply andb_prop in Hrates.
    destruct Hrates as [Hc Hrest].
    apply IH; [exact Hrest|]. now apply call_keeps.
Qed.
End SensorRuns.

(** X16. The statistics are never measured.  After any history of
initialisations, starts, stops, sampling interrupts, reads, calibration
loads, statistics resets, rate changes and filter switches,
[dropped_samples] and [sample_rate_actual] are 0, so that
[phi_sensor_get_sample_rate] returns 0, while the copy that
[phi_sensor_get_statistics] hands out reports the configured rate once a
sample has been taken; a running sensor is initialised;
and, when every initialisation configured a rate of at least 1 Hz, an
initialised sensor has such a rate, so that [phi_sensor_start] never
divides by zero. *)
Theorem sensor_statistics_never_measured :
  forall history : list PhiSensor.Call,
    forallb PhiSensor.rate_configured history = true ->
    let g := PhiSensor.calls history PhiSensor.initial_globals in
    PhiSensor.dropped_samples (PhiSensor.g_stats g) = 0
    /\ PhiSensor.sample_rate_actual (PhiSensor.g_stats g) = 0
    /\ PhiSensor.phi_sensor_get_sample_rate g = F32.zero
    /\ (forall s, exists s',
          PhiSensor.phi_sensor_get_statistics (Some s) g = (true, Some s')
          /\ PhiSensor.dropped_samples s' = 0
          /\ PhiSensor.sample_rate_actual s'
             = if 0 <? PhiSensor.total_samples (PhiSensor.g_stats g)
               then PhiSensor.sample_rate_hz (PhiSensor.g_config g) else 0)
    /\ (PhiSensor.g_running g = true -> PhiSensor.g_initialized g = true)
    /\ (PhiSensor.g_initialized g = true ->
        1 <= PhiSensor.sample_rate_hz (PhiSensor.g_config g))
    /\ length (PhiSensor.g_filter_state g) = PhiSensor.PHI_SENSOR_CHANNELS.
Proof.
  intros history Hrates.
  destruct (calls_keep history PhiSensor.initial_globals Hrates)
    as (D & A & RI & IR & L).
  { repeat split; try reflexivity; intros H; discriminate H. }
  cbv zeta in *. unfold PhiSensor.phi_sensor_get_sample_rate.
  rewrite A. split; [exact D|]. split; [reflexivity|]. split; [reflexivity|].
  split; [|repeat split; assumption].
  intros s. unfold PhiSensor.phi_sensor_get_statistics. cbv zeta.
  eexists. split; [reflexivity|].
  destruct (0 <? PhiSensor.total_samples _); phi_fields;
    split; assumption || reflexivity.
Qed.

Lemma sensor_statistics_never_measured_witness :
  PhiSensor.dropped_samples
    (PhiSensor.g_stats
       (PhiSensor.calls
          [PhiSensor.CallInit (Some PhiSensor.default_config);
           PhiSensor.CallStart 0;
           PhiSensor.CallSample 33333 PhiSensor.mid_scale;
           PhiSensor.CallSample 66666 PhiSensor.mid_scale;
           PhiSensor.CallRead (Some PhiSensor.zero_data)]
          PhiSensor.initial_globals)) = 0.
Proof.
  exact (proj1 (sensor_statistics_never_measured
                  [PhiSensor.CallInit (Some PhiSensor.default_config);
                   PhiSensor.CallStart 0;
                   PhiSensor.CallSample 33333 PhiSensor.mid_scale;
                   PhiSensor.CallSample 66666 PhiSensor.mid_scale;
                   PhiSensor.CallRead (Some PhiSensor.zero_data)]
                  eq_refl)).
Defined.



(** X18. [phi_sensor_set_sample_rate] accepts exactly the rates from 1 to
1000 Hz.  A refused call changes nothing.  An accepted call stores the
rate and keeps the sensor running or stopped as it was; on a running
sensor it restarts the sampling, so the sample numbering starts again at
0, while a sample already stored stays readable. *)
Theorem set_sample_rate_restarts :
  forall (rate_hz now_us : Z) (g : PhiSensor.Globals),
    (PhiSensor.g_running g = true -> PhiSensor.g_initialized g = true) ->
    let r := PhiSensor.phi_sensor_set_sample_rate rate_hz now_us g in
    (fst r = true <-> 1 <= u32 rate_hz <= 1000)
    /\ (fst r = false -> snd r = g)
    /\ (fst r = true ->
        PhiSensor.sample_rate_hz (PhiSensor.g_config (snd r)) = u32 rate_hz
        /\ PhiSensor.g_running (snd r) = PhiSensor.g_running g
        /\ PhiSensor.g_data_ready (snd r) = PhiSensor.g_data_ready g
        /\ PhiSensor.g_current_data (snd r) = PhiSensor.g_current_data g
        /\ PhiSensor.g_stats (snd r) = PhiSensor.g_stats g
        /\ (PhiSensor.g_running g = true ->
            PhiSensor.g_sample_counter (snd r) = 0
            /\ PhiSensor.g_last_sample_us (snd r) = now_us)
        /\ (PhiSensor.g_running g = false ->
            PhiSensor.g_sample_counter (snd r) = PhiSensor.g_sample_counter g)).
Proof.
  intros rate_hz now_us g RI. cbv zeta.
  unfold PhiSensor.phi_sensor_set_sample_rate. cbv zeta.
  destruct (Z.ltb_spec (u32 rate_hz) 1); cbn [orb fst snd].
  { split; [split; [discriminate | lia]|].
    split; [reflexivity | discriminate]. }
  destruct (Z.ltb_spec 1000 (u32 rate_hz)); cbn [fst snd].
  { split; [split; [discriminate | lia]|].
    split; [reflexivity | discriminate]. }
  split; [split; [lia | reflexivity]|].
  split; [discriminate|]. intros _.
  phi_fields.
  destruct (PhiSensor.g_running g) eqn:Hr.
  - unfold PhiSensor.phi_sensor_stop, PhiSensor.phi_sensor_start.
    phi_fields. rewrite Hr. cbn [negb]. phi_fields.
    rewrite (RI eq_refl). cbn [negb orb]. phi_fields.
    repeat split; try reflexivity; intros H'; discriminate H'.
  - phi_fields. rewrite ?Hr.
    repeat split; try reflexivity; try discriminate; intros; congruence.
Qed.

Lemma set_sample_rate_restarts_witness :
  PhiSensor.g_sample_counter
    (snd (PhiSensor.phi_sensor_set_sample_rate 60 123456
            (PhiSensor.fire [(33333, PhiSensor.mid_scale)]
               PhiSensor.running_sensor))) = 0.
Proof.
  refine (proj1 (proj1 (proj2 (proj2 (proj2 (proj2 (proj2
            (proj2 (proj2
               (set_sample_rate_restarts 60 123456
                  (PhiSensor.fire [(33333, PhiSensor.mid_scale)]
                     PhiSensor.running_sensor) _)) eq_refl)))))) eq_refl)).
  intros _. reflexivity.
Defined.

(** X19. What a firing of the interrupt stores for each channel: the raw
reading as a 16-bit value, its voltage, and as the normalised value the
calibrated reading, passed through the moving average when filtering is
enabled.  The filter state of the channel becomes that average when
filtering is enabled and is left alone otherwise. *)
Theorem isr_sample_layout :
  forall (t : Z) (adc : nat -> Z) (g : PhiSensor.Globals) (ch : nat),
    PhiSensor.g_running g = true ->
    length (PhiSensor.g_filter_state g) = PhiSensor.PHI_SENSOR_CHANNELS ->
    (ch < PhiSensor.PHI_SENSOR_CHANNELS)%nat ->
    let g' := PhiSensor.sample_timer_isr t adc g in
    let d := PhiSensor.g_current_data g' in
    nth ch (PhiSensor.raw_adc d) 0 = wrap 16 (adc ch)
    /\ nth ch (PhiSensor.voltage d) F32.zero
       = PhiSensor.adc_to_voltage (wrap 16 (adc ch))
    /\ nth ch (PhiSensor.normalized d) F32.zero
       = (if PhiSensor.enable_filtering (PhiSensor.g_config g)
          then PhiSensor.channel_average g adc ch
          else PhiSensor.channel_reading g adc ch)
    /\ nth ch (PhiSensor.g_filter_state g') F32.zero
       = (if PhiSensor.enable_filtering (PhiSensor.g_config g)
          then PhiSensor.channel_average g adc ch
          else nth ch (PhiSensor.g_filter_state g) F32.zero).
Proof.
  intros t adc g ch Hrun Hlen Hch. cbv zeta.
  unfold PhiSensor.sample_timer_isr. rewrite Hrun. cbn [negb]. cbv zeta.
  destruct g as [[pins rate flt cutoff ecal] st cal ini run cnt last cur rdy fs].
  cbn [PhiSensor.g_filter_state PhiSensor.g_config
       PhiSensor.enable_filtering] in *.
  destruct fs as [|f0 [|f1 [|f2 [|f3 [|f4 fs]]]]]; try discriminate Hlen.
  unfold PhiSensor.PHI_SENSOR_CHANNELS in *.
  unfold PhiSensor.channel_average, PhiSensor.channel_reading,
    PhiSensor.apply_calibration.
  destruct flt;
    cbn [for_loop]; unfold PhiSensor.sample_channel, PhiSensor.apply_filter,
      PhiSensor.apply_calibration, PhiSensor.zero_data, PhiSensor.zeros,
      PhiSensor.PHI_SENSOR_CHANNELS;
    phi_fields; cbn [replicate];
    do 4 (destruct ch as [|ch]; [repeat split; reflexivity|]); lia.
Qed.

Lemma isr_sample_layout_witness :
  nth 2 (PhiSensor.normalized
           (PhiSensor.g_current_data
              (PhiSensor.sample_timer_isr 33333 PhiSensor.mid_scale
                 PhiSensor.running_sensor))) F32.zero
  = PhiSensor.channel_average PhiSensor.running_sensor PhiSensor.mid_scale 2.
Proof.
  refine (proj1 (proj2 (proj2
            (isr_sample_layout 33333 PhiSensor.mid_scale
               PhiSensor.running_sensor 2%nat eq_refl eq_refl _)))).
  vm_compute. lia.
Defined.

